(** * A shallow embedding of [static/js/dashboard.js]

    The dashboard view-controller is one closure, [initDashboard], holding
    two variables ([prefersReduced], [metricsAbort]) and eight inner
    functions.  This development embeds those functions over

    - IEEE 754 binary64 numbers (the ECMAScript Number type), built on the
      [SpecFloat] operations of the standard library, which compute and
      need no axiom;
    - the values a JSON response can decode to ([JsVal]), with the
      ECMAScript abstract operations the source applies to them
      (ToBoolean, ToNumber, ToString, property reads, [||], [??], [===]);
    - ECMA-402 number formatting ([toLocaleString]);
    - an error-and-state monad over the two DOM regions, the KPI elements,
      the console and the animation-frame queue;
    - an event model of fetch, [AbortController] and the continuations of
      the async function [fetchMetricsOnce].

    What the browser decides is a parameter ([Host]): the reduced-motion
    media query, the locale, [Math.pow(., 3)], the clock, the printing of
    dates.  Four conventions hold throughout, each with the condition
    under which it is what a browser does.

    - Property reads see own properties only.  The fixed names the source
      reads off a payload are foreign to the built-in prototypes; a read
      by a [data-key] is the browser's when [Js.reads_own] holds.
    - ToString and ToNumber are total.  A browser throws a TypeError on
      an object that has a [toString] field of its own, which JSON cannot
      make callable; [Js.convertible] excludes these, and [Js.Error]
      fails on them as [new Error] does.
    - A string is its UTF-8 bytes.
    - Numbers are printed from their exact value, as ECMA-402 words it.
      The number of fraction digits, the symbols of NaN and infinity and
      the digits of an integer below 2^53 do not depend on that choice.
      [Math.pow(., 3)] is the host's; [Hosts.cube_accurate] says how
      close to the cube it has to be.

    The file has four parts: the embedding (definitions only), facts
    about it, the statements C1 to C10 about the specification, and
    further properties of the code, X1 to X27. *)

From Stdlib Require Import ZArith List String Ascii Bool Lia Sorted.
From Stdlib Require Import QArith Qabs Qpower Lqa.
From Stdlib Require Import Floats.SpecFloat.
Import ListNotations.
Close Scope Q_scope.

Set Warnings "-register-all".

(* ===================================================================== *)
(** * Numbers *)
(* ===================================================================== *)

Module Num.
Local Open Scope Z_scope.

Definition prec : Z := 53.
Definition emax : Z := 1024.

(** A Number is a binary64 datum; [is_double] is the canonical-mantissa
    side condition under which a [S754_finite] triple denotes one. *)
Definition number : Type := spec_float.
Definition is_double (x : number) : bool := valid_binary prec emax x.

Definition nan : number := S754_nan.
Definition zero : number := S754_zero false.
Definition neg_zero : number := S754_zero true.

Definition is_nan (x : number) : bool :=
  match x with S754_nan => true | _ => false end.
Definition is_zero (x : number) : bool :=
  match x with S754_zero _ => true | _ => false end.
Definition is_finite (x : number) : bool :=
  match x with S754_zero _ | S754_finite _ _ _ => true | _ => false end.
Definition sign_bit (x : number) : bool :=
  match x with
  | S754_zero s | S754_infinity s | S754_finite s _ _ => s
  | S754_nan => false
  end.

(** The Number nearest to an integer, and to a quotient of integers
    (round to nearest, ties to even). *)
Definition of_Z (z : Z) : number := binary_normalize prec emax z 0 false.
Definition of_ratio (s : bool) (p q : positive) : number :=
  SFdiv prec emax (S754_finite s p 0) (S754_finite false q 0).

Definition one : number := of_Z 1.

Definition add : number -> number -> number := SFadd prec emax.
Definition sub : number -> number -> number := SFsub prec emax.
Definition mul : number -> number -> number := SFmul prec emax.
Definition div : number -> number -> number := SFdiv prec emax.
Definition ltb : number -> number -> bool := SFltb.

(** [Math.min(a, b)]: NaN if either is NaN; -0 is below +0. *)
Definition Math_min (a b : number) : number :=
  if is_nan a || is_nan b then nan
  else if ltb a b then a
  else if ltb b a then b
  else if is_zero a && sign_bit a then a
  else b.

(** The integer nearest to a finite datum, ties upwards. *)
Definition nearest_integer (x : number) : Z :=
  match x with
  | S754_finite s m e =>
      let v := cond_Zopp s (Zpos m) in
      if 0 <=? e then v * 2 ^ e else (2 * v + 2 ^ (- e)) / 2 ^ (- e + 1)
  | _ => 0
  end.

(** [Math.round(x)]: the integral Number closest to [x], ties towards
    +Infinity; [x] itself when it is already integral or not finite; the
    sign of [x] is kept on a zero result. *)
Definition Math_round (x : number) : number :=
  match x with
  | S754_finite s m e =>
      if 0 <=? e then x
      else
        let v := cond_Zopp s (Zpos m) in
        let r := (2 * v + 2 ^ (- e)) / 2 ^ (- e + 1) in
        match r with
        | Z0 => S754_zero s
        | _ => of_Z r
        end
  | _ => x
  end.

(** [round_scaled m e f] is the integer nearest to [m * 2^e * 10^f],
    ties upwards: the [n] of ECMA-402 ToRawFixed for a positive datum. *)
Definition round_scaled (m : positive) (e : Z) (f : nat) : Z :=
  let t := Zpos m * 10 ^ Z.of_nat f in
  if 0 <=? e then t * 2 ^ e
  else (2 * t + 2 ^ (- e)) / 2 ^ (- e + 1).

(** The cube, correctly rounded: one conforming choice for
    [Math.pow(x, 3)], which ECMAScript leaves implementation-approximated
    away from its special cases. *)
Definition cube (x : number) : number :=
  match x with
  | S754_finite s m e =>
      binary_normalize prec emax (cond_Zopp s (Zpos (m * m * m))) (3 * e) false
  | _ => x
  end.

(** The value of a finite datum, as a rational number; 0 for what has
    no value. *)
Definition to_Q (x : number) : Q :=
  match x with
  | S754_finite s m e => (inject_Z (cond_Zopp s (Zpos m)) * 2 ^ e)%Q
  | _ => 0%Q
  end.
End Num.

Abbreviation number := Num.number.

(* ===================================================================== *)
(** * Strings *)
(* ===================================================================== *)

(** A JavaScript string is modelled by its UTF-8 bytes. *)

Module Text.
Local Open Scope string_scope.

Definition nl : string := String (ascii_of_nat 10) EmptyString.

(** Markup literals of the source are written with [~] in place of the
    double quote, which [html] puts back. *)
Fixpoint html (s : string) : string :=
  match s with
  | EmptyString => EmptyString
  | String c r =>
      String (if Ascii.eqb c "~"%char then ascii_of_nat 34 else c) (html r)
  end.

(** The lines of a multi-line template literal. *)
Definition lines (l : list string) : string := String.concat nl l.

Fixpoint repeat_string (n : nat) (s : string) : string :=
  match n with O => "" | S k => s ++ repeat_string k s end.

Definition digit_char (d : Z) : ascii := ascii_of_nat (48 + Z.to_nat d).

(** Decimal digits of a natural number, most significant first. *)
Fixpoint dec_loop (fuel : nat) (n : Z) (acc : string) : string :=
  match fuel with
  | O => acc
  | S k =>
      let acc' := String (digit_char (n mod 10)) acc in
      if (n / 10 =? 0)%Z then acc' else dec_loop k (n / 10)%Z acc'
  end.
Definition dec (n : Z) : string :=
  dec_loop (S (Z.to_nat (Z.log2 n))) n "".

(** [frac_digits f r]: the last [f] decimal digits of [r]. *)
Fixpoint frac_digits (f : nat) (r : Z) : string :=
  match f with
  | O => ""
  | S k => frac_digits k (r / 10)%Z ++ String (digit_char (r mod 10)) ""
  end.

(** Number of UTF-16 code units of a UTF-8 string: one per code point,
    two for a code point outside the basic plane (a 4-byte sequence). *)
Fixpoint utf16_length (s : string) : nat :=
  match s with
  | EmptyString => O
  | String c r =>
      let b := nat_of_ascii c in
      ((if (b <? 128) || (192 <=? b) then 1 else 0)
       + (if 240 <=? b then 1 else 0) + utf16_length r)%nat
  end.

Definition byte_string (l : list nat) : string :=
  fold_right (fun b r => String (ascii_of_nat b) r) "" l.
End Text.

(* ===================================================================== *)
(** * Number to string, string to number *)
(* ===================================================================== *)

Module NumText.
Import Num Text.
Local Open Scope string_scope.
Local Open Scope Z_scope.

(** Structural identity of two data (NaN is itself, -0 is not +0). *)
Definition same (x y : number) : bool :=
  match x, y with
  | S754_nan, S754_nan => true
  | S754_zero a, S754_zero b => Bool.eqb a b
  | S754_infinity a, S754_infinity b => Bool.eqb a b
  | S754_finite a m e, S754_finite b n f =>
      Bool.eqb a b && Pos.eqb m n && Z.eqb e f
  | _, _ => false
  end.

(** The Number for the decimal [s * 10^x]. *)
Definition of_decimal (neg : bool) (s x : Z) : number :=
  match s with
  | Zpos p =>
      if 0 <=? x
      then binary_normalize prec emax (cond_Zopp neg (s * 10 ^ x)) 0 false
      else of_ratio neg p (Z.to_pos (10 ^ (- x)))
  | _ => S754_zero neg
  end.

(** ** Number::toString, radix 10

    For [v = a / b > 0], [dec_exponent] is the [n] with
    [10^(n-1) <= v < 10^n]; [shortest] looks for the least [k] and the
    [k]-digit [s] such that [s * 10^(n-k)] reads back as the datum. *)
Fixpoint count_digits (fuel : nat) (n : Z) : Z :=
  match fuel with
  | O => 0
  | S k => if n =? 0 then 0 else 1 + count_digits k (n / 10)
  end.

Fixpoint leading_zeros (fuel : nat) (a b : Z) : Z :=
  match fuel with
  | O => 0
  | S k => if b <=? a * 10 then 0 else 1 + leading_zeros k (a * 10) b
  end.

Definition dec_exponent (a b : Z) : Z :=
  if b <=? a then count_digits 400 (a / b) else - leading_zeros 400 a b.

Fixpoint shortest (fuel : nat) (k : Z) (x : number) (a b n : Z)
  : Z * Z * Z :=
  match fuel with
  | O => (0, k, n)
  | S fuel' =>
      let sh := k - n in
      let num := if 0 <=? sh then a * 10 ^ sh else a in
      let den := if 0 <=? sh then b else b * 10 ^ (- sh) in
      let lo := num / den in
      let hi := lo + 1 in
      let reads s := same (of_decimal false s (n - k)) x in
      (* [hi = 10^k] is the [k]-digit [10^(k-1)] one decade up *)
      let up := if hi =? 10 ^ k then (10 ^ (k - 1), k, n + 1) else (hi, k, n) in
      match reads lo, reads hi with
      | true, true =>
          match 2 * num ?= (2 * lo + 1) * den with
          | Lt => (lo, k, n)
          | Gt => up
          | Eq => if Z.even lo then (lo, k, n) else up
          end
      | true, false => (lo, k, n)
      | false, true => up
      | false, false => shortest fuel' (k + 1) x a b n
      end
  end.

Definition render_decimal (ds : string) (k n : Z) : string :=
  let e := n - 1 in
  let sgn : string := if 0 <=? e then "+" else "-" in
  let exp_part := ("e" ++ sgn ++ dec (Z.abs e)) in
  if (k <=? n) && (n <=? 21) then
    ds ++ repeat_string (Z.to_nat (n - k)) "0"
  else if (0 <? n) && (n <=? 21) then
    (substring 0 (Z.to_nat n) ds ++ "." ++
     substring (Z.to_nat n) (Z.to_nat (k - n)) ds)
  else if (-6 <? n) && (n <=? 0) then
    ("0." ++ repeat_string (Z.to_nat (- n)) "0" ++ ds)
  else if k =? 1 then (ds ++ exp_part)
  else
    (substring 0 1 ds ++ "." ++ substring 1 (Z.to_nat (k - 1)) ds
     ++ exp_part).

Definition number_to_string (x : number) : string :=
  match x with
  | S754_nan => "NaN"
  | S754_zero _ => "0"
  | S754_infinity s => if s then "-Infinity" else "Infinity"
  | S754_finite s m e =>
      let a := if 0 <=? e then Zpos m * 2 ^ e else Zpos m in
      let b := if 0 <=? e then 1 else 2 ^ (- e) in
      let '(d, k, n) :=
        shortest 20 1 (S754_finite false m e) a b (dec_exponent a b) in
      let sgn : string := if s then "-" else "" in
      sgn ++ render_decimal (dec d) k n
  end.

(** ** StringToNumber

    White space and line terminators are trimmed; the empty string is
    +0; what is left must be [Infinity] with an optional sign, a signed
    decimal literal, or an unsigned [0x], [0o] or [0b] literal; anything
    else is NaN. *)
Definition white_space : list string :=
  map byte_string
    ([[9%nat]; [10%nat]; [11%nat]; [12%nat]; [13%nat]; [32%nat];
      [194; 160]%nat; [239; 187; 191]%nat; [225; 154; 128]%nat;
      [226; 128; 168]%nat; [226; 128; 169]%nat; [226; 128; 175]%nat;
      [226; 129; 159]%nat; [227; 128; 128]%nat]
     ++ map (fun b => [226; 128; b]%nat) (seq 128 11)).

Fixpoint drop_prefix (p s : string) : option string :=
  match p, s with
  | EmptyString, _ => Some s
  | String a p', String b s' =>
      if Ascii.eqb a b then drop_prefix p' s' else None
  | _, _ => None
  end.

Fixpoint drop_any (ps : list string) (s : string) : option string :=
  match ps with
  | [] => None
  | p :: ps' =>
      match drop_prefix p s with
      | Some r => Some r
      | None => drop_any ps' s
      end
  end.

Fixpoint ltrim (fuel : nat) (ps : list string) (s : string) : string :=
  match fuel with
  | O => s
  | S k => match drop_any ps s with Some r => ltrim k ps r | None => s end
  end.

Definition rev_string (s : string) : string :=
  string_of_list_ascii (rev (list_ascii_of_string s)).

Definition trim (s : string) : string :=
  let l := ltrim (String.length s) white_space s in
  rev_string
    (ltrim (String.length l) (map rev_string white_space) (rev_string l)).

(** A maximal run of digits in base [base]: its value, its length and
    what follows it. *)
Definition digit_value (base : Z) (c : ascii) : option Z :=
  let b := Z.of_nat (nat_of_ascii c) in
  let d :=
    if (48 <=? b) && (b <=? 57) then b - 48
    else if (97 <=? b) && (b <=? 102) then b - 87
    else if (65 <=? b) && (b <=? 70) then b - 55
    else base in
  if d <? base then Some d else None.

Fixpoint span_digits (base : Z) (s : string) (acc : Z) (len : Z)
  : Z * Z * string :=
  match s with
  | EmptyString => (acc, len, s)
  | String c r =>
      match digit_value base c with
      | Some d => span_digits base r (acc * base + d) (len + 1)
      | None => (acc, len, s)
      end
  end.

Definition parse_radix (s : string) : option number :=
  match s with
  | String "0" (String c r) =>
      let base :=
        if Ascii.eqb c "x" || Ascii.eqb c "X" then 16
        else if Ascii.eqb c "o" || Ascii.eqb c "O" then 8
        else if Ascii.eqb c "b" || Ascii.eqb c "B" then 2
        else 0 in
      if base =? 0 then None
      else
        match span_digits base r 0 0 with
        | (v, len, EmptyString) => if 0 <? len then Some (of_Z v) else None
        | _ => None
        end
  | _ => None
  end.

Definition split_sign (s : string) : bool * string :=
  match s with
  | String "-" r => (true, r)
  | String "+" r => (false, r)
  | _ => (false, s)
  end.

(** The digits [s] and the decimal exponent [x] of an unsigned decimal
    literal, with the number of digits read. *)
Definition parse_decimal (u : string) : option (Z * Z * Z) :=
  let '(ip, ni, r1) := span_digits 10 u 0 0 in
  let '(m, nf, r2) :=
    match r1 with
    | String "." r => span_digits 10 r ip 0
    | _ => (ip, 0, r1)
    end in
  if ni + nf =? 0 then None
  else
    match r2 with
    | EmptyString => Some (m, - nf, ni + nf)
    | String c r =>
        if Ascii.eqb c "e" || Ascii.eqb c "E" then
          let '(neg, ds) := split_sign r in
          match span_digits 10 ds 0 0 with
          | (x, len, EmptyString) =>
              if 0 <? len then Some (m, cond_Zopp neg x - nf, ni + nf)
              else None
          | _ => None
          end
        else None
    end.

Definition StringToNumber (s : string) : number :=
  let t := trim s in
  if String.eqb t "" then zero
  else
    match parse_radix t with
    | Some n => n
    | None =>
        let '(neg, u) := split_sign t in
        if String.eqb u "Infinity" then S754_infinity neg
        else
          match parse_decimal u with
          | Some (m, x, len) =>
              (* beyond these bounds the value is above every finite
                 Number, or below half the least one *)
              if m =? 0 then S754_zero neg
              else if 400 <? x then S754_infinity neg
              else if x <? - (len + 400) then S754_zero neg
              else of_decimal neg m x
          | None => nan
          end
    end.
End NumText.

(* ===================================================================== *)
(** * Values and the abstract operations applied to them *)
(* ===================================================================== *)

(** What [response.json()] can produce, plus [undefined], which property
    reads add.  An object lists its own properties in insertion order; a
    parsed object has no two entries with one key. *)
Inductive JsVal : Type :=
| VUndefined
| VNull
| VBool (b : bool)
| VNum (n : number)
| VStr (s : string)
| VArr (items : list JsVal)
| VObj (fields : list (string * JsVal)).

(** Thrown values: an error object with its [name] and [message]. *)
Record JsError : Type := { name : string; message : string }.

Inductive Completion (A : Type) : Type :=
| Normal (a : A)
| Throw (e : JsError).
Arguments Normal {A} a.
Arguments Throw {A} e.

Module Js.
Import Num Text NumText.
Local Open Scope string_scope.

Definition ToBoolean (v : JsVal) : bool :=
  match v with
  | VUndefined | VNull => false
  | VBool b => b
  | VNum n => negb (is_zero n || is_nan n)
  | VStr s => negb (String.eqb s "")
  | VArr _ | VObj _ => true
  end.

(** ToString; an array joins its elements with commas, [null] and
    [undefined] elements contributing nothing. *)
Fixpoint ToString (v : JsVal) : string :=
  match v with
  | VUndefined => "undefined"
  | VNull => "null"
  | VBool b => if b then "true" else "false"
  | VNum n => number_to_string n
  | VStr s => s
  | VArr items =>
      (fix join (l : list JsVal) : string :=
         match l with
         | [] => ""
         | x :: r =>
             let sx :=
               match x with
               | VUndefined | VNull => ""
               | _ => ToString x
               end in
             match r with
             | [] => sx
             | _ => sx ++ "," ++ join r
             end
         end) items
  | VObj _ => "[object Object]"
  end.

(** ToNumber, spelled [Number(v)] in the source. *)
Definition Number (v : JsVal) : number :=
  match v with
  | VUndefined => nan
  | VNull => zero
  | VBool b => if b then one else zero
  | VNum n => n
  | VStr s => StringToNumber s
  | VArr _ | VObj _ => StringToNumber (ToString v)
  end.

(** [a || b] and [a ?? b]. *)
Definition or (a b : JsVal) : JsVal := if ToBoolean a then a else b.
Definition coalesce (a b : JsVal) : JsVal :=
  match a with
  | VUndefined | VNull => b
  | _ => a
  end.

(** [v === 'literal']. *)
Definition is_string (v : JsVal) (lit : string) : bool :=
  match v with
  | VStr s => String.eqb s lit
  | _ => false
  end.

(** [a > b] on values: both sides go through ToNumber unless both are
    strings, which compare as strings; the source only compares against
    numbers. *)
Definition gt_number (a : JsVal) (b : number) : bool := ltb b (Number a).

(** ** Property reads

    Own properties only: the fixed names the source reads ([ok],
    [counts], [error], [total_debt], [color], ...) are not defined by
    any built-in prototype.  An array owns its indices and [length], a
    string its code units and [length]. *)
Fixpoint assoc (k : string) (l : list (string * JsVal)) : JsVal :=
  match l with
  | [] => VUndefined
  | (k', v) :: r => if String.eqb k k' then v else assoc k r
  end.

Definition array_index (k : string) : option nat :=
  match span_digits 10 k 0 0 with
  | (v, _, EmptyString) =>
      if String.eqb (dec v) k then Some (Z.to_nat v) else None
  | _ => None
  end.

(** The code unit at UTF-16 position [i] of a UTF-8 string, as a string
    of its own (a surrogate half comes out in its 3-byte form). *)
Definition unit_bytes (u : N) : string :=
  String (ascii_of_N (224 + u / 4096))
    (String (ascii_of_N (128 + (u / 64) mod 64))
       (String (ascii_of_N (128 + u mod 64)) "")).

Definition byte_at (k : nat) (s : string) : N :=
  match String.get k s with Some a => N_of_ascii a | None => 0 end.

Fixpoint code_unit_at (s : string) (i : nat) : option string :=
  match s with
  | EmptyString => None
  | String c r =>
      let b := N_of_ascii c in
      if (b <? 128)%N then
        match i with O => Some (String c "") | S j => code_unit_at r j end
      else if (b <? 192)%N then code_unit_at r i
      else if (b <? 224)%N then
        match i with O => Some (substring 0 2 s) | S j => code_unit_at r j end
      else if (b <? 240)%N then
        match i with O => Some (substring 0 3 s) | S j => code_unit_at r j end
      else
        let cp := ((b mod 8) * 262144 + (byte_at 1 s mod 64) * 4096
                   + (byte_at 2 s mod 64) * 64 + byte_at 3 s mod 64
                   - 65536)%N in
        match i with
        | O => Some (unit_bytes (55296 + cp / 1024))
        | S O => Some (unit_bytes (56320 + cp mod 1024))
        | S (S j) => code_unit_at r j
        end
  end.

Definition own_property (v : JsVal) (k : string) : JsVal :=
  match v with
  | VObj fields => assoc k fields
  | VArr items =>
      if String.eqb k "length" then VNum (of_Z (Z.of_nat (List.length items)))
      else match array_index k with
           | Some i => nth i items VUndefined
           | None => VUndefined
           end
  | VStr s =>
      if String.eqb k "length" then VNum (of_Z (Z.of_nat (utf16_length s)))
      else match array_index k with
           | Some i => match code_unit_at s i with
                       | Some u => VStr u
                       | None => VUndefined
                       end
           | None => VUndefined
           end
  | _ => VUndefined
  end.

(** Whether [k] names an own property of [v]. *)
Definition has_own (v : JsVal) (k : string) : bool :=
  match v with
  | VObj fields => existsb (fun kv => String.eqb k (fst kv)) fields
  | VArr items =>
      String.eqb k "length"
      || match array_index k with
         | Some i => (i <? List.length items)%nat
         | None => false
         end
  | VStr s =>
      String.eqb k "length"
      || match array_index k with
         | Some i => match code_unit_at s i with
                     | Some _ => true
                     | None => false
                     end
         | None => false
         end
  | _ => false
  end.

(** The properties of [%Object.prototype%] (ECMAScript 20.1.3 and
    B.2.2), which every object parsed from JSON inherits. *)
Definition object_prototype_names : list string :=
  ["constructor"; "hasOwnProperty"; "isPrototypeOf"; "propertyIsEnumerable";
   "toLocaleString"; "toString"; "valueOf"; "__proto__";
   "__defineGetter__"; "__defineSetter__"; "__lookupGetter__";
   "__lookupSetter__"].

(** One read of the source takes its key from the page: [counts[key]] in
    [applyMetrics].  [reads_own v k] tells when [own_property v k] is
    what [v[k]] evaluates to: [k] is an own property of [v], or [v] is an
    object and its prototype has no property of that name.  (The
    prototypes of arrays, strings, numbers and booleans vary with the
    engine; for them only own keys are covered.) *)
Definition reads_own (v : JsVal) (k : string) : bool :=
  has_own v k
  || match v with
     | VObj _ => negb (existsb (String.eqb k) object_prototype_names)
     | _ => false
     end.

Definition TypeError (msg : string) : JsError :=
  {| name := "TypeError"; message := msg |}.

(** ** When the conversions complete

    ToString and ToNumber convert an object through its [toString] and
    [valueOf] methods.  An object parsed from JSON inherits both from
    [%Object.prototype%], unless it has an own property of that name,
    which - never being callable - hides the method.  With an own
    [toString] both conversions throw a TypeError (the inherited
    [valueOf] returns the object itself); an own [valueOf] alone does no
    harm.  An array converts by joining the conversions of its elements.
    [ToString] and [Number] above give the result of the conversion of a
    value that is [convertible]. *)
Fixpoint convertible (v : JsVal) : bool :=
  match v with
  | VObj fields =>
      negb (existsb (fun kv => String.eqb "toString" (fst kv)) fields)
  | VArr items => forallb convertible items
  | _ => true
  end.

Definition cannot_convert : JsError :=
  TypeError "Cannot convert object to primitive value".

(** [v.k]: a TypeError on [null] and [undefined]. *)
Definition get (v : JsVal) (k : string) : Completion JsVal :=
  match v with
  | VUndefined | VNull =>
      Throw (TypeError ("Cannot read properties of " ++ ToString v
                        ++ " (reading '" ++ k ++ "')"))
  | _ => Normal (own_property v k)
  end.

(** [v?.k]. *)
Definition get_opt (v : JsVal) (k : string) : JsVal :=
  match v with
  | VUndefined | VNull => VUndefined
  | _ => own_property v k
  end.

(** [throw new Error(msg)]: the value thrown.  The constructor converts
    a message other than [undefined] to a string; when that conversion
    fails, its TypeError is what is thrown. *)
Definition Error (msg : JsVal) : JsError :=
  if convertible msg then
    {| name := "Error";
       message := match msg with VUndefined => "" | _ => ToString msg end |}
  else cannot_convert.
End Js.

(* ===================================================================== *)
(** * Number.prototype.toLocaleString (ECMA-402) *)
(* ===================================================================== *)

Module Intl.
Import Num Text.
Local Open Scope string_scope.

(** The two digit options the source passes; both may be left out. *)
Record DigitOptions : Type :=
  { minimumFractionDigits : option nat;
    maximumFractionDigits : option nat }.

Definition no_options : DigitOptions :=
  {| minimumFractionDigits := None; maximumFractionDigits := None |}.

(** SetNumberFormatDigitOptions for the decimal style, whose defaults
    are 0 and 3.  The range check (minimum above maximum) is left out:
    no call of the source can fail it. *)
Definition resolve (o : DigitOptions) : nat * nat :=
  match minimumFractionDigits o, maximumFractionDigits o with
  | None, None => (0, 3)
  | Some mn, None => (mn, Nat.max 3 mn)
  | None, Some mx => (Nat.min 0 mx, mx)
  | Some mn, Some mx => (mn, mx)
  end.

(** The locale-independent outcome of formatting: what is not a number,
    an infinity, or a sign with integer and fraction digits. *)
Inductive Parts : Type :=
| PNaN
| PInfinity (neg : bool)
| PDecimal (neg : bool) (int frac : string).

(** Up to [cut] trailing zeros removed from a digit string. *)
Fixpoint strip_rev (cut : nat) (l : list ascii) : list ascii :=
  match cut, l with
  | S c, a :: r => if Ascii.eqb a "0" then strip_rev c r else l
  | _, _ => l
  end.
Definition strip_zeros (cut : nat) (s : string) : string :=
  string_of_list_ascii (rev (strip_rev cut (rev (list_ascii_of_string s)))).

(** ToRawFixed on the magnitude: [n] is the integer nearest to
    [x * 10^f] (the larger of two), written with [f] fraction digits,
    of which trailing zeros beyond the minimum are dropped. *)
Definition raw_fixed (n : Z) (mn mx : nat) : string * string :=
  let p := (10 ^ Z.of_nat mx)%Z in
  (dec (n / p), strip_zeros (mx - mn) (frac_digits mx (n mod p))).

Definition to_parts (x : number) (o : DigitOptions) : Parts :=
  let '(mn, mx) := resolve o in
  match x with
  | S754_nan => PNaN
  | S754_infinity s => PInfinity s
  | S754_zero s =>
      let '(i, f) := raw_fixed 0 mn mx in PDecimal s i f
  | S754_finite s m e =>
      let '(i, f) := raw_fixed (round_scaled m e mx) mn mx in PDecimal s i f
  end.

(** What a locale contributes. *)
Record Locale : Type :=
  { decimal_separator : string;
    group_separator : string;
    minimum_grouping_digits : nat;
    minus_sign : string;
    nan_symbol : string;
    infinity_symbol : string }.

Definition en_US : Locale :=
  {| decimal_separator := ".";
     group_separator := ",";
     minimum_grouping_digits := 1;
     minus_sign := "-";
     nan_symbol := "NaN";
     infinity_symbol := byte_string [226; 136; 158]%nat |}.

(** Integer digits in groups of three from the right, when there are
    enough of them for the locale. *)
Fixpoint group_rev (sep : list ascii) (count : nat) (l : list ascii)
  : list ascii :=
  match l with
  | [] => []
  | a :: r =>
      if (count =? 3)%nat then sep ++ a :: group_rev sep 1 r
      else a :: group_rev sep (S count) r
  end.

Definition group (loc : Locale) (int : string) : string :=
  if (3 + minimum_grouping_digits loc <=? String.length int)%nat then
    string_of_list_ascii
      (rev (group_rev (rev (list_ascii_of_string (group_separator loc))) 0
              (rev (list_ascii_of_string int))))
  else int.

Definition format (loc : Locale) (p : Parts) : string :=
  match p with
  | PNaN => nan_symbol loc
  | PInfinity s => (if s then minus_sign loc else "") ++ infinity_symbol loc
  | PDecimal s i f =>
      (if s then minus_sign loc else "") ++ group loc i
      ++ (if String.eqb f "" then "" else decimal_separator loc ++ f)
  end.

Definition toLocaleString (loc : Locale) (x : number) (o : DigitOptions)
  : string :=
  format loc (to_parts x o).
End Intl.

(* ===================================================================== *)
(** * The host and the document *)
(* ===================================================================== *)

(** What the browser decides: the media query read once by
    [initDashboard], the default locale, [Math.pow(., 3)] (approximated
    by the implementation away from its special cases), the successive
    readings of [performance.now()], and
    [v => new Date(v).toLocaleString()]. *)
Record Host : Type :=
  { reduced_motion : bool;
    locale : Intl.Locale;
    Math_pow3 : number -> number;
    performance_now : nat -> number;
    Date_toLocaleString : JsVal -> string }.

(** An element matched by [.kpi[data-key]]. *)
Record Kpi : Type :=
  { data_key : string;
    data_format : option string;
    classList : list string;
    textContent : string }.

(** An [li] built by [loadDetails]. *)
Record Li : Type := { className : string; innerHTML : string }.

(** A [new Chart(document.getElementById(canvas), config)] call, by the
    fields of [config] that come from the data. *)
Record Chart : Type :=
  { canvas : string;
    chart_type : string;
    labels : JsVal;
    series : JsVal;
    index_axis : option string;
    center_text : option string }.

(** The closure of a callback handed to [requestAnimationFrame]. *)
Inductive FrameCallback : Type :=
| Tick (el : nat) (format duration : JsVal) (start from to : number)
| RenderCharts (data : JsVal) (percentage : number).

(** The document as the script sees it.  A region is [None] when
    [getElementById] finds no such element, else the markup last assigned
    to its [innerHTML]; [activity_list] holds the children appended to
    [#activityList] while that element exists. *)
Record Dom : Type :=
  { kpis : list Kpi;
    chart_section : option string;
    activity_section : option string;
    activity_list : option (list Li);
    console : list (string * JsError);
    frame_queue : list FrameCallback;
    charts : list Chart;
    clock_reads : nat }.

(** ** Computations over the document that may throw *)

Definition M (A : Type) : Type := Dom -> Completion A * Dom.

Definition ret {A} (a : A) : M A := fun d => (Normal a, d).
Definition throw {A} (e : JsError) : M A := fun d => (Throw e, d).
Definition bind {A B} (m : M A) (k : A -> M B) : M B :=
  fun d =>
    match m d with
    | (Normal a, d') => k a d'
    | (Throw e, d') => (Throw e, d')
    end.
Definition lift {A} (c : Completion A) : M A := fun d => (c, d).
Definition modify (f : Dom -> Dom) : M unit := fun d => (Normal tt, f d).

(** [promise.catch(handler)] and a chain ending in it. *)
Definition catch (m : M unit) (handler : JsError -> M unit) : M unit :=
  fun d =>
    match m d with
    | (Normal a, d') => (Normal a, d')
    | (Throw e, d') => handler e d'
    end.

Declare Scope js_scope.
Delimit Scope js_scope with js.
Notation "x <- m ;; k" := (bind m (fun x => k))
  (at level 61, m at next level, right associativity) : js_scope.
Notation "m ;; k" := (bind m (fun _ => k))
  (at level 61, right associativity) : js_scope.

Fixpoint update_nth {A} (i : nat) (f : A -> A) (l : list A) : list A :=
  match l, i with
  | [], _ => []
  | a :: r, O => f a :: r
  | a :: r, S j => a :: update_nth j f r
  end.

Module DomOps.
Local Open Scope string_scope.

Definition with_kpis (f : list Kpi -> list Kpi) (d : Dom) : Dom :=
  {| kpis := f (kpis d); chart_section := chart_section d;
     activity_section := activity_section d;
     activity_list := activity_list d; console := console d;
     frame_queue := frame_queue d; charts := charts d;
     clock_reads := clock_reads d |}.

(** [el.textContent = s] on the [i]-th KPI element. *)
Definition set_textContent (i : nat) (s : string) : Dom -> Dom :=
  with_kpis (update_nth i (fun k =>
    {| data_key := data_key k; data_format := data_format k;
       classList := classList k; textContent := s |})).

(** [el.classList.remove(token)]. *)
Definition classList_remove (i : nat) (token : string) : Dom -> Dom :=
  with_kpis (update_nth i (fun k =>
    {| data_key := data_key k; data_format := data_format k;
       classList := filter (fun c => negb (String.eqb c token)) (classList k);
       textContent := textContent k |})).

(** [requestAnimationFrame(cb)]. *)
Definition requestAnimationFrame (cb : FrameCallback) (d : Dom) : Dom :=
  {| kpis := kpis d; chart_section := chart_section d;
     activity_section := activity_section d;
     activity_list := activity_list d; console := console d;
     frame_queue := frame_queue d ++ [cb]; charts := charts d;
     clock_reads := clock_reads d |}.

(** [console.error(label, e)]. *)
Definition console_error (label : string) (e : JsError) (d : Dom) : Dom :=
  {| kpis := kpis d; chart_section := chart_section d;
     activity_section := activity_section d;
     activity_list := activity_list d;
     console := console d ++ [(label, e)];
     frame_queue := frame_queue d; charts := charts d;
     clock_reads := clock_reads d |}.

(** [new Chart(...)]. *)
Definition new_Chart (c : Chart) (d : Dom) : Dom :=
  {| kpis := kpis d; chart_section := chart_section d;
     activity_section := activity_section d;
     activity_list := activity_list d; console := console d;
     frame_queue := frame_queue d; charts := charts d ++ [c];
     clock_reads := clock_reads d |}.

Definition cannot_set : JsError :=
  Js.TypeError "Cannot set properties of null (setting 'innerHTML')".

(** [document.getElementById('chart-section').innerHTML = markup]. *)
Definition set_chart_section (markup : string) : M unit := fun d =>
  match chart_section d with
  | None => (Throw cannot_set, d)
  | Some _ =>
      (Normal tt,
       {| kpis := kpis d; chart_section := Some markup;
          activity_section := activity_section d;
          activity_list := activity_list d; console := console d;
          frame_queue := frame_queue d; charts := charts d;
          clock_reads := clock_reads d |})
  end.

(** [document.getElementById('activity-section').innerHTML = markup];
    [list] tells whether the markup holds the [#activityList] element,
    which then starts out empty. *)
Definition set_activity_section (markup : string) (list : bool) : M unit :=
  fun d =>
    match activity_section d with
    | None => (Throw cannot_set, d)
    | Some _ =>
        (Normal tt,
         {| kpis := kpis d; chart_section := chart_section d;
            activity_section := Some markup;
            activity_list := if list then Some [] else None;
            console := console d; frame_queue := frame_queue d;
            charts := charts d; clock_reads := clock_reads d |})
    end.

(** [document.getElementById('activityList').appendChild(li)]. *)
Definition activityList_appendChild (li : Li) : M unit := fun d =>
  match activity_list d with
  | None =>
      (Throw (Js.TypeError
                "Cannot read properties of null (reading 'appendChild')"), d)
  | Some items =>
      (Normal tt,
       {| kpis := kpis d; chart_section := chart_section d;
          activity_section := activity_section d;
          activity_list := Some (items ++ [li])%list; console := console d;
          frame_queue := frame_queue d; charts := charts d;
          clock_reads := clock_reads d |})
  end.
End DomOps.

(* ===================================================================== *)
(** * [initDashboard]: the counter animation and the metrics flow *)
(* ===================================================================== *)

(** How a promise of the fetch API settles: [fetch(url)] is rejected or
    fulfilled with a response, whose [json()] in turn yields a value or
    fails on a malformed body. *)
Inductive Json : Type :=
| Parsed (v : JsVal)
| Malformed (e : JsError).

Record Response : Type := { ok : bool; json : Json }.

Inductive Settled : Type :=
| Rejected (e : JsError)
| Fulfilled (r : Response).

Module Dashboard.
Import Num Text Js Intl DomOps.
Local Open Scope string_scope.
Local Open Scope js_scope.

Section initDashboard.
Variable h : Host.

(** [const prefersReduced = window.matchMedia(...).matches] *)
Definition prefersReduced : bool := reduced_motion h.

Definition easeOutCubic (t : number) : number :=
  sub one (Math_pow3 h (sub one t)).

Definition formatValue (value format : JsVal) : string :=
  let n := Number (or value (VNum zero)) in
  if is_string format "money" then
    toLocaleString (locale h) n
      {| minimumFractionDigits := Some 2; maximumFractionDigits := Some 2 |}
  else if is_string format "percent" then
    toLocaleString (locale h) n
      {| minimumFractionDigits := None; maximumFractionDigits := Some 1 |}
  else toLocaleString (locale h) (Math_round n) no_options.

(** The inner function [tick] of [countUp], with the variables it closes
    over as leading arguments. *)
Definition tick (el : nat) (format duration : JsVal) (start from to : number)
           (now : number) (d : Dom) : Dom :=
  let t := Math_min (div (sub now start) (Number duration)) one in
  let eased := easeOutCubic t in
  let current := add from (mul (sub to from) eased) in
  let d := set_textContent el (formatValue (VNum current) format) d in
  if ltb t one
  then requestAnimationFrame (Tick el format duration start from to) d
  else d.

(** [performance.now()]: the next reading of the host clock. *)
Definition performance_now_read (d : Dom) : number * Dom :=
  (performance_now h (clock_reads d),
   {| kpis := kpis d; chart_section := chart_section d;
      activity_section := activity_section d;
      activity_list := activity_list d; console := console d;
      frame_queue := frame_queue d; charts := charts d;
      clock_reads := S (clock_reads d) |}).

Definition countUp (el : nat) (endValue opts : JsVal) (d : Dom) : Dom :=
  let format := or (get_opt opts "format") (VStr "int") in
  let duration := or (get_opt opts "duration") (VNum (of_Z 750)) in
  if prefersReduced then
    set_textContent el (formatValue endValue format) d
  else
    let '(start, d) := performance_now_read d in
    let from := zero in
    let to := Number (or endValue (VNum zero)) in
    requestAnimationFrame (Tick el format duration start from to) d.

Definition getAttribute_data_format (k : Kpi) : JsVal :=
  match data_format k with
  | Some s => VStr s
  | None => VNull
  end.

(** The body of the [forEach] callback of [applyMetrics], for the
    [i]-th matched element. *)
Definition applyMetrics_each (counts : JsVal) (d : Dom) (i : nat) : Dom :=
  match nth_error (kpis d) i with
  | None => d
  | Some el =>
      let key := data_key el in
      let format := or (getAttribute_data_format el) (VStr "int") in
      let val := coalesce (own_property counts key) (VNum zero) in
      let d := classList_remove i "placeholder" d in
      let d :=
        fold_left
          (fun d n =>
             classList_remove i
               ("col-" ++ ToString (VNum (of_Z (Z.of_nat n)))) d)
          (seq 1 12) d in
      countUp i val
        (VObj [("format", format); ("duration", VNum (of_Z 750))]) d
  end.

Definition applyMetrics (counts : JsVal) (d : Dom) : Dom :=
  if negb (ToBoolean counts) then d
  else fold_left (applyMetrics_each counts) (seq 0 (List.length (kpis d))) d.

(** [fetchMetricsOnce] past its two [await]s: the check of the response
    flag [res.ok] and of the decoded body [data]. *)
Definition metrics_error (data : JsVal) : JsError :=
  Error (or (get_opt data "error") (VStr "Failed to fetch metrics.")).

Definition fetchMetricsOnce_check (res_ok : bool) (data : JsVal)
  : Completion JsVal :=
  if negb res_ok then Throw (metrics_error data)
  else
    match get data "ok" with
    | Throw e => Throw e
    | Normal data_ok =>
        if negb (ToBoolean data_ok) then Throw (metrics_error data)
        else
          match get data "counts" with
          | Throw e => Throw e
          | Normal counts =>
              if negb (ToBoolean counts) then Throw (metrics_error data)
              else get data "counts"
          end
    end.

(** The promise returned by a call of [fetchMetricsOnce] that no later
    call aborts, given how the request settles. *)
Definition fetchMetricsOnce_settled (f : Settled) : Completion JsVal :=
  match f with
  | Rejected e => Throw e
  | Fulfilled res =>
      match json res with
      | Malformed e => Throw e
      | Parsed data => fetchMetricsOnce_check (ok res) data
      end
  end.

(** ** The details flow *)

(** The first [then] of [loadDetails]: a response that is not [ok] is
    turned into an error carrying the body's [error], a body that does
    not parse counting as [{}]. *)
Definition loadDetails_response (response : Response) : Completion JsVal :=
  if negb (ok response) then
    let errData :=
      match json response with
      | Parsed v => v
      | Malformed _ => VObj []
      end in
    Throw (Error (or (get_opt errData "error")
                     (VStr "Failed to fetch dashboard data.")))
  else
    match json response with
    | Parsed v => Normal v
    | Malformed e => Throw e
    end.

Definition percentage_of (total_debt total_paid : JsVal) : number :=
  if gt_number total_debt zero
  then Math_round (mul (div (Number total_paid) (Number total_debt))
                       (of_Z 100))
  else zero.

Definition chart_markup (total_debt total_paid : JsVal) : string :=
  lines
    [ "";
      html "          <div class=~chart-card mb-4~>";
      html "            <h6 class=~text-center~>dY~S Monthly Orders Overview</h6>";
      html "            <div class=~chart-container~><canvas id=~ordersChart~></canvas></div>";
      html "          </div>";
      html "          <div class=~chart-card mb-4~>";
      html "            <h6 class=~text-center~>dY?+ Top Clients by Orders</h6>";
      html "            <div class=~chart-container~><canvas id=~topClientsChart~></canvas></div>";
      html "          </div>";
      html "          <div class=~chart-card mb-4 text-center~>";
      html "            <h6 class=~mb-3~>dY'Å³ Collection Rate</h6>";
      html "            <div class=~chart-container d-flex justify-content-center~>";
      html "              <canvas id=~debtChart~ style=~max-width: 250px;~></canvas>";
      html "            </div>";
      html "            <p class=~mt-3~>Out of GHS " ++ ToString total_debt
        ++ ", you've collected GHS " ++ ToString total_paid ++ "</p>";
      html "          </div>";
      "        " ].

Definition activity_markup : string :=
  lines
    [ "";
      html "            <div class=~chart-card shadow-sm rounded p-3~>";
      html "              <h6 class=~mb-3 fw-bold~>dY" ++ String (ascii_of_nat 7) ""
        ++ "' Recent Activities</h6>";
      html "              <ul class=~list-group list-group-flush~ id=~activityList~></ul>";
      html "            </div>";
      "          " ].

Definition no_activity_markup : string :=
  html "<p class=~text-muted text-center~>No recent activities</p>".

(** The [li] built from the fields of one activity record. *)
Definition activity_li (color icon text time : JsVal) : Li :=
  {| className := "list-group-item d-flex justify-content-between align-items-start flex-wrap px-0 py-2";
     innerHTML :=
       lines
         [ "";
           html "              <div class=~d-flex align-items-start~>";
           html "                <span class=~fs-5 me-2 " ++ ToString color
             ++ html "~>" ++ ToString icon ++ "</span>";
           html "                <div><div class=~fw-medium " ++ ToString color
             ++ html "~>" ++ ToString text ++ "</div></div>";
           html "              </div>";
           html "              <small class=~text-muted ms-auto mt-1~>"
             ++ Date_toLocaleString h time ++ "</small>";
           "            " ] |}.

(** Reading a field of a [null] record throws. *)
Definition activity_item (act : JsVal) : Completion Li :=
  match get act "color", get act "icon", get act "text", get act "time" with
  | Normal color, Normal icon, Normal text, Normal time =>
      Normal (activity_li color icon text time)
  | Throw e, _, _, _ | _, Throw e, _, _ | _, _, Throw e, _
  | _, _, _, Throw e => Throw e
  end.

(** The [li] of a record that is not [null]. *)
Definition item_of (act : JsVal) : Li :=
  activity_li (own_property act "color") (own_property act "icon")
    (own_property act "text") (own_property act "time").

(** [recent_activities.forEach(act => ...)]. *)
Fixpoint append_activities (items : list JsVal) : M unit :=
  match items with
  | [] => ret tt
  | act :: rest =>
      li <- lift (activity_item act) ;;
      activityList_appendChild li ;;
      append_activities rest
  end.

Definition forEach_activity (recent_activities : JsVal) : M unit :=
  match recent_activities with
  | VArr items => append_activities items
  | _ => throw (TypeError "data.recent_activities.forEach is not a function")
  end.

(** The second [then] of [loadDetails]. *)
Definition loadDetails_render (data : JsVal) : M unit :=
  total_debt <- lift (get data "total_debt") ;;
  total_paid <- lift (get data "total_paid") ;;
  let percentage := percentage_of total_debt total_paid in
  set_chart_section (chart_markup total_debt total_paid) ;;
  modify (requestAnimationFrame (RenderCharts data percentage)) ;;
  recent_activities <- lift (get data "recent_activities") ;;
  if ToBoolean recent_activities
     && gt_number (own_property recent_activities "length") zero
  then
    set_activity_section activity_markup true ;;
    forEach_activity recent_activities
  else set_activity_section no_activity_markup false.

Definition chart_error_markup (msg : string) : string :=
  html "<p class=~text-danger~>Chart load failed: " ++ msg ++ "</p>".
Definition activity_error_markup (msg : string) : string :=
  html "<p class=~text-danger~>Activity load failed: " ++ msg ++ "</p>".

(** The [catch] of [loadDetails]. *)
Definition loadDetails_catch (error : JsError) : M unit :=
  modify (console_error "Dashboard Error:" error) ;;
  set_chart_section (chart_error_markup (message error)) ;;
  set_activity_section (activity_error_markup (message error)) false.

(** The chain of [loadDetails] up to its [catch], given how
    [fetch('/home/details')] settles. *)
Definition loadDetails_then (f : Settled) : M unit :=
  data <- lift (match f with
                | Rejected e => Throw e
                | Fulfilled response => loadDetails_response response
                end) ;;
  loadDetails_render data.

(** [loadDetails]. *)
Definition loadDetails (f : Settled) : M unit :=
  catch (loadDetails_then f) loadDetails_catch.

Definition renderCharts (data : JsVal) (percentage : number) : M unit :=
  months <- lift (get data "months") ;;
  order_counts <- lift (get data "order_counts") ;;
  modify (new_Chart
    {| canvas := "ordersChart"; chart_type := "bar"; labels := months;
       series := order_counts; index_axis := None; center_text := None |}) ;;
  top_clients_names <- lift (get data "top_clients_names") ;;
  top_clients_orders <- lift (get data "top_clients_orders") ;;
  modify (new_Chart
    {| canvas := "topClientsChart"; chart_type := "bar";
       labels := top_clients_names; series := top_clients_orders;
       index_axis := Some "y"; center_text := None |}) ;;
  total_paid <- lift (get data "total_paid") ;;
  total_debt <- lift (get data "total_debt") ;;
  modify (new_Chart
    {| canvas := "debtChart"; chart_type := "doughnut";
       labels := VArr [VStr "Collected"; VStr "Remaining"];
       series := VArr [total_paid;
                       VNum (sub (Number total_debt) (Number total_paid))];
       index_axis := None;
       center_text := Some (ToString (VNum percentage) ++ "%") |}).

(** ** Animation frames

    A frame at time [now] runs the callbacks queued before it, in
    order; what they queue waits for the next frame.  An exception
    escaping a callback is reported by the host and stops that callback
    only. *)
Definition run_callback (now : number) (d : Dom) (cb : FrameCallback) : Dom :=
  match cb with
  | Tick el format duration start from to =>
      tick el format duration start from to now d
  | RenderCharts data percentage => snd (renderCharts data percentage d)
  end.

Definition frame (now : number) (d : Dom) : Dom :=
  fold_left (run_callback now) (frame_queue d)
    {| kpis := kpis d; chart_section := chart_section d;
       activity_section := activity_section d;
       activity_list := activity_list d; console := console d;
       frame_queue := []; charts := charts d;
       clock_reads := clock_reads d |}.

Definition frames (nows : list number) (d : Dom) : Dom :=
  fold_left (fun d now => frame now d) nows d.
End initDashboard.
End Dashboard.

(* ===================================================================== *)
(** * The metrics request and its cancellation *)
(* ===================================================================== *)

(** [fetchMetricsOnce] is an async function; between its two [await]s the
    page goes on running and may call it again.  A world records the
    closure variable [metricsAbort], the controllers created so far, the
    requests sent, and where every invocation of the chain
    [fetchMetricsOnce().then(applyMetrics).catch(() => {})] stands.

    An event runs to completion, as a task of the event loop does: the
    continuation of a promise that settles and the [then] handler behind
    it run in the microtasks of one task, and no other task of the page
    comes in between. *)
Module Metrics.
Import Js DomOps Dashboard.
Local Open Scope string_scope.

Record Request : Type := { url : string; cache : string; signal : nat }.

Inductive Phase : Type :=
| AwaitFetch                      (* suspended at [await fetch(...)] *)
| AwaitJson (res_ok : bool)       (* suspended at [await res.json()] *)
| Done (result : Completion JsVal).

Record Invocation : Type := { call_signal : nat; phase : Phase }.

Record World : Type :=
  { metricsAbort : option nat;    (* the controller held, by identity *)
    aborted : list bool;          (* [signal.aborted] of each controller *)
    requests : list Request;
    calls : list Invocation;
    dom : Dom }.

Definition initial (d : Dom) : World :=
  {| metricsAbort := None; aborted := []; requests := []; calls := [];
     dom := d |}.

Definition AbortError : JsError :=
  {| name := "AbortError"; message := "signal is aborted without reason" |}.

(** [controller.abort()]: the signal turns aborted, and the fetch made
    with it, if its response or its body is still awaited, settles by
    rejection with an AbortError. *)
Definition abort_call (c : nat) (i : Invocation) : Invocation :=
  if (call_signal i =? c)%nat then
    match phase i with
    | Done _ => i
    | _ => {| call_signal := call_signal i; phase := Done (Throw AbortError) |}
    end
  else i.

Definition abort (c : nat) (w : World) : World :=
  {| metricsAbort := metricsAbort w;
     aborted := update_nth c (fun _ => true) (aborted w);
     requests := requests w;
     calls := map (abort_call c) (calls w);
     dom := dom w |}.

(** [if (metricsAbort) metricsAbort.abort();] *)
Definition abort_previous (w : World) : World :=
  match metricsAbort w with
  | Some c => abort c w
  | None => w
  end.

(** [metricsAbort = new AbortController();] *)
Definition new_controller (w : World) : World :=
  {| metricsAbort := Some (List.length (aborted w));
     aborted := aborted w ++ [false];
     requests := requests w;
     calls := calls w;
     dom := dom w |}.

(** [fetch('/dashboard/metrics', { cache: 'no-store', signal:
    metricsAbort.signal })], at which the invocation suspends. *)
Definition send_request (w : World) : World :=
  match metricsAbort w with
  | Some c =>
      {| metricsAbort := metricsAbort w;
         aborted := aborted w;
         requests := requests w
                     ++ [{| url := "/dashboard/metrics"; cache := "no-store";
                            signal := c |}];
         calls := calls w ++ [{| call_signal := c; phase := AwaitFetch |}];
         dom := dom w |}
  | None => w
  end.

Definition fetchMetricsOnce_start (w : World) : World :=
  send_request (new_controller (abort_previous w)).

(** What the host may do next. *)
Inductive Event : Type :=
| Call                                   (* the page starts the chain *)
| FetchFails (call : nat) (e : JsError)  (* its fetch promise rejects *)
| Responds (call : nat) (res_ok : bool)  (* its fetch promise fulfils *)
| Body (call : nat) (j : Json)           (* its [res.json()] settles *)
| Frame (now : number).                  (* an animation frame *)

Definition set_phase (i : nat) (p : Phase) (w : World) : World :=
  {| metricsAbort := metricsAbort w; aborted := aborted w;
     requests := requests w;
     calls := update_nth i (fun c => {| call_signal := call_signal c;
                                        phase := p |}) (calls w);
     dom := dom w |}.

Definition with_dom (f : Dom -> Dom) (w : World) : World :=
  {| metricsAbort := metricsAbort w; aborted := aborted w;
     requests := requests w; calls := calls w; dom := f (dom w) |}.

Definition phase_of (w : World) (i : nat) : option Phase :=
  option_map phase (nth_error (calls w) i).

(** What holds of every world the page can reach: each invocation made
    one controller and one request, in step; the closure variable holds
    the latest controller, which is not aborted; every earlier controller
    is aborted and every earlier invocation has settled. *)
Record coherent (w : World) : Prop :=
  { controllers_in_step : List.length (aborted w) = List.length (calls w);
    requests_in_step : List.length (requests w) = List.length (calls w);
    holds_latest :
      metricsAbort w = match List.length (calls w) with
                       | O => None
                       | S k => Some k
                       end;
    own_signal :
      forall i c, nth_error (calls w) i = Some c -> call_signal c = i;
    request_shape :
      forall i r, nth_error (requests w) i = Some r ->
                  r = {| url := "/dashboard/metrics"; cache := "no-store";
                         signal := i |};
    earlier_settled :
      forall i c, nth_error (calls w) i = Some c ->
                  (S i < List.length (calls w))%nat ->
                  exists result, phase c = Done result;
    earlier_aborted :
      forall i, (S i < List.length (calls w))%nat ->
                nth_error (aborted w) i = Some true;
    latest_live :
      forall k, List.length (calls w) = S k ->
                nth_error (aborted w) k = Some false }.

Section Step.
Variable h : Host.

(** One event; the second component lists the invocations whose
    result the event hands to [applyMetrics], with that result. *)
Definition step (w : World) (ev : Event) : World * list (nat * JsVal) :=
  match ev with
  | Call => (fetchMetricsOnce_start w, [])
  | FetchFails i e =>
      match phase_of w i with
      | Some AwaitFetch => (set_phase i (Done (Throw e)) w, [])
      | _ => (w, [])
      end
  | Responds i res_ok =>
      match phase_of w i with
      | Some AwaitFetch => (set_phase i (AwaitJson res_ok) w, [])
      | _ => (w, [])
      end
  | Body i j =>
      match phase_of w i with
      | Some (AwaitJson res_ok) =>
          let result :=
            fetchMetricsOnce_settled
              (Fulfilled {| ok := res_ok; json := j |}) in
          let w := set_phase i (Done result) w in
          match result with
          | Normal counts =>
              (with_dom (applyMetrics h counts) w, [(i, counts)])
          | Throw _ => (w, [])       (* [.catch(() => {})] *)
          end
      | _ => (w, [])
      end
  | Frame now => (with_dom (frame h now) w, [])
  end.

Fixpoint run (w : World) (evs : list Event) : World * list (nat * JsVal) :=
  match evs with
  | [] => (w, [])
  | ev :: rest =>
      let '(w1, a1) := step w ev in
      let '(w2, a2) := run w1 rest in
      (w2, a1 ++ a2)%list
  end.
End Step.
End Metrics.

(* ===================================================================== *)
(** * A concrete host *)
(* ===================================================================== *)

(** An en-US browser whose [Math.pow(x, 3)] is correctly rounded, whose
    clock reads 1000 ms for as long as the script runs without yielding,
    and whose dates print in a fixed shape. *)
Definition browser (reduced : bool) : Host :=
  {| reduced_motion := reduced;
     locale := Intl.en_US;
     Math_pow3 := Num.cube;
     performance_now := fun _ => Num.of_Z 1000;
     Date_toLocaleString := fun v => ("Date(" ++ Js.ToString v ++ ")")%string |}.

(* ===================================================================== *)
(** * Observations *)
(* ===================================================================== *)

(** What the statements below read off a document. *)
Module Obs.
(** The text shown by the [i]-th KPI element. *)
Definition text_of (d : Dom) (i : nat) : option string :=
  option_map textContent (nth_error (kpis d) i).

Definition is_tick_for (i : nat) (cb : FrameCallback) : bool :=
  match cb with
  | Tick el _ _ _ _ _ => Nat.eqb el i
  | RenderCharts _ _ => false
  end.

(** The animation callbacks pending for the [i]-th KPI element. *)
Definition ticks_for (i : nat) (d : Dom) : list FrameCallback :=
  filter (is_tick_for i) (frame_queue d).

Definition is_render (cb : FrameCallback) : bool :=
  match cb with
  | RenderCharts _ _ => true
  | Tick _ _ _ _ _ _ => false
  end.

(** The chart-render callbacks pending. *)
Definition renders (d : Dom) : list FrameCallback :=
  filter is_render (frame_queue d).

(** The keys and formats of the KPI elements, and their texts. *)
Definition attrs (d : Dom) : list (string * option string) :=
  map (fun k => (data_key k, data_format k)) (kpis d).
Definition texts (d : Dom) : list string := map textContent (kpis d).

(** The format and the end value [applyMetrics] hands to [countUp] for
    an element. *)
Definition format_for (el : Kpi) : JsVal :=
  Js.or (Dashboard.getAttribute_data_format el) (VStr "int").
Definition value_for (counts : JsVal) (el : Kpi) : JsVal :=
  Js.coalesce (Js.own_property counts (data_key el)) (VNum Num.zero).

(** The elapsed fraction a frame at [now] computes for an animation
    started at [start] and lasting 750 ms. *)
Definition fraction (start now : number) : number :=
  Num.Math_min (Num.div (Num.sub now start) (Num.of_Z 750)) Num.one.

(** What a frame at [now] writes for an animation, and whether the
    animation goes on after it. *)
Definition written (h : Host) (format duration : JsVal)
           (start from to now : number) : string :=
  let t := Num.Math_min (Num.div (Num.sub now start) (Js.Number duration))
                        Num.one in
  Dashboard.formatValue h
    (VNum (Num.add from (Num.mul (Num.sub to from) (Dashboard.easeOutCubic h t))))
    format.

Definition again (duration : JsVal) (start now : number) : bool :=
  Num.ltb (Num.Math_min (Num.div (Num.sub now start) (Js.Number duration))
                        Num.one) Num.one.

Definition is_null (v : JsVal) : bool :=
  match v with
  | VUndefined | VNull => true
  | _ => false
  end.

(** What the statements below ask of a payload, beyond its shape: that
    the values the script converts to a string or to a number can be
    converted ([Js.convertible]) - the values of the counts under the
    keys of the page, the two amounts of the details, the four fields of
    an activity record - and that the keys of the page are read as own
    properties of the counts ([Js.reads_own]). *)
Definition values_convert (counts : JsVal) (d : Dom) : bool :=
  forallb (fun el => Js.convertible (Js.own_property counts (data_key el)))
          (kpis d).
Definition keys_read_own (counts : JsVal) (d : Dom) : bool :=
  forallb (fun el => Js.reads_own counts (data_key el)) (kpis d).
Definition amounts_convert (data : JsVal) : bool :=
  Js.convertible (Js.own_property data "total_debt")
  && Js.convertible (Js.own_property data "total_paid").
Definition activity_record (act : JsVal) : bool :=
  negb (is_null act)
  && forallb (fun k => Js.convertible (Js.own_property act k))
             ["color"; "icon"; "text"; "time"]%string.

(** Two documents with the same keys, formats and texts, the same
    pending callbacks and the same clock. *)
Definition same_view (d d' : Dom) : Prop :=
  attrs d' = attrs d /\ texts d' = texts d /\
  frame_queue d' = frame_queue d /\ clock_reads d' = clock_reads d.

(** The callback [countUp] queues for the [i]-th element when
    [applyMetrics] starts from [d]. *)
Definition first_tick (h : Host) (counts : JsVal) (d : Dom) (i : nat)
           (el : Kpi) : FrameCallback :=
  Tick i (format_for el) (VNum (Num.of_Z 750))
    (performance_now h (clock_reads d + i)) Num.zero
    (Js.Number (Js.or (value_for counts el) (VNum Num.zero))).

(** Two documents that differ at most in the activity list. *)
Definition same_but_list (d d' : Dom) : Prop :=
  kpis d' = kpis d /\ chart_section d' = chart_section d /\
  activity_section d' = activity_section d /\ console d' = console d /\
  frame_queue d' = frame_queue d /\ charts d' = charts d /\
  clock_reads d' = clock_reads d.

(** How a details request can fail before the second handler of
    [loadDetails] has written anything: the fetch is rejected, the status
    is not a success, the body does not parse, or it parses to [null]. *)
Definition fails_early (f : Settled) : bool :=
  match f with
  | Rejected _ => true
  | Fulfilled response =>
      negb (ok response)
      || match json response with
         | Malformed _ => true
         | Parsed data => is_null data
         end
  end.
End Obs.
(* ===================================================================== *)
(** * Sample data *)
(* ===================================================================== *)

(** A page with two KPI cards and both dashboard regions, and payloads of
    the two endpoints, on which the statements below are instantiated. *)
Module Sample.
Import Num.
Local Open Scope string_scope.

Definition orders_card : Kpi :=
  {| data_key := "orders"; data_format := None;
     classList := ["kpi"; "placeholder"; "col-6"]; textContent := "--" |}.

Definition revenue_card : Kpi :=
  {| data_key := "revenue"; data_format := Some "money";
     classList := ["kpi"; "placeholder"; "col-12"]; textContent := "--" |}.

Definition page : Dom :=
  {| kpis := [orders_card; revenue_card];
     chart_section := Some "Loading...";
     activity_section := Some "Loading...";
     activity_list := None;
     console := [];
     frame_queue := [];
     charts := [];
     clock_reads := 0 |}.

Definition counts : JsVal :=
  VObj [("orders", VNum (of_Z 42));
        ("revenue", VNum (of_ratio false 12345 10))].

Definition metrics_body : JsVal :=
  VObj [("ok", VBool true); ("counts", counts)].

Definition payment : JsVal :=
  VObj [("icon", VStr "$"); ("color", VStr "text-success");
        ("text", VStr "Payment received"); ("time", VStr "2024-03-01T10:00:00Z")].

Definition order : JsVal :=
  VObj [("icon", VStr "#"); ("color", VStr "text-primary");
        ("text", VStr "Order placed"); ("time", VStr "2024-03-02T09:30:00Z")].

Definition details_with (recent_activities : JsVal) : JsVal :=
  VObj [("total_debt", VNum (of_Z 1000));
        ("total_paid", VNum (of_Z 250));
        ("months", VArr [VStr "Jan"; VStr "Feb"]);
        ("order_counts", VArr [VNum (of_Z 3); VNum (of_Z 5)]);
        ("top_clients_names", VArr [VStr "Acme"]);
        ("top_clients_orders", VArr [VNum (of_Z 8)]);
        ("recent_activities", recent_activities)].

Definition syntax_error : JsError :=
  {| name := "SyntaxError";
     message := "Unexpected token '<' in JSON at position 0" |}.
End Sample.

(* ===================================================================== *)
(** * What each flow touches, draws and queues *)
(* ===================================================================== *)

(** Definitions the further properties are stated with: the parts of a
    document each flow owns, the classes [applyMetrics] clears, the
    callbacks it queues, the charts a render callback creates, and when
    [loadDetails] queues one. *)
Module Effects.
Import Num Js Dashboard.
Local Open Scope string_scope.

(** The parts of a document the details flow works on, and the parts the
    metrics flow works on; the frame queue is shared, the charts belong
    to the render callback. *)
Definition regions (d : Dom)
  : option string * option string * option (list Li) * list (string * JsError) :=
  (chart_section d, activity_section d, activity_list d, console d).
Definition counters (d : Dom) : list Kpi * nat := (kpis d, clock_reads d).

(** Whether a callback run at [now] queues itself again. *)
Definition goes_on (now : number) (cb : FrameCallback) : bool :=
  match cb with
  | Tick _ _ duration start _ _ => Obs.again duration start now
  | RenderCharts _ _ => false
  end.

(** The class tokens [applyMetrics] removes from an element. *)
Definition layout_classes : list string :=
  ["placeholder"; "col-1"; "col-2"; "col-3"; "col-4"; "col-5"; "col-6";
   "col-7"; "col-8"; "col-9"; "col-10"; "col-11"; "col-12"].

Definition without (tokens : list string) (classes : list string) : list string :=
  filter (fun c => negb (existsb (String.eqb c) tokens)) classes.

(** An element after [classList.remove(token)]. *)
Definition remove_token (token : string) (k : Kpi) : Kpi :=
  {| data_key := data_key k; data_format := data_format k;
     classList := filter (fun c => negb (String.eqb c token)) (classList k);
     textContent := textContent k |}.

(** An element once [applyMetrics] has cleared its layout classes, and
    once it shows its value. *)
Definition cleared (k : Kpi) : Kpi :=
  {| data_key := data_key k; data_format := data_format k;
     classList := without layout_classes (classList k);
     textContent := textContent k |}.

Section Counts.
Variable h : Host.
Variable counts : JsVal.

Definition settled (k : Kpi) : Kpi :=
  {| data_key := data_key k; data_format := data_format k;
     classList := without layout_classes (classList k);
     textContent :=
       formatValue h (Obs.value_for counts k) (Obs.format_for k) |}.

(** The callbacks [countUp] queues for the elements [els], the first of
    which is the [i]-th of the page, when the clock has been read
    [clock] times. *)
Fixpoint ticks (i clock : nat) (els : list Kpi) : list FrameCallback :=
  match els with
  | [] => []
  | el :: rest =>
      Tick i (Obs.format_for el) (VNum (of_Z 750)) (performance_now h clock)
           zero (Number (or (Obs.value_for counts el) (VNum zero)))
      :: ticks (S i) (S clock) rest
  end.
End Counts.
End Effects.

Module Drawing.
Import Num Js.
Local Open Scope string_scope.

(** The three charts [renderCharts] creates, and what a callback
    draws. *)
Definition three_charts (data : JsVal) (percentage : number) : list Chart :=
  [ {| canvas := "ordersChart"; chart_type := "bar";
       labels := own_property data "months";
       series := own_property data "order_counts";
       index_axis := None; center_text := None |};
    {| canvas := "topClientsChart"; chart_type := "bar";
       labels := own_property data "top_clients_names";
       series := own_property data "top_clients_orders";
       index_axis := Some "y"; center_text := None |};
    {| canvas := "debtChart"; chart_type := "doughnut";
       labels := VArr [VStr "Collected"; VStr "Remaining"];
       series :=
         VArr [own_property data "total_paid";
               VNum (sub (Number (own_property data "total_debt"))
                         (Number (own_property data "total_paid")))];
       index_axis := None;
       center_text := Some (ToString (VNum percentage) ++ "%") |} ].

Definition draws (cb : FrameCallback) : list Chart :=
  match cb with
  | RenderCharts data percentage =>
      if Obs.is_null data then [] else three_charts data percentage
  | Tick _ _ _ _ _ _ => []
  end.
End Drawing.

Module Flows.
Import Effects.

(** [d'] is [d] with the callbacks [delta] queued behind the pending
    ones, and with the same KPI elements, clock and charts. *)
Definition extends (delta : list FrameCallback) (d d' : Dom) : Prop :=
  counters d' = counters d /\ charts d' = charts d /\
  frame_queue d' = (frame_queue d ++ delta)%list.

(** A computation of the details flow: it reads the regions and the
    console only, so that on two documents that agree there it ends the
    same way, leaves the same regions and queues the same callbacks, all
    of them render callbacks. *)
Definition detail_step {A : Type} (m : M A) : Prop :=
  forall d1 d2 : Dom,
    regions d1 = regions d2 ->
    exists delta : list FrameCallback,
      Forall (fun cb => Obs.is_render cb = true) delta /\
      fst (m d1) = fst (m d2) /\
      regions (snd (m d1)) = regions (snd (m d2)) /\
      extends delta d1 (snd (m d1)) /\ extends delta d2 (snd (m d2)).
End Flows.

Module Schedule.
Import Js Dashboard.
Local Open Scope string_scope.

(** The callbacks [loadDetails] queues: one render callback when the
    response is a success whose body parses to a value other than [null]
    on a page that has the chart region, none otherwise. *)
Definition scheduled (f : Settled) (d : Dom) : list FrameCallback :=
  match f with
  | Rejected _ => []
  | Fulfilled response =>
      match ok response, json response, chart_section d with
      | true, Parsed data, Some _ =>
          if Obs.is_null data then []
          else [RenderCharts data
                  (percentage_of (own_property data "total_debt")
                                 (own_property data "total_paid"))]
      | _, _, _ => []
      end
  end.

Definition is_tick (cb : FrameCallback) : bool := negb (Obs.is_render cb).
End Schedule.

Module Pending.
Import Metrics.

(** The first invocation whose result can still reach the page: the
    latest one while it is awaiting, none of those made so far once it
    has settled. *)
Definition first_open (w : World) : nat :=
  match List.length (calls w) with
  | O => O
  | S k =>
      match phase_of w k with
      | Some (Done _) => S k
      | _ => k
      end
  end.

Definition is_call (ev : Event) : bool :=
  match ev with
  | Call => true
  | _ => false
  end.

Definition is_frame (ev : Event) : bool :=
  match ev with
  | Frame _ => true
  | _ => false
  end.
End Pending.

(* ===================================================================== *)
(** * The centre text of the doughnut *)
(* ===================================================================== *)

(** The [beforeDraw] hook of the [centerText] plugin works on the 2D
    context of the chart's canvas: a drawing state, the stack that
    [save] and [restore] work on, and the text drawn.  [restore] on an
    empty stack does nothing. *)
Module Canvas.
Import Num Js.
Local Open Scope string_scope.

Section Context2D.
(** The attributes of a drawing state other than the three the hook
    sets (fill style, transformation, ...). *)
Variable Other : Type.

Record DrawingState : Type :=
  { font : string; textBaseline : string; textAlign : string; other : Other }.

(** A call [fillText(text, x, y)], with the drawing state it was made
    in. *)
Record FillText : Type :=
  { text : string; x : number; y : number; drawn_with : DrawingState }.

Record Context : Type :=
  { state : DrawingState; stack : list DrawingState; filled : list FillText }.

Definition save (c : Context) : Context :=
  {| state := state c; stack := state c :: stack c; filled := filled c |}.

Definition restore (c : Context) : Context :=
  match stack c with
  | [] => c
  | s :: rest => {| state := s; stack := rest; filled := filled c |}
  end.

Definition set_state (f : DrawingState -> DrawingState) (c : Context) : Context :=
  {| state := f (state c); stack := stack c; filled := filled c |}.

Definition set_font (v : string) : Context -> Context :=
  set_state (fun s => {| font := v; textBaseline := textBaseline s;
                         textAlign := textAlign s; other := other s |}).
Definition set_textBaseline (v : string) : Context -> Context :=
  set_state (fun s => {| font := font s; textBaseline := v;
                         textAlign := textAlign s; other := other s |}).
Definition set_textAlign (v : string) : Context -> Context :=
  set_state (fun s => {| font := font s; textBaseline := textBaseline s;
                         textAlign := v; other := other s |}).

Definition fillText (t : string) (x y : number) (c : Context) : Context :=
  {| state := state c; stack := stack c;
     filled := filled c ++ [{| text := t; x := x; y := y;
                               drawn_with := state c |}] |}.

(** [beforeDraw(chart)], for the percentage [renderCharts] closed over
    and a chart of width [width]. *)
Definition beforeDraw (percentage : number) (width : JsVal) (c : Context)
  : Context :=
  let text := ToString (VNum percentage) ++ "%" in
  let c := restore c in
  let c := set_font "bold 22px Segoe UI" c in
  let c := set_textBaseline "middle" c in
  let c := set_textAlign "center" c in
  let c := fillText text (div (Number width) (of_Z 2)) (of_Z 105) c in
  save c.
End Context2D.

Arguments font {Other} _.
Arguments textBaseline {Other} _.
Arguments textAlign {Other} _.
Arguments other {Other} _.
Arguments text {Other} _.
Arguments x {Other} _.
Arguments y {Other} _.
Arguments drawn_with {Other} _.
Arguments state {Other} _.
Arguments stack {Other} _.
Arguments filled {Other} _.
Arguments save {Other} _.
Arguments restore {Other} _.
Arguments fillText {Other} _ _ _ _.
Arguments beforeDraw {Other} _ _ _.
End Canvas.

Module Markup.
Local Open Scope string_scope.

(** Whether [needle] occurs in [s]. *)
Fixpoint occurs (needle s : string) : bool :=
  if String.prefix needle s then true
  else match s with
       | EmptyString => false
       | String _ rest => occurs needle rest
       end.

(** Whether a markup holds an element with the given [id] attribute. *)
Definition declares (id : string) (markup : string) : bool :=
  occurs (Text.html ("id=~" ++ id ++ "~")) markup.
End Markup.

Module Hosts.
(** The host [h] with the reduced-motion preference set. *)
Definition reduced (h : Host) : Host :=
  {| reduced_motion := true; locale := locale h; Math_pow3 := Math_pow3 h;
     performance_now := performance_now h;
     Date_toLocaleString := Date_toLocaleString h |}.

(** The number [countUp] animates towards for a value, and the values
    for which the animation can end on what [formatValue] shows for
    them: the number is a Number other than NaN and -0. *)
Definition target (value : JsVal) : number :=
  Js.Number (Js.or value (VNum Num.zero)).

Definition regular (value : JsVal) : Prop :=
  Num.is_double (target value) = true /\
  Num.is_nan (target value) = false /\
  target value <> Num.neg_zero.

End Hosts.

(* ===================================================================== *)
(** * Right shifts of the rounding step

    What the shifts of [binary_round_aux] do to a mantissa, stated on
    the records they work on. *)

Module Shift.
Local Open Scope Z_scope.

(** No bit has been shifted out that was set. *)
Definition no_remainder (mrs : shr_record) : Prop :=
  shr_r mrs = false /\ shr_s mrs = false.

(** [k] right shifts of a record whose mantissa is not negative: the
    mantissa is divided by [2^k], and the record stays exact when the
    bits shifted out are zeros. *)
Definition shifted (k : Z) (mrs mrs' : shr_record) : Prop :=
  0 <= shr_m mrs ->
  0 <= shr_m mrs' /\
  shr_m mrs' = shr_m mrs / 2 ^ k /\
  (no_remainder mrs -> shr_m mrs mod 2 ^ k = 0 -> no_remainder mrs').
End Shift.

(* ===================================================================== *)
(** * The embedding at work *)
(* ===================================================================== *)

(** Evaluations of the built-in operations and of the animation on small
    inputs, against what a browser console prints. *)
Module Examples.
Import Num Text NumText Js Intl.
Local Open Scope string_scope.

Example Math_round_ties :
  map (fun s => number_to_string (Math_round (StringToNumber s)))
      ["1234.5"; "2.5"; "-2.5"; "-0.5"; "0.49999999999999994"; "1e21"; "-7.6"]
  = ["1235"; "3"; "-2"; "0"; "0"; "1e+21"; "-8"].
Proof. vm_compute. reflexivity. Qed.

Example arithmetic_is_binary64 :
  number_to_string (add (of_ratio false 1 10) (of_ratio false 2 10))
  = "0.30000000000000004" /\
  number_to_string (mul (div (of_Z 145) (of_Z 1000)) (of_Z 100))
  = "14.499999999999998".
Proof. vm_compute. split; reflexivity. Qed.

Example number_to_string_shapes :
  map (fun s => number_to_string (StringToNumber s))
      ["0.000001"; "0.0000001"; "123456789012345678"; "1e21"; "-1e-5";
       "5e-324"; "1.7976931348623157e308"; "1e400"; "0x1F"; " 12 "; "";
       "abc"; "1,5"; "12px"; "-0"]
  = ["0.000001"; "1e-7"; "123456789012345680"; "1e+21"; "-0.00001";
     "5e-324"; "1.7976931348623157e+308"; "Infinity"; "31"; "12"; "0";
     "NaN"; "NaN"; "NaN"; "0"].
Proof. vm_compute. reflexivity. Qed.

Example Number_of_values :
  map (fun v => number_to_string (Number v))
      [VUndefined; VNull; VBool true; VStr "7.50"; VArr []; VArr [VNum one];
       VArr [VNum one; VNum one]; VObj []]
  = ["NaN"; "0"; "1"; "7.5"; "0"; "1"; "NaN"; "NaN"].
Proof. vm_compute. reflexivity. Qed.

Example toLocaleString_en_US :
  let money :=
    {| minimumFractionDigits := Some 2; maximumFractionDigits := Some 2 |} in
  let percent :=
    {| minimumFractionDigits := None; maximumFractionDigits := Some 1 |} in
  map (fun s => toLocaleString en_US (StringToNumber s) money)
      ["1234.5"; "0"; "1234567.891"; "-0.001"; "0.125"]
  = ["1,234.50"; "0.00"; "1,234,567.89"; "-0.00"; "0.13"] /\
  map (fun s => toLocaleString en_US (StringToNumber s) percent)
      ["12.34"; "12.25"; "99.96"; "1000"]
  = ["12.3"; "12.3"; "100"; "1,000"] /\
  map (fun s => toLocaleString en_US (StringToNumber s) no_options)
      ["1234.5678"; "0.0004"; "100"; "NaN"]
  = ["1,234.568"; "0"; "100"; "NaN"].
Proof. vm_compute. repeat split; reflexivity. Qed.

(** The counters of the sample page, frame by frame. *)
Example animation_frames :
  map (fun now =>
         Obs.texts
           (Dashboard.frames (browser false) [of_Z now]
              (Dashboard.applyMetrics (browser false) Sample.counts
                 Sample.page)))
      [1000; 1100; 1375; 1749; 1750; 2000]%Z
  = [["0"; "0.00"]; ["15"; "430.89"]; ["37"; "1,080.19"];
     ["42"; "1,234.50"]; ["42"; "1,234.50"]; ["42"; "1,234.50"]].
Proof. vm_compute. reflexivity. Qed.
End Examples.

(* ===================================================================== *)
(** * Facts about numbers *)
(* ===================================================================== *)

Module NumFacts.
Import Num.
Local Open Scope Z_scope.

Lemma sub_zero_r (x : number) : sub x zero = x.
Proof. destruct x as [[|]|[|]| |s m e]; reflexivity. Qed.

Lemma add_zero_l (x : number) : x <> neg_zero -> add zero x = x.
Proof.
  destruct x as [[|]|[|]| |s m e]; intros H; try reflexivity.
  now elim H.
Qed.

Lemma one_eq : one = S754_finite false 4503599627370496 (-52).
Proof. reflexivity. Qed.

Lemma canonical_fexp m e :
  canonical_mantissa prec emax m e = true ->
  fexp prec emax (Zpos (digits2_pos m) + e) = e.
Proof. unfold canonical_mantissa. intros H. now apply Z.eqb_eq. Qed.

Lemma is_double_finite s m e :
  is_double (S754_finite s m e) = true ->
  fexp prec emax (Zpos (digits2_pos m) + e) = e /\ (e <=? emax - prec) = true.
Proof.
  unfold is_double, valid_binary, bounded. intros H.
  apply andb_prop in H. destruct H as [Hc He].
  split; [now apply canonical_fexp | exact He].
Qed.

(** Rounding a canonical mantissa that is exact gives it back. *)
Lemma round_canonical s m e :
  is_double (S754_finite s m e) = true ->
  binary_round_aux prec emax s (Zpos m) e loc_Exact = S754_finite s m e.
Proof.
  intros H. destruct (is_double_finite _ _ _ H) as [Hc He].
  unfold binary_round_aux, shr_fexp.
  cbn [Zdigits2 shr_record_of_loc].
  rewrite Hc, Z.sub_diag.
  cbn [shr shr_m loc_of_shr_record shr_r shr_s round_nearest_even Zdigits2
       shr_record_of_loc].
  rewrite Hc, Z.sub_diag. cbn [shr shr_m].
  now rewrite He.
Qed.

(** Multiplying by 1 is exact. *)
Lemma mul_one_r (x : number) : is_double x = true -> mul x one = x.
Proof.
  destruct x as [[|]|[|]| |s m e]; try reflexivity.
  intros H. destruct (is_double_finite _ _ _ H) as [Hc He].
  rewrite one_eq. unfold mul, SFmul.
  rewrite Pos.mul_comm.
  unfold binary_round_aux, shr_fexp.
  cbn [Pos.mul Zdigits2 digits2_pos].
  match goal with
  | |- context [fexp prec emax (Z.pos ?p + (e + -52))] =>
      replace (Z.pos p + (e + -52)) with (Z.pos (digits2_pos m) + e)
        by (rewrite !Pos2Z.inj_succ; lia)
  end.
  rewrite Hc. replace (e - (e + -52)) with 52 by lia.
  cbn [shr shr_record_of_loc iter_pos shr_1 orb shr_m shr_r shr_s
       loc_of_shr_record round_nearest_even Zdigits2].
  replace (e + -52 + 52) with e by lia.
  rewrite Hc, Z.sub_diag. cbn [shr shr_m].
  rewrite He. now destruct s.
Qed.

(** ** Shifted mantissas *)

Lemma iter_xO_value p k : Zpos (Pos.iter xO p k) = Zpos p * 2 ^ Zpos k.
Proof.
  induction k using Pos.peano_ind.
  - cbn [Pos.iter]. rewrite Z.pow_1_r. lia.
  - rewrite Pos.iter_succ, Pos2Z.inj_xO, IHk, Pos2Z.inj_succ, Z.pow_succ_r by lia.
    lia.
Qed.

Lemma iter_xO_digits p k :
  Zpos (digits2_pos (Pos.iter xO p k)) = Zpos (digits2_pos p) + Zpos k.
Proof.
  induction k using Pos.peano_ind.
  - cbn [Pos.iter digits2_pos]. lia.
  - rewrite Pos.iter_succ. cbn [digits2_pos].
    rewrite Pos2Z.inj_succ, IHk. lia.
Qed.

Lemma digits2_ge_1 p : 1 <= Zpos (digits2_pos p).
Proof. lia. Qed.

(** [2^(d-1) <= p < 2^d] for [d = digits2_pos p]. *)
Lemma digits2_bounds p :
  2 ^ (Zpos (digits2_pos p) - 1) <= Zpos p < 2 ^ Zpos (digits2_pos p).
Proof.
  induction p as [p IH|p IH|]; cbn [digits2_pos].
  - rewrite Pos2Z.inj_succ, (Pos2Z.inj_xI p).
    replace (Z.succ (Z.pos (digits2_pos p)) - 1)
      with (Z.succ (Z.pos (digits2_pos p) - 1)) by lia.
    rewrite !Z.pow_succ_r by lia. lia.
  - rewrite Pos2Z.inj_succ, (Pos2Z.inj_xO p).
    replace (Z.succ (Z.pos (digits2_pos p)) - 1)
      with (Z.succ (Z.pos (digits2_pos p) - 1)) by lia.
    rewrite !Z.pow_succ_r by lia. lia.
  - cbn. lia.
Qed.

(** An integer of at most 53 bits is a Number: [of_Z] writes it with a
    53-bit mantissa and the matching negative exponent. *)
Lemma of_Z_exact (s : bool) (p : positive) :
  Zpos (digits2_pos p) <= 53 ->
  exists m j, 0 <= j /\ Zpos m = Zpos p * 2 ^ j /\
    binary_round prec emax s p 0 = S754_finite s m (- j).
Proof.
  intros Hd. unfold binary_round.
  assert (Hf : fexp prec emax (Zpos (digits2_pos p) + 0)
               = Zpos (digits2_pos p) - 53).
  { unfold fexp, emin, prec, emax. pose proof (digits2_ge_1 p). lia. }
  rewrite Hf. unfold shl_align.
  destruct (Zpos (digits2_pos p) - 53 - 0) as [|k|k] eqn:Hk.
  - exists p, 0. split; [lia|]. split; [cbn; lia|].
    cbn [Z.opp]. apply round_canonical.
    unfold is_double, valid_binary, bounded, canonical_mantissa.
    rewrite Hf. apply andb_true_intro. split; [apply Z.eqb_eq; lia | reflexivity].
  - lia.
  - exists (Pos.iter xO p k), (Zpos k). split; [lia|].
    split; [apply iter_xO_value|].
    replace (Zpos (digits2_pos p) - 53) with (- Zpos k) by lia.
    apply round_canonical.
    unfold is_double, valid_binary, bounded, canonical_mantissa.
    rewrite iter_xO_digits. apply andb_true_intro. split.
    + apply Z.eqb_eq. unfold fexp, emin, prec, emax. lia.
    + apply Z.leb_le. unfold emax, prec. lia.
Qed.
End NumFacts.

Module RoundFacts.
Import Num Text Intl NumFacts.
Local Open Scope Z_scope.


Lemma digits2_le_53 p : Zpos p < 2 ^ 53 -> Zpos (digits2_pos p) <= 53.
Proof.
  intros H. pose proof (digits2_bounds p) as [Hl _].
  destruct (Z_le_gt_dec (Zpos (digits2_pos p)) 53) as [|Hgt]; [assumption|].
  exfalso.
  assert (2 ^ 53 <= 2 ^ (Zpos (digits2_pos p) - 1))
    by (apply Z.pow_le_mono_r; lia).
  lia.
Qed.

Lemma mantissa_lt_53 s m e :
  is_double (S754_finite s m e) = true -> Zpos m < 2 ^ 53.
Proof.
  intros H. destruct (is_double_finite _ _ _ H) as [Hc _].
  pose proof (digits2_bounds m) as [_ Hu].
  assert (Zpos (digits2_pos m) <= 53)
    by (unfold fexp, emin, prec, emax in Hc; lia).
  assert (2 ^ Zpos (digits2_pos m) <= 2 ^ 53)
    by (apply Z.pow_le_mono_r; lia).
  lia.
Qed.

(** The integer digits and the empty fraction of a datum [n * 1000]
    printed with at most three fraction digits. *)
Lemma raw_fixed_integer n :
  0 <= n -> raw_fixed (n * 1000) 0 3 = (dec n, ""%string).
Proof.
  intros Hn. unfold raw_fixed.
  change (10 ^ Z.of_nat 3) with 1000.
  rewrite Z.div_mul, Z.mod_mul by lia. reflexivity.
Qed.

Lemma round_scaled_shifted m p j :
  0 <= j -> Zpos m = Zpos p * 2 ^ j ->
  round_scaled m (- j) 3 = Zpos p * 1000.
Proof.
  intros Hj Hm. unfold round_scaled.
  change (10 ^ Z.of_nat 3) with 1000. rewrite Hm.
  destruct (Z.leb_spec 0 (- j)) as [H0|H0].
  - assert (j = 0) by lia. subst j. cbn [Z.opp]. rewrite !Z.pow_0_r. lia.
  - rewrite Z.opp_involutive.
    replace (2 * (Zpos p * 2 ^ j * 1000) + 2 ^ j)
      with (2 ^ j + Zpos p * 1000 * 2 ^ (j + 1))
      by (rewrite Z.pow_add_r by lia; rewrite Z.pow_1_r; lia).
    assert (0 < 2 ^ j) by (apply Z.pow_pos_nonneg; lia).
    assert (0 < 2 ^ (j + 1)) by (apply Z.pow_pos_nonneg; lia).
    rewrite Z.div_add by lia.
    rewrite Z.div_small; [lia|].
    rewrite Z.pow_add_r, Z.pow_1_r by lia. lia.
Qed.

Lemma to_parts_of_Z s p :
  Zpos (digits2_pos p) <= 53 ->
  to_parts (binary_round prec emax s p 0) no_options
  = PDecimal s (dec (Zpos p)) "".
Proof.
  intros Hd. destruct (of_Z_exact s p Hd) as (m & j & Hj & Hm & ->).
  unfold to_parts. cbn [resolve no_options minimumFractionDigits
                        maximumFractionDigits].
  rewrite (round_scaled_shifted m p j Hj Hm).
  now rewrite raw_fixed_integer by lia.
Qed.

(** [Math.round(x).toLocaleString()] prints the integer nearest to [x]
    and no fraction digit. *)
Lemma Math_round_parts (x : number) :
  is_double x = true -> is_finite x = true ->
  to_parts (Math_round x) no_options
  = PDecimal (sign_bit x) (dec (Z.abs (nearest_integer x))) "".
Proof.
  destruct x as [s|s| |s m e]; try discriminate; intros Hx _.
  - reflexivity.
  - pose proof (mantissa_lt_53 _ _ _ Hx) as Hm.
    cbn [Math_round nearest_integer sign_bit].
    destruct (Z.leb_spec 0 e) as [He|He].
    + unfold to_parts. cbn [resolve no_options minimumFractionDigits
                            maximumFractionDigits].
      unfold round_scaled. change (10 ^ Z.of_nat 3) with 1000.
      destruct (Z.leb_spec 0 e) as [_|]; [|lia].
      assert (0 < 2 ^ e) by (apply Z.pow_pos_nonneg; lia).
      replace (Zpos m * 1000 * 2 ^ e) with (Zpos m * 2 ^ e * 1000) by lia.
      rewrite raw_fixed_integer by lia.
      replace (Z.abs (cond_Zopp s (Zpos m) * 2 ^ e)) with (Zpos m * 2 ^ e)
        by (destruct s; cbn [cond_Zopp]; lia).
      reflexivity.
    + set (k := - e). assert (Hk : 1 <= k) by (unfold k; lia).
      assert (H2k : 0 < 2 ^ k) by (apply Z.pow_pos_nonneg; lia).
      assert (H2k1 : 2 ^ (k + 1) = 2 * 2 ^ k)
        by (rewrite Z.pow_add_r, Z.pow_1_r by lia; lia).
      assert (H2 : 2 <= 2 ^ k).
      { change 2 with (2 ^ 1) at 1. apply Z.pow_le_mono_r; lia. }
      set (v := cond_Zopp s (Zpos m)).
      set (r := (2 * v + 2 ^ k) / 2 ^ (k + 1)).
      assert (Hr : 2 ^ (k + 1) * r <= 2 * v + 2 ^ k < 2 ^ (k + 1) * (r + 1)).
      { unfold r. pose proof (Z.mul_div_le (2 * v + 2 ^ k) (2 ^ (k + 1))).
        pose proof (Z.mul_succ_div_gt (2 * v + 2 ^ k) (2 ^ (k + 1))). lia. }
      destruct r as [|p|p] eqn:Er.
      * reflexivity.
      * assert (s = false).
        { destruct s; [|reflexivity]. exfalso. unfold v in Hr.
          cbn [cond_Zopp] in Hr. nia. }
        subst s. unfold of_Z, binary_normalize.
        rewrite to_parts_of_Z; [reflexivity|].
        apply digits2_le_53. unfold v in Hr. cbn [cond_Zopp] in Hr. nia.
      * assert (s = true).
        { destruct s; [reflexivity|]. exfalso. unfold v in Hr.
          cbn [cond_Zopp] in Hr. nia. }
        subst s. unfold of_Z, binary_normalize.
        rewrite to_parts_of_Z; [reflexivity|].
        apply digits2_le_53. unfold v in Hr. cbn [cond_Zopp] in Hr. nia.
Qed.
End RoundFacts.

Module FractionFacts.
Import Num NumFacts.
Local Open Scope Z_scope.

Lemma shr_1_nonneg (mrs : shr_record) : 0 <= shr_m mrs -> 0 <= shr_m (shr_1 mrs).
Proof.
  destruct mrs as [m r s]. cbn [shr_m].
  destruct m as [|[p|p|]|p]; cbn; lia.
Qed.

Lemma iter_shr_1_nonneg (n : positive) (mrs : shr_record) :
  0 <= shr_m mrs -> 0 <= shr_m (iter_pos shr_1 n mrs).
Proof.
  revert mrs. induction n as [n IH|n IH|]; intros mrs H; cbn [iter_pos].
  - apply IH, IH, shr_1_nonneg, H.
  - apply IH, IH, H.
  - apply shr_1_nonneg, H.
Qed.

Lemma shr_fexp_nonneg (m e : Z) (l : location) :
  0 <= m -> 0 <= shr_m (fst (shr_fexp prec emax m e l)).
Proof.
  intros Hm. unfold shr_fexp, shr.
  assert (H0 : 0 <= shr_m (shr_record_of_loc m l))
    by (destruct l as [|[ | | ]]; exact Hm).
  destruct (fexp prec emax (Zdigits2 m + e) - e) as [|n|n]; cbn [fst];
    try exact H0.
  now apply iter_shr_1_nonneg.
Qed.

Lemma round_nearest_even_nonneg (m : Z) (l : location) :
  0 <= m -> 0 <= round_nearest_even m l.
Proof.
  intros Hm. destruct l as [|[ | | ]]; cbn [round_nearest_even]; try lia.
  destruct (Z.even m); lia.
Qed.

(** Rounding a mantissa that is not negative never yields NaN. *)
Lemma binary_round_aux_not_nan (s : bool) (m e : Z) (l : location) :
  0 <= m -> is_nan (binary_round_aux prec emax s m e l) = false.
Proof.
  intros Hm. unfold binary_round_aux.
  pose proof (shr_fexp_nonneg m e l Hm) as H1.
  destruct (shr_fexp prec emax m e l) as [mrs' e']. cbn [fst] in H1.
  pose proof (shr_fexp_nonneg _ e' loc_Exact
                (round_nearest_even_nonneg _ (loc_of_shr_record mrs') H1)) as H2.
  destruct (shr_fexp prec emax _ e' loc_Exact) as [mrs'' e'']. cbn [fst] in H2.
  destruct (shr_m mrs'') as [|p|p]; [reflexivity| |lia].
  now destruct (e'' <=? emax - prec).
Qed.

Lemma binary_normalize_not_nan (m e : Z) (sz : bool) :
  is_nan (binary_normalize prec emax m e sz) = false.
Proof.
  unfold binary_normalize, binary_round.
  destruct m as [|p|p]; [reflexivity| |];
    destruct (shl_align _ _ _) as [mz ez];
    apply binary_round_aux_not_nan; lia.
Qed.

Lemma sub_finite_not_nan (a b : number) :
  is_finite a = true -> is_finite b = true -> is_nan (sub a b) = false.
Proof.
  destruct a as [sa|sa| |sa ma ea]; try discriminate;
    destruct b as [sb|sb| |sb mb eb]; try discriminate; intros _ _.
  - now destruct sa, sb.
  - reflexivity.
  - reflexivity.
  - apply binary_normalize_not_nan.
Qed.

(** Dividing a datum that is not NaN by 750 never yields NaN. *)
Lemma div_750_not_nan (x : number) :
  is_nan x = false -> is_nan (div x (of_Z 750)) = false.
Proof.
  change (of_Z 750) with (S754_finite false 6597069766656000 (-43)).
  destruct x as [s|s| |s m e]; try discriminate; intros _; try reflexivity.
  unfold div, SFdiv, SFdiv_core_binary.
  set (m' := match _ with Z0 => _ | Zpos _ => _ | Zneg _ => _ end).
  assert (Hm' : 0 <= m').
  { unfold m'. destruct (_ - _ - _) as [|p|p]; try lia.
    apply Z.shiftl_nonneg. lia. }
  pose proof (Z.div_pos m' 6597069766656000 Hm' ltac:(lia)) as Hq.
  unfold Z.div in Hq.
  destruct (Z.div_eucl m' 6597069766656000) as [q r]. cbn [fst] in Hq.
  now apply binary_round_aux_not_nan.
Qed.

(** Once the fraction is no longer below 1 it is 1. *)
Lemma min_one_done (q : number) :
  is_nan q = false -> ltb (Math_min q one) one = false -> Math_min q one = one.
Proof.
  intros Hq. unfold Math_min. rewrite Hq.
  change (is_nan one) with false. cbn [orb].
  destruct (ltb q one) eqn:Hlt; [intros H; congruence|]. intros _.
  destruct (ltb one q); [reflexivity|].
  destruct q as [[|]|[|]| |s m e]; try discriminate; reflexivity.
Qed.

Lemma fraction_done (start now : number) :
  is_finite start = true -> is_finite now = true ->
  ltb (Obs.fraction start now) one = false -> Obs.fraction start now = one.
Proof.
  intros Hs Hn. unfold Obs.fraction.
  apply min_one_done, div_750_not_nan, sub_finite_not_nan; assumption.
Qed.
End FractionFacts.

Module FormatFacts.
Import Num Text Intl.
Local Open Scope string_scope.

Lemma length_append (s t : string) :
  String.length (s ++ t) = (String.length s + String.length t)%nat.
Proof. induction s as [|a s IH]; cbn; [reflexivity | now rewrite IH]. Qed.

Lemma frac_digits_length (f : nat) (r : Z) :
  String.length (frac_digits f r) = f.
Proof.
  revert r. induction f as [|f IH]; intros r; cbn [frac_digits].
  - reflexivity.
  - rewrite length_append, IH. cbn. lia.
Qed.

Lemma strip_zeros_0 (s : string) : strip_zeros 0 s = s.
Proof.
  unfold strip_zeros. cbn [strip_rev].
  now rewrite rev_involutive, string_of_list_ascii_of_string.
Qed.

Lemma length_string_of_list (l : list ascii) :
  String.length (string_of_list_ascii l) = List.length l.
Proof. induction l as [|a l IH]; cbn; [reflexivity | now rewrite IH]. Qed.

Lemma length_list_of_string (s : string) :
  List.length (list_ascii_of_string s) = String.length s.
Proof. induction s as [|a s IH]; cbn; [reflexivity | now rewrite IH]. Qed.

Lemma strip_rev_length (cut : nat) (l : list ascii) :
  (List.length (strip_rev cut l) <= List.length l)%nat.
Proof.
  revert l. induction cut as [|c IH]; intros l; cbn [strip_rev].
  - destruct l; lia.
  - destruct l as [|a r]; [cbn; lia|].
    destruct (Ascii.eqb a "0"); [|lia].
    specialize (IH r). cbn [List.length]. lia.
Qed.

Lemma strip_zeros_length (cut : nat) (s : string) :
  (String.length (strip_zeros cut s) <= String.length s)%nat.
Proof.
  unfold strip_zeros.
  rewrite length_string_of_list, length_rev.
  pose proof (strip_rev_length cut (rev (list_ascii_of_string s))) as H.
  now rewrite length_rev, length_list_of_string in H.
Qed.

(** The fraction of a finite datum has between the minimum and the
    maximum number of digits. *)
Lemma to_parts_finite (x : number) (mn mx : option nat) :
  is_finite x = true ->
  exists s i f,
    to_parts x {| minimumFractionDigits := mn; maximumFractionDigits := mx |}
    = PDecimal s i f /\
    let '(lo, hi) :=
      resolve {| minimumFractionDigits := mn; maximumFractionDigits := mx |} in
    (String.length f <= hi)%nat /\ (lo = hi -> String.length f = hi).
Proof.
  intros Hx. unfold to_parts.
  destruct (resolve _) as [lo hi].
  assert (Hraw : forall n,
             (String.length (snd (raw_fixed n lo hi)) <= hi)%nat /\
             (lo = hi -> String.length (snd (raw_fixed n lo hi)) = hi)).
  { intros n. unfold raw_fixed. cbn [snd]. split.
    - pose proof (strip_zeros_length (hi - lo)
                    (frac_digits hi (n mod 10 ^ Z.of_nat hi))) as H.
      now rewrite frac_digits_length in H.
    - intros ->. rewrite Nat.sub_diag, strip_zeros_0.
      apply frac_digits_length. }
  destruct x as [s|s| |s m e]; try discriminate Hx.
  - specialize (Hraw 0%Z). destruct (raw_fixed 0 lo hi) as [i f].
    now exists s, i, f.
  - specialize (Hraw (round_scaled m e hi)).
    destruct (raw_fixed _ lo hi) as [i f]. now exists s, i, f.
Qed.
End FormatFacts.

(* ===================================================================== *)
(** * Facts about the document and the animation *)
(* ===================================================================== *)

Module DomFacts.
Import DomOps Obs.

Lemma nth_error_update_nth_eq {A} (f : A -> A) (l : list A) (i : nat) (a : A) :
  nth_error l i = Some a -> nth_error (update_nth i f l) i = Some (f a).
Proof.
  revert i. induction l as [|b l IH]; intros [|i] H; cbn in *;
    try discriminate.
  - now inversion H.
  - now apply IH.
Qed.

Lemma nth_error_update_nth_neq {A} (f : A -> A) (l : list A) (i j : nat) :
  i <> j -> nth_error (update_nth j f l) i = nth_error l i.
Proof.
  revert i j. induction l as [|b l IH]; intros [|i] [|j] H; cbn;
    try reflexivity.
  - now elim H.
  - apply IH. congruence.
Qed.

Lemma length_update_nth {A} (f : A -> A) (l : list A) (i : nat) :
  List.length (update_nth i f l) = List.length l.
Proof.
  revert i. induction l as [|b l IH]; intros [|i]; cbn; try reflexivity.
  now rewrite IH.
Qed.

Lemma text_of_set_same (d : Dom) (i : nat) (s : string) (k : Kpi) :
  nth_error (kpis d) i = Some k ->
  text_of (set_textContent i s d) i = Some s.
Proof.
  intros H. unfold text_of, set_textContent, with_kpis. cbn [kpis].
  now rewrite (nth_error_update_nth_eq _ _ _ _ H).
Qed.

Lemma text_of_set_other (d : Dom) (i j : nat) (s : string) :
  i <> j -> text_of (set_textContent j s d) i = text_of d i.
Proof.
  intros H. unfold text_of, set_textContent, with_kpis. cbn [kpis].
  now rewrite nth_error_update_nth_neq.
Qed.
End DomFacts.

Module TickFacts.
Import Num NumFacts Dashboard.

(** Where the fraction has reached 1 the eased fraction is 1 and the
    interpolated value is the end value. *)
Lemma easeOutCubic_one (h : Host) :
  Math_pow3 h zero = zero -> easeOutCubic h one = one.
Proof.
  intros Hpow. unfold easeOutCubic.
  change (sub one one) with zero. now rewrite Hpow.
Qed.

Lemma interpolate_one (to : number) :
  is_double to = true -> to <> neg_zero ->
  add zero (mul (sub to zero) one) = to.
Proof.
  intros Hd Hz. now rewrite sub_zero_r, mul_one_r, add_zero_l.
Qed.
End TickFacts.

Module FrameFacts.
Import Num Js DomOps Dashboard Obs DomFacts.

Lemma renderCharts_preserves (data : JsVal) (p : number) (d : Dom) :
  kpis (snd (renderCharts data p d)) = kpis d /\
  frame_queue (snd (renderCharts data p d)) = frame_queue d.
Proof.
  unfold renderCharts, bind, lift, modify, new_Chart.
  destruct data; cbn; split; reflexivity.
Qed.

Section OneElement.
Variable h : Host.
Variable i : nat.

Lemma tick_length el f du st fr to now d :
  List.length (kpis (tick h el f du st fr to now d)) = List.length (kpis d).
Proof.
  unfold tick. destruct (ltb _ one);
    unfold requestAnimationFrame, set_textContent, with_kpis; cbn [kpis];
    apply length_update_nth.
Qed.

Lemma tick_text_other el f du st fr to now d :
  i <> el -> text_of (tick h el f du st fr to now d) i = text_of d i.
Proof.
  intros H. unfold tick. destruct (ltb _ one).
  - unfold requestAnimationFrame, text_of. cbn [kpis].
    now apply text_of_set_other.
  - now apply text_of_set_other.
Qed.

Lemma tick_text_same f du st fr to now d k :
  nth_error (kpis d) i = Some k ->
  text_of (tick h i f du st fr to now d) i = Some (written h f du st fr to now).
Proof.
  intros H. unfold tick. destruct (ltb _ one).
  - unfold requestAnimationFrame, text_of. cbn [kpis].
    now apply (text_of_set_same d i _ k).
  - now apply (text_of_set_same d i _ k).
Qed.

Lemma tick_queue el f du st fr to now d :
  frame_queue (tick h el f du st fr to now d)
  = frame_queue d ++ (if again du st now then [Tick el f du st fr to] else []).
Proof.
  unfold tick, again. destruct (ltb _ one).
  - reflexivity.
  - cbn. now rewrite app_nil_r.
Qed.

Lemma run_callback_length now d cb :
  List.length (kpis (run_callback h now d cb)) = List.length (kpis d).
Proof.
  destruct cb as [el f du st fr to|data p]; cbn [run_callback].
  - apply tick_length.
  - now rewrite (proj1 (renderCharts_preserves data p d)).
Qed.

Lemma run_other now d cb :
  is_tick_for i cb = false ->
  text_of (run_callback h now d cb) i = text_of d i /\
  ticks_for i (run_callback h now d cb) = ticks_for i d.
Proof.
  destruct cb as [el f du st fr to|data p]; cbn [run_callback is_tick_for];
    intros H.
  - apply Nat.eqb_neq in H. split.
    + apply tick_text_other. congruence.
    + unfold ticks_for. rewrite tick_queue, filter_app.
      destruct (again du st now); cbn [filter is_tick_for].
      * apply Nat.eqb_neq in H. rewrite H. apply app_nil_r.
      * apply app_nil_r.
  - destruct (renderCharts_preserves data p d) as [Hk Hq].
    unfold text_of, ticks_for. now rewrite Hk, Hq.
Qed.

Lemma run_mine now d f du st fr to k :
  nth_error (kpis d) i = Some k ->
  text_of (run_callback h now d (Tick i f du st fr to)) i
  = Some (written h f du st fr to now) /\
  ticks_for i (run_callback h now d (Tick i f du st fr to))
  = ticks_for i d ++ (if again du st now then [Tick i f du st fr to] else []).
Proof.
  intros Hk. cbn [run_callback]. split.
  - now apply (tick_text_same f du st fr to now d k).
  - unfold ticks_for. rewrite tick_queue, filter_app.
    destruct (again du st now); cbn [filter is_tick_for];
      [now rewrite Nat.eqb_refl | reflexivity].
Qed.

Lemma fold_length now q acc :
  List.length (kpis (fold_left (run_callback h now) q acc))
  = List.length (kpis acc).
Proof.
  revert acc. induction q as [|cb q IH]; intros acc; cbn [fold_left].
  - reflexivity.
  - now rewrite IH, run_callback_length.
Qed.

Lemma fold_idle now q acc :
  filter (is_tick_for i) q = [] ->
  text_of (fold_left (run_callback h now) q acc) i = text_of acc i /\
  ticks_for i (fold_left (run_callback h now) q acc) = ticks_for i acc.
Proof.
  revert acc. induction q as [|cb q IH]; intros acc Hf; cbn [fold_left].
  - now split.
  - cbn [filter] in Hf. destruct (is_tick_for i cb) eqn:Hcb; [discriminate|].
    destruct (IH (run_callback h now acc cb) Hf) as [Ht Hq].
    destruct (run_other now acc cb Hcb) as [Ht' Hq'].
    split; congruence.
Qed.

Lemma fold_one now q acc f du st fr to :
  filter (is_tick_for i) q = [Tick i f du st fr to] ->
  (i < List.length (kpis acc))%nat ->
  text_of (fold_left (run_callback h now) q acc) i
  = Some (written h f du st fr to now) /\
  ticks_for i (fold_left (run_callback h now) q acc)
  = ticks_for i acc ++ (if again du st now then [Tick i f du st fr to] else []).
Proof.
  revert acc. induction q as [|cb q IH]; intros acc Hf Hlen; cbn [fold_left].
  - discriminate.
  - cbn [filter] in Hf. destruct (is_tick_for i cb) eqn:Hcb.
    + injection Hf as Hcb' Hrest. subst cb.
      destruct (nth_error (kpis acc) i) as [k|] eqn:Hk;
        [|apply nth_error_None in Hk; lia].
      destruct (run_mine now acc f du st fr to k Hk) as [Ht Hq].
      destruct (fold_idle now q (run_callback h now acc (Tick i f du st fr to))
                  Hrest) as [Ht' Hq'].
      split; congruence.
    + destruct (run_other now acc cb Hcb) as [Ht Hq].
      destruct (IH (run_callback h now acc cb) Hf) as [Ht' Hq'].
      * now rewrite run_callback_length.
      * split; congruence.
Qed.

Lemma frame_length now d :
  List.length (kpis (frame h now d)) = List.length (kpis d).
Proof. unfold frame. now rewrite fold_length. Qed.

Lemma frame_idle now d :
  ticks_for i d = [] ->
  text_of (frame h now d) i = text_of d i /\ ticks_for i (frame h now d) = [].
Proof.
  intros Hq. unfold frame.
  destruct (fold_idle now (frame_queue d)
              {| kpis := kpis d; chart_section := chart_section d;
                 activity_section := activity_section d;
                 activity_list := activity_list d; console := console d;
                 frame_queue := []; charts := charts d;
                 clock_reads := clock_reads d |} Hq) as [Ht Hq'].
  split; [exact Ht | exact Hq'].
Qed.

Lemma frame_one now d f du st fr to :
  ticks_for i d = [Tick i f du st fr to] ->
  (i < List.length (kpis d))%nat ->
  text_of (frame h now d) i = Some (written h f du st fr to now) /\
  ticks_for i (frame h now d)
  = if again du st now then [Tick i f du st fr to] else [].
Proof.
  intros Hq Hlen. unfold frame.
  destruct (fold_one now (frame_queue d)
              {| kpis := kpis d; chart_section := chart_section d;
                 activity_section := activity_section d;
                 activity_list := activity_list d; console := console d;
                 frame_queue := []; charts := charts d;
                 clock_reads := clock_reads d |} f du st fr to Hq Hlen)
    as [Ht Hq'].
  split; [exact Ht | exact Hq'].
Qed.

Lemma frames_idle nows d :
  ticks_for i d = [] ->
  text_of (frames h nows d) i = text_of d i /\
  ticks_for i (frames h nows d) = [].
Proof.
  revert d. induction nows as [|now rest IH]; intros d Hq.
  - now split.
  - change (frames h (now :: rest) d) with (frames h rest (frame h now d)).
    destruct (frame_idle now d Hq) as [Ht Hq'].
    destruct (IH (frame h now d) Hq') as [Ht' Hq''].
    split; [congruence | exact Hq''].
Qed.
End OneElement.
End FrameFacts.

Module AnimationFacts.
Import Num Js DomOps Dashboard Obs DomFacts FrameFacts.

(** An animation whose frames are finite and reach the full duration
    ends on the end value and stops. *)
Lemma frames_complete (h : Host) (i : nat) (f : JsVal) (st to : number)
      (nows : list number) :
  Math_pow3 h zero = zero ->
  is_finite st = true -> is_double to = true -> to <> neg_zero ->
  Forall (fun now => is_finite now = true) nows ->
  Exists (fun now => ltb (fraction st now) one = false) nows ->
  forall d : Dom,
    ticks_for i d = [Tick i f (VNum (of_Z 750)) st zero to] ->
    (i < List.length (kpis d))%nat ->
    text_of (frames h nows d) i = Some (formatValue h (VNum to) f) /\
    ticks_for i (frames h nows d) = [].
Proof.
  intros Hpow Hst Hto Hz Hfin. induction Hfin as [|now rest Hnow _ IH];
    intros Hex d Hq Hlen.
  - inversion Hex.
  - change (frames h (now :: rest) d) with (frames h rest (frame h now d)).
    destruct (frame_one h i now d f (VNum (of_Z 750)) st zero to Hq Hlen)
      as [Ht Hq'].
    change (again (VNum (of_Z 750)) st now)
      with (ltb (fraction st now) one) in Hq'.
    destruct (ltb (fraction st now) one) eqn:Hlt.
    + apply IH.
      * inversion Hex as [? ? Hhead|? ? Htail]; [congruence | exact Htail].
      * exact Hq'.
      * now rewrite frame_length.
    + destruct (frames_idle h i rest (frame h now d) Hq') as [Ht' Hq''].
      split; [|exact Hq'']. rewrite Ht', Ht. unfold written.
      change (Math_min (div (sub now st) (Number (VNum (of_Z 750)))) one)
        with (fraction st now).
      rewrite (FractionFacts.fraction_done st now Hst Hnow Hlt).
      rewrite (TickFacts.easeOutCubic_one h Hpow).
      now rewrite (TickFacts.interpolate_one to Hto Hz).
Qed.

(** The number [formatValue] and [countUp] take for a number. *)
Lemma number_or_zero (x : number) :
  is_double x = true ->
  let n := Number (or (VNum x) (VNum zero)) in
  is_double n = true /\ n <> neg_zero /\
  Number (or (VNum n) (VNum zero)) = n.
Proof.
  intros Hx. unfold or. cbn [ToBoolean].
  destruct x as [s|s| |s m e]; cbn; repeat split; try discriminate; assumption.
Qed.

Lemma formatValue_number (h : Host) (x : number) (format : JsVal) :
  is_double x = true ->
  formatValue h (VNum (Number (or (VNum x) (VNum zero)))) format
  = formatValue h (VNum x) format.
Proof.
  intros Hx. unfold formatValue.
  now rewrite (proj2 (proj2 (number_or_zero x Hx))).
Qed.

(** A resolved metrics request carries truthy counts. *)
Lemma settled_truthy (f : Settled) (counts : JsVal) :
  fetchMetricsOnce_settled f = Normal counts -> ToBoolean counts = true.
Proof.
  unfold fetchMetricsOnce_settled, fetchMetricsOnce_check.
  destruct f as [e|[res_ok [data|e]]]; try discriminate. cbn [json ok].
  destruct res_ok; cbn [negb]; [|discriminate].
  destruct (get data "ok") as [data_ok|e]; [|discriminate].
  destruct (negb (ToBoolean data_ok)); [discriminate|].
  destruct (get data "counts") as [c|e]; [|discriminate].
  destruct (ToBoolean c) eqn:Hc; cbn [negb]; [|discriminate].
  intros H. injection H as <-. exact Hc.
Qed.
End AnimationFacts.

Module ApplyFacts.
Import Num Js DomOps Dashboard Obs DomFacts.
Local Open Scope string_scope.

Lemma map_update_nth {A B} (s : A -> B) (g : A -> A) (j : nat) (l : list A) :
  (forall a, s (g a) = s a) -> map s (update_nth j g l) = map s l.
Proof.
  intros Hg. revert j. induction l as [|a l IH]; intros [|j]; cbn;
    try reflexivity.
  - now rewrite Hg.
  - now rewrite IH.
Qed.

Lemma same_view_refl (d : Dom) : same_view d d.
Proof. unfold same_view. now repeat split. Qed.

Lemma same_view_trans (a b c : Dom) :
  same_view a b -> same_view b c -> same_view a c.
Proof.
  unfold same_view. intros (H1 & H2 & H3 & H4) (K1 & K2 & K3 & K4).
  repeat split; congruence.
Qed.

Lemma classList_remove_view (i : nat) (token : string) (d : Dom) :
  same_view d (classList_remove i token d).
Proof.
  unfold same_view, classList_remove, with_kpis, attrs, texts. cbn [kpis].
  repeat split; now apply map_update_nth.
Qed.

Lemma fold_classList_remove_view (i : nat) (tokens : list nat) (d : Dom) :
  same_view d
    (fold_left
       (fun d n =>
          classList_remove i ("col-" ++ ToString (VNum (of_Z (Z.of_nat n)))) d)
       tokens d).
Proof.
  revert d. induction tokens as [|n rest IH]; intros d; cbn [fold_left].
  - apply same_view_refl.
  - eapply same_view_trans; [apply classList_remove_view | apply IH].
Qed.

(** Elements at the same place of two documents with the same keys and
    formats. *)
Lemma attrs_nth (d d' : Dom) (i : nat) (el : Kpi) :
  attrs d' = attrs d -> nth_error (kpis d) i = Some el ->
  exists el',
    nth_error (kpis d') i = Some el' /\
    format_for el' = format_for el /\
    (forall counts, value_for counts el' = value_for counts el).
Proof.
  intros Ha Hel.
  assert (H : nth_error (attrs d') i = Some (data_key el, data_format el)).
  { rewrite Ha. unfold attrs. now rewrite nth_error_map, Hel. }
  unfold attrs in H. rewrite nth_error_map in H.
  destruct (nth_error (kpis d') i) as [el'|]; [|discriminate].
  injection H as Hk Hf. exists el'. split; [reflexivity|].
  unfold format_for, value_for, getAttribute_data_format.
  rewrite Hk, Hf. now split.
Qed.

Lemma texts_nth (d d' : Dom) (i : nat) :
  texts d' = texts d -> text_of d' i = text_of d i.
Proof.
  intros H. unfold text_of. rewrite <- !nth_error_map.
  fold (texts d') (texts d). now rewrite H.
Qed.

Lemma or_or (a b : JsVal) : ToBoolean b = true -> or (or a b) b = or a b.
Proof.
  intros Hb. unfold or. destruct (ToBoolean a) eqn:Ha.
  - now rewrite Ha.
  - now rewrite Hb.
Qed.

(** What [countUp] does with the options [applyMetrics] builds. *)
Lemma countUp_options (h : Host) (i : nat) (val : JsVal) (el : Kpi) (d : Dom) :
  countUp h i val
    (VObj [("format", format_for el); ("duration", VNum (of_Z 750))]) d
  = if reduced_motion h
    then set_textContent i (formatValue h val (format_for el)) d
    else requestAnimationFrame
           (Tick i (format_for el) (VNum (of_Z 750))
              (performance_now h (clock_reads d)) zero
              (Number (or val (VNum zero))))
           (snd (performance_now_read h d)).
Proof.
  unfold countUp, prefersReduced.
  change (get_opt (VObj [("format", format_for el);
                         ("duration", VNum (of_Z 750))]) "format")
    with (format_for el).
  change (or (get_opt (VObj [("format", format_for el);
                             ("duration", VNum (of_Z 750))]) "duration")
             (VNum (of_Z 750)))
    with (VNum (of_Z 750)).
  assert (Hfmt : or (format_for el) (VStr "int") = format_for el)
    by (unfold format_for; now apply or_or).
  rewrite Hfmt. reflexivity.
Qed.

Lemma each_animated (h : Host) (counts : JsVal) (d : Dom) (j : nat) (el : Kpi) :
  reduced_motion h = false -> nth_error (kpis d) j = Some el ->
  let d' := applyMetrics_each h counts d j in
  attrs d' = attrs d /\ texts d' = texts d /\
  clock_reads d' = S (clock_reads d) /\
  frame_queue d'
  = (frame_queue d
     ++ [Tick j (format_for el) (VNum (of_Z 750))
           (performance_now h (clock_reads d)) zero
           (Number (or (value_for counts el) (VNum zero)))])%list.
Proof.
  intros Hr Hel. unfold applyMetrics_each. rewrite Hel.
  fold (format_for el) (value_for counts el).
  rewrite countUp_options, Hr.
  match goal with
  | |- context [fold_left ?f ?l ?d0] =>
      pose proof (same_view_trans _ _ _
                    (classList_remove_view j "placeholder" d)
                    (fold_classList_remove_view j l d0)) as Hv;
      set (d2 := fold_left f l d0) in *
  end.
  destruct Hv as (Ha & Ht & Hq & Hc). clearbody d2.
  unfold requestAnimationFrame, performance_now_read, attrs, texts in *.
  cbn. rewrite Hc, Hq. repeat split; assumption.
Qed.

Lemma each_reduced (h : Host) (counts : JsVal) (d : Dom) (j : nat) (el : Kpi) :
  reduced_motion h = true -> nth_error (kpis d) j = Some el ->
  let d' := applyMetrics_each h counts d j in
  attrs d' = attrs d /\ frame_queue d' = frame_queue d /\
  text_of d' j = Some (formatValue h (value_for counts el) (format_for el)) /\
  (forall i, i <> j -> text_of d' i = text_of d i).
Proof.
  intros Hr Hel. unfold applyMetrics_each. rewrite Hel.
  fold (format_for el) (value_for counts el).
  rewrite countUp_options, Hr.
  match goal with
  | |- context [fold_left ?f ?l ?d0] =>
      pose proof (same_view_trans _ _ _
                    (classList_remove_view j "placeholder" d)
                    (fold_classList_remove_view j l d0)) as Hv;
      set (d2 := fold_left f l d0) in *
  end.
  destruct Hv as (Ha & Ht & Hq & Hc). clearbody d2. cbv zeta.
  destruct (attrs_nth d d2 j el Ha Hel) as (el2 & Hel2 & _).
  repeat split.
  - rewrite <- Ha. unfold set_textContent, with_kpis, attrs. cbn [kpis].
    now apply map_update_nth.
  - exact Hq.
  - now apply (text_of_set_same d2 j _ el2).
  - intros i Hi. rewrite text_of_set_other by assumption.
    now apply texts_nth.
Qed.
End ApplyFacts.

Module ApplyAll.
Import Num Js DomOps Dashboard Obs DomFacts ApplyFacts.

Lemma attrs_length (d d' : Dom) :
  attrs d' = attrs d -> List.length (kpis d') = List.length (kpis d).
Proof.
  intros H. apply (f_equal (@List.length _)) in H.
  unfold attrs in H. now rewrite !length_map in H.
Qed.

(** [applyMetrics] with animation, after the first [m] elements: nothing
    shown has changed, and each of these elements has its callback
    queued. *)
Lemma animated_upto (h : Host) (counts : JsVal) (d : Dom) (m : nat) :
  reduced_motion h = false -> (m <= List.length (kpis d))%nat ->
  let d' := fold_left (applyMetrics_each h counts) (seq 0 m) d in
  attrs d' = attrs d /\ texts d' = texts d /\
  clock_reads d' = (clock_reads d + m)%nat /\
  forall i el,
    nth_error (kpis d) i = Some el ->
    ticks_for i d'
    = ticks_for i d ++ (if (i <? m)%nat then [first_tick h counts d i el] else []).
Proof.
  intros Hr. induction m as [|m IH]; intros Hm.
  - cbn. repeat split; try lia. intros i el _. now rewrite app_nil_r.
  - rewrite seq_S, fold_left_app. cbn [fold_left Nat.add].
    destruct (IH ltac:(lia)) as (Ha & Ht & Hc & Hq).
    set (dm := fold_left (applyMetrics_each h counts) (seq 0 m) d) in *.
    destruct (nth_error (kpis d) m) as [elm|] eqn:Helm;
      [|apply nth_error_None in Helm; lia].
    destruct (attrs_nth d dm m elm Ha Helm) as (elm' & Helm' & Hf & Hv).
    destruct (each_animated h counts dm m elm' Hr Helm')
      as (Ha' & Ht' & Hc' & Hq').
    cbv zeta. repeat split; try congruence; [lia|].
    intros i el Hel. unfold ticks_for at 1. rewrite Hq', filter_app.
    fold (ticks_for i dm). rewrite (Hq i el Hel), <- app_assoc. f_equal.
    cbn [filter is_tick_for].
    destruct (Nat.eqb_spec m i) as [->|Hne].
    + rewrite Nat.ltb_irrefl.
      replace (i <? S i)%nat with true by (symmetry; apply Nat.ltb_lt; lia).
      assert (el = elm) by congruence. subst el.
      unfold first_tick. now rewrite Hf, Hv, Hc.
    + rewrite app_nil_r.
      destruct (Nat.ltb_spec i m), (Nat.ltb_spec i (S m)); try reflexivity; lia.
Qed.

(** [applyMetrics] under reduced motion, after the first [m] elements:
    each of them shows its formatted value, and nothing is queued. *)
Lemma reduced_upto (h : Host) (counts : JsVal) (d : Dom) (m : nat) :
  reduced_motion h = true -> (m <= List.length (kpis d))%nat ->
  let d' := fold_left (applyMetrics_each h counts) (seq 0 m) d in
  attrs d' = attrs d /\ frame_queue d' = frame_queue d /\
  forall i el,
    nth_error (kpis d) i = Some el ->
    text_of d' i
    = if (i <? m)%nat
      then Some (formatValue h (value_for counts el) (format_for el))
      else text_of d i.
Proof.
  intros Hr. induction m as [|m IH]; intros Hm.
  - cbn. now repeat split.
  - rewrite seq_S, fold_left_app. cbn [fold_left Nat.add].
    destruct (IH ltac:(lia)) as (Ha & Hq & Ht).
    set (dm := fold_left (applyMetrics_each h counts) (seq 0 m) d) in *.
    destruct (nth_error (kpis d) m) as [elm|] eqn:Helm;
      [|apply nth_error_None in Helm; lia].
    destruct (attrs_nth d dm m elm Ha Helm) as (elm' & Helm' & Hf & Hv).
    destruct (each_reduced h counts dm m elm' Hr Helm')
      as (Ha' & Hq' & Hsame & Hother).
    cbv zeta. repeat split; try congruence.
    intros i el Hel.
    destruct (Nat.eq_dec i m) as [->|Hne].
    + replace (m <? S m)%nat with true by (symmetry; apply Nat.ltb_lt; lia).
      assert (el = elm) by congruence. subst el.
      now rewrite Hsame, Hf, Hv.
    + rewrite (Hother i Hne), (Ht i el Hel).
      destruct (Nat.ltb_spec i m), (Nat.ltb_spec i (S m)); try reflexivity; lia.
Qed.
End ApplyAll.

(* ===================================================================== *)
(** * Facts about the details flow *)
(* ===================================================================== *)

Module DetailsFacts.
Import Js DomOps Dashboard.
Local Open Scope string_scope.

(** What the [catch] handler leaves behind on a page that has both
    regions. *)
Lemma loadDetails_catch_spec (e : JsError) (d : Dom) :
  chart_section d <> None -> activity_section d <> None ->
  exists d',
    loadDetails_catch e d = (Normal tt, d') /\
    chart_section d' = Some (chart_error_markup (message e)) /\
    activity_section d' = Some (activity_error_markup (message e)) /\
    activity_list d' = None /\
    console d' = (console d ++ [("Dashboard Error:", e)])%list /\
    frame_queue d' = frame_queue d /\
    charts d' = charts d /\
    kpis d' = kpis d.
Proof.
  intros Hc Ha.
  unfold loadDetails_catch, bind, modify, set_chart_section,
    set_activity_section, console_error.
  cbn [chart_section activity_section].
  destruct (chart_section d) as [c|]; [|now elim Hc].
  destruct (activity_section d) as [a|]; [|now elim Ha].
  eexists. split; [reflexivity|]. cbn. repeat split.
Qed.

(** The [catch] handler schedules nothing and draws nothing. *)
Lemma loadDetails_catch_queue (e : JsError) (d : Dom) :
  frame_queue (snd (loadDetails_catch e d)) = frame_queue d /\
  charts (snd (loadDetails_catch e d)) = charts d.
Proof.
  unfold loadDetails_catch, bind, modify, set_chart_section,
    set_activity_section, console_error.
  cbn [chart_section activity_section].
  destruct (chart_section d); [|split; reflexivity].
  destruct (activity_section d); split; reflexivity.
Qed.
End DetailsFacts.

Module PercentFacts.
Import Js DomOps Dashboard.
Local Open Scope string_scope.

(** Up to the point where the render callback is queued, the second
    handler of [loadDetails] can only fail on a [null] body or a missing
    chart region. *)
Lemma render_queues_charts (h : Host) (data : JsVal) (d : Dom) :
  Obs.is_null data = false -> chart_section d <> None ->
  In (RenderCharts data
        (percentage_of (own_property data "total_debt")
                       (own_property data "total_paid")))
     (frame_queue (snd (loadDetails_render h data d))).
Proof.
  intros Hd Hc.
  assert (Hget : forall k, get data k = Normal (own_property data k))
    by (intros k; destruct data; try discriminate Hd; reflexivity).
  unfold loadDetails_render, bind, lift, modify. rewrite !Hget.
  unfold set_chart_section.
  destruct (chart_section d) as [c|] eqn:Ec; [|now elim Hc].
  set (p := percentage_of _ _).
  set (d1 := requestAnimationFrame _ _).
  assert (Hq : In (RenderCharts data p) (frame_queue d1))
    by (unfold d1, requestAnimationFrame; cbn [frame_queue];
        apply in_or_app; right; now left).
  assert (Hset : forall markup l,
             frame_queue (snd (set_activity_section markup l d1))
             = frame_queue d1).
  { intros markup l. unfold set_activity_section.
    destruct (activity_section d1); reflexivity. }
  destruct (ToBoolean (own_property data "recent_activities")
            && gt_number (own_property (own_property data "recent_activities")
                                       "length") Num.zero).
  - unfold set_activity_section.
    destruct (activity_section d1) as [a|] eqn:Ea; [|exact Hq].
    set (d2 := {| kpis := kpis d1; chart_section := chart_section d1;
                  activity_section := Some activity_markup;
                  activity_list := Some []; console := console d1;
                  frame_queue := frame_queue d1; charts := charts d1;
                  clock_reads := clock_reads d1 |}).
    assert (Hq2 : In (RenderCharts data p) (frame_queue d2)) by exact Hq.
    clearbody d2.
    unfold forEach_activity.
    destruct (own_property data "recent_activities"); try exact Hq2.
    revert d2 Hq2. induction items as [|act rest IH]; intros d2 Hq2.
    + exact Hq2.
    + cbn [append_activities]. unfold bind, lift.
      destruct (activity_item h act) as [li|e]; [|exact Hq2].
      unfold activityList_appendChild.
      destruct (activity_list d2) as [its|]; [|exact Hq2].
      apply IH. exact Hq2.
  - rewrite <- (Hset no_activity_markup false) in Hq.
    destruct (set_activity_section no_activity_markup false d1) as [[ ]]; exact Hq.
Qed.
End PercentFacts.

Module RenderFacts.
Import Js DomOps Dashboard Obs.
Local Open Scope string_scope.

Lemma get_not_null (v : JsVal) (k : string) :
  Obs.is_null v = false -> get v k = Normal (own_property v k).
Proof. destruct v; intros H; try discriminate H; reflexivity. Qed.

Lemma activity_item_not_null (h : Host) (act : JsVal) :
  Obs.is_null act = false -> activity_item h act = Normal (item_of h act).
Proof.
  intros H. unfold activity_item. now rewrite !get_not_null by assumption.
Qed.

Lemma append_activities_spec (h : Host) (items : list JsVal) :
  Forall (fun act => Obs.is_null act = false) items ->
  forall (d : Dom) (acc : list Li),
    activity_list d = Some acc ->
    exists d',
      append_activities h items d = (Normal tt, d') /\
      activity_list d' = Some (acc ++ map (item_of h) items)%list /\
      same_but_list d d'.
Proof.
  induction 1 as [|act rest Hact _ IH]; intros d acc Hl.
  - exists d. cbn [append_activities map]. rewrite app_nil_r.
    unfold same_but_list. now repeat split.
  - cbn [append_activities]. unfold bind, lift.
    rewrite (activity_item_not_null h act Hact).
    unfold activityList_appendChild. rewrite Hl.
    set (d1 := {| kpis := kpis d; chart_section := chart_section d;
                  activity_section := activity_section d;
                  activity_list := Some (acc ++ [item_of h act])%list;
                  console := console d; frame_queue := frame_queue d;
                  charts := charts d; clock_reads := clock_reads d |}).
    destruct (IH d1 (acc ++ [item_of h act])%list eq_refl)
      as (d' & Hrun & Hl' & Hs).
    exists d'. split; [exact Hrun|]. split.
    + rewrite Hl'. cbn [map]. now rewrite <- app_assoc.
    + exact Hs.
Qed.

(** An array length below 2^32 is a positive Number as soon as the array
    is not empty. *)
Lemma length_gt_zero {A} (l : list A) :
  l <> [] -> (Z.of_nat (List.length l) < 2 ^ 32)%Z ->
  gt_number (own_property (VArr []) "length") Num.zero = false /\
  Num.ltb Num.zero (Num.of_Z (Z.of_nat (List.length l))) = true.
Proof.
  intros Hne Hlt. split; [reflexivity|].
  destruct l as [|a l]; [now elim Hne|].
  cbn [List.length] in *. rewrite Nat2Z.inj_succ in *.
  destruct (Z.succ (Z.of_nat (List.length l))) as [|p|p] eqn:E; try lia.
  unfold Num.of_Z, binary_normalize.
  destruct (NumFacts.of_Z_exact false p) as (m & j & _ & _ & ->).
  - apply RoundFacts.digits2_le_53.
    assert (2 ^ 32 < 2 ^ 53)%Z by reflexivity. lia.
  - reflexivity.
Qed.
End RenderFacts.

Module RenderSpec.
Import Js DomOps Dashboard Obs RenderFacts.
Local Open Scope string_scope.

(** The second handler of [loadDetails] on a body that is not [null] and
    a page that has both regions: the chart markup is written and the
    render callback queued, then the activity region is rebuilt. *)
Lemma loadDetails_render_spec (h : Host) (data : JsVal) (d : Dom) :
  is_null data = false ->
  chart_section d <> None -> activity_section d <> None ->
  let total_debt := own_property data "total_debt" in
  let total_paid := own_property data "total_paid" in
  let recent := own_property data "recent_activities" in
  let queue :=
    (frame_queue d
     ++ [RenderCharts data (percentage_of total_debt total_paid)])%list in
  let rebuilt markup list :=
    {| kpis := kpis d;
       chart_section := Some (chart_markup total_debt total_paid);
       activity_section := Some markup;
       activity_list := list;
       console := console d; frame_queue := queue; charts := charts d;
       clock_reads := clock_reads d |} in
  loadDetails_render h data d
  = if ToBoolean recent && gt_number (own_property recent "length") Num.zero
    then forEach_activity h recent (rebuilt activity_markup (Some []))
    else (Normal tt, rebuilt no_activity_markup None).
Proof.
  intros Hd Hc Ha total_debt total_paid recent queue rebuilt.
  unfold loadDetails_render, bind, lift, modify.
  rewrite !get_not_null by assumption.
  unfold set_chart_section.
  destruct (chart_section d) as [c|]; [|now elim Hc].
  fold total_debt total_paid recent.
  destruct (ToBoolean recent && gt_number (own_property recent "length") Num.zero);
    unfold set_activity_section, requestAnimationFrame;
    cbn [activity_section];
    (destruct (activity_section d) as [a|]; [|now elim Ha]); reflexivity.
Qed.
End RenderSpec.

Module FailureFacts.
Import Js DomOps Dashboard Obs.
Local Open Scope string_scope.

Lemma same_but_list_refl (d : Dom) : same_but_list d d.
Proof. unfold same_but_list. now repeat split. Qed.

Lemma append_activities_preserves (h : Host) (items : list JsVal) (d : Dom) :
  same_but_list d (snd (append_activities h items d)).
Proof.
  revert d. induction items as [|act rest IH]; intros d.
  - apply same_but_list_refl.
  - cbn [append_activities]. unfold bind, lift.
    destruct (activity_item h act) as [li|e]; [|apply same_but_list_refl].
    unfold activityList_appendChild.
    destruct (activity_list d) as [acc|]; [|apply same_but_list_refl].
    match goal with |- same_but_list _ (snd (append_activities _ _ ?d1)) =>
      specialize (IH d1) end.
    exact IH.
Qed.

Lemma forEach_activity_preserves (h : Host) (recent : JsVal) (d : Dom) :
  same_but_list d (snd (forEach_activity h recent d)).
Proof.
  destruct recent; try apply same_but_list_refl.
  apply append_activities_preserves.
Qed.

(** A request that fails early throws before anything is written. *)
Lemma fails_early_throws (h : Host) (f : Settled) (d : Dom) :
  fails_early f = true -> exists e, loadDetails_then h f d = (Throw e, d).
Proof.
  unfold loadDetails_then, bind, lift.
  destruct f as [e|[res_ok [data|e]]]; cbn [fails_early ok json].
  - intros _. now exists e.
  - unfold loadDetails_response. cbn [ok json].
    destruct res_ok; cbn [negb orb].
    + intros Hn. unfold loadDetails_render, bind, lift.
      destruct data; try discriminate Hn; eexists; reflexivity.
    + intros _. eexists. reflexivity.
  - intros _. unfold loadDetails_response. cbn [ok json].
    destruct res_ok; eexists; reflexivity.
Qed.

(** Whatever the chain does before its [catch], both regions stay in
    place, and nothing is logged or drawn. *)
Lemma loadDetails_then_preserves (h : Host) (f : Settled) (d : Dom) :
  chart_section d <> None -> activity_section d <> None ->
  let d1 := snd (loadDetails_then h f d) in
  chart_section d1 <> None /\ activity_section d1 <> None /\
  console d1 = console d /\ charts d1 = charts d /\ kpis d1 = kpis d.
Proof.
  intros Hc Ha.
  destruct (fails_early f) eqn:Hf.
  - destruct (fails_early_throws h f d Hf) as [e ->]. now cbn [snd].
  - destruct f as [e|[res_ok [data|e]]]; cbn [fails_early ok json] in Hf;
      [discriminate Hf| |destruct res_ok; discriminate Hf].
    destruct res_ok; [|discriminate Hf]. cbn [negb orb] in Hf.
    unfold loadDetails_then, bind, lift, loadDetails_response. cbn [ok json negb].
    rewrite (RenderSpec.loadDetails_render_spec h data d Hf Hc Ha).
    destruct (ToBoolean _ && _).
    + match goal with |- context [snd (forEach_activity _ ?r ?d0)] =>
        pose proof (forEach_activity_preserves h r d0) as Hs end.
      destruct Hs as (Hk & Hch & Hact & Hlog & _ & Hcharts & _).
      rewrite Hch, Hact, Hlog, Hcharts, Hk. cbn.
      repeat split; discriminate.
    + cbn. repeat split; discriminate.
Qed.
End FailureFacts.

(* ===================================================================== *)
(** * Facts about the metrics request *)
(* ===================================================================== *)

Module MetricsFacts.
Import Js DomOps Dashboard Metrics DomFacts.

Lemma nth_error_lt {A} (l : list A) (i : nat) (x : A) :
  nth_error l i = Some x -> i < List.length l.
Proof. intros H. apply nth_error_Some. congruence. Qed.

Lemma nth_error_snoc {A} (l : list A) (a x : A) (i : nat) :
  nth_error (l ++ [a]) i = Some x ->
  (i < List.length l /\ nth_error l i = Some x) \/ (i = List.length l /\ x = a).
Proof.
  intros H. destruct (Nat.lt_ge_cases i (List.length l)) as [Hlt|Hge].
  - left. split; [exact Hlt|]. now rewrite nth_error_app1 in H.
  - right. rewrite nth_error_app2 in H by exact Hge.
    destruct (i - List.length l) as [|k] eqn:E.
    + cbn in H. injection H as <-. split; [lia | reflexivity].
    + cbn in H. destruct k; discriminate.
Qed.

Lemma abort_call_signal (c : nat) (i : Invocation) :
  call_signal (abort_call c i) = call_signal i.
Proof.
  unfold abort_call. destruct (call_signal i =? c); [|reflexivity].
  now destruct (phase i).
Qed.

Lemma abort_call_done (c : nat) (i : Invocation) :
  (exists result, phase i = Done result) \/ call_signal i = c ->
  exists result, phase (abort_call c i) = Done result.
Proof.
  unfold abort_call. intros [[result H]|H].
  - destruct (call_signal i =? c); [|now exists result].
    destruct (phase i) eqn:E; try discriminate H. exists result0. exact E.
  - rewrite H, Nat.eqb_refl. destruct (phase i) eqn:E; cbn; eauto.
Qed.

Lemma coherent_initial (d : Dom) : coherent (initial d).
Proof.
  constructor; cbn; try reflexivity; try lia;
    try (intros [|i] ? H; discriminate H);
    try (intros k H; discriminate H).
Qed.

(** After [if (metricsAbort) metricsAbort.abort()] every controller made
    so far is aborted and every invocation made so far has settled. *)
Lemma abort_previous_spec (w : World) :
  coherent w ->
  let w1 := abort_previous w in
  List.length (aborted w1) = List.length (calls w) /\
  List.length (calls w1) = List.length (calls w) /\
  requests w1 = requests w /\ dom w1 = dom w /\
  (forall i, i < List.length (calls w) -> nth_error (aborted w1) i = Some true) /\
  (forall i c, nth_error (calls w1) i = Some c ->
               call_signal c = i /\ exists result, phase c = Done result).
Proof.
  intros [H1 H2 H3 H4 H5 H6 H7 H8]. unfold abort_previous. rewrite H3.
  destruct (List.length (calls w)) as [|k] eqn:Hn.
  - cbv zeta. rewrite Hn. repeat apply conj; try assumption; try reflexivity.
    + intros i Hi. lia.
    + intros i c Hc. apply nth_error_lt in Hc. lia.
  - unfold abort. cbn [aborted calls requests dom].
    rewrite length_update_nth, length_map, Hn.
    repeat apply conj; try assumption; try reflexivity.
    + intros i Hi. destruct (Nat.eq_dec i k) as [->|Hne].
      * exact (nth_error_update_nth_eq (fun _ => true) (aborted w) k false
                 (H8 k eq_refl)).
      * rewrite nth_error_update_nth_neq by assumption. apply H7. lia.
    + intros i c H. rewrite nth_error_map in H.
      destruct (nth_error (calls w) i) as [c0|] eqn:Hc0; [|discriminate].
      injection H as <-. split.
      * rewrite abort_call_signal. now apply H4.
      * apply abort_call_done.
        destruct (Nat.eq_dec i k) as [->|Hne].
        -- right. now apply H4.
        -- left. apply (H6 i c0 Hc0).
           apply nth_error_lt in Hc0. lia.
Qed.

Lemma coherent_start (w : World) :
  coherent w -> coherent (fetchMetricsOnce_start w).
Proof.
  intros Hw. destruct (abort_previous_spec w Hw) as (Ha & Hc & Hr & _ & Hab & Hdone).
  cbv zeta in *. unfold fetchMetricsOnce_start.
  set (w1 := abort_previous w) in *. clearbody w1.
  unfold send_request, new_controller. cbn [metricsAbort aborted requests calls dom].
  assert (Hreq : List.length (requests w1) = List.length (calls w1))
    by (rewrite Hr, Hc; apply (requests_in_step w Hw)).
  constructor; cbn [metricsAbort aborted requests calls dom];
    rewrite ?length_app; cbn [List.length]; rewrite ?Nat.add_1_r.
  - congruence.
  - congruence.
  - now rewrite Ha, Hc.
  - intros i c H. apply nth_error_snoc in H. destruct H as [[_ H]|[-> ->]].
    + now apply (Hdone i c).
    + cbn. congruence.
  - intros i r H. apply nth_error_snoc in H. destruct H as [[_ H]|[-> ->]].
    + rewrite Hr in H. now apply (request_shape w Hw).
    + now rewrite Hreq, Ha, Hc.
  - intros i c H Hi. apply nth_error_snoc in H. destruct H as [[_ H]|[-> _]].
    + now apply (Hdone i c).
    + lia.
  - intros i Hi. rewrite nth_error_app1 by lia. apply Hab. lia.
  - intros k Hk. injection Hk as <-.
    rewrite nth_error_app2 by lia.
    replace (List.length (calls w1) - List.length (aborted w1)) with 0 by lia.
    reflexivity.
Qed.

Lemma coherent_with_dom (f : Dom -> Dom) (w : World) :
  coherent w -> coherent (with_dom f w).
Proof. intros [H1 H2 H3 H4 H5 H6 H7 H8]. now constructor. Qed.

(** An invocation that is still awaiting is the latest one. *)
Lemma awaiting_is_latest (w : World) (i : nat) (p : Phase) :
  coherent w -> phase_of w i = Some p ->
  (forall result, p <> Done result) ->
  S i = List.length (calls w).
Proof.
  intros Hw Hp Hnot. unfold phase_of in Hp.
  destruct (nth_error (calls w) i) as [c|] eqn:Hc; [|discriminate].
  injection Hp as <-.
  pose proof (nth_error_lt _ _ _ Hc) as Hlt.
  destruct (Nat.eq_dec (S i) (List.length (calls w))) as [|Hne]; [assumption|].
  destruct (earlier_settled w Hw i c Hc ltac:(lia)) as [result Hres].
  now elim (Hnot result).
Qed.

Lemma coherent_set_phase (w : World) (i : nat) (p : Phase) :
  coherent w -> S i = List.length (calls w) -> coherent (set_phase i p w).
Proof.
  intros [H1 H2 H3 H4 H5 H6 H7 H8] Hi. unfold set_phase.
  constructor; cbn [metricsAbort aborted requests calls dom];
    rewrite ?length_update_nth; try assumption.
  - intros j c Hc. destruct (Nat.eq_dec j i) as [->|Hne].
    + destruct (nth_error (calls w) i) as [c0|] eqn:Hc0.
      * rewrite (nth_error_update_nth_eq _ _ _ _ Hc0) in Hc.
        injection Hc as <-. cbn. now apply H4.
      * apply nth_error_None in Hc0. lia.
    + rewrite nth_error_update_nth_neq in Hc by assumption. now apply H4.
  - intros j c Hc Hj.
    rewrite nth_error_update_nth_neq in Hc by lia. now apply (H6 j).
Qed.

Lemma coherent_step (h : Host) (w : World) (ev : Event) :
  coherent w -> coherent (fst (step h w ev)).
Proof.
  intros Hw. destruct ev as [|i e|i res_ok|i j|now]; cbn [step].
  - now apply coherent_start.
  - destruct (phase_of w i) as [[| |]|] eqn:Hp; cbn [fst]; try assumption.
    apply coherent_set_phase; [assumption|].
    apply (awaiting_is_latest w i AwaitFetch Hw Hp). discriminate.
  - destruct (phase_of w i) as [[| |]|] eqn:Hp; cbn [fst]; try assumption.
    apply coherent_set_phase; [assumption|].
    apply (awaiting_is_latest w i AwaitFetch Hw Hp). discriminate.
  - destruct (phase_of w i) as [[|ok0|]|] eqn:Hp; cbn [fst]; try assumption.
    assert (Hi : S i = List.length (calls w))
      by (apply (awaiting_is_latest w i (AwaitJson ok0) Hw Hp); discriminate).
    destruct (fetchMetricsOnce_settled _) as [counts|e]; cbn [fst].
    + now apply coherent_with_dom, coherent_set_phase.
    + now apply coherent_set_phase.
  - now apply coherent_with_dom.
Qed.

Lemma coherent_run (h : Host) (evs : list Event) (w : World) :
  coherent w -> coherent (fst (run h w evs)).
Proof.
  revert w. induction evs as [|ev rest IH]; intros w Hw; cbn [run].
  - exact Hw.
  - pose proof (coherent_step h w ev Hw) as H1.
    destruct (step h w ev) as [w1 a1]. cbn [fst] in H1.
    specialize (IH w1 H1). destruct (run h w1 rest) as [w2 a2]. exact IH.
Qed.

(** Only an invocation awaiting its body can have its result applied. *)
Lemma applied_awaits (h : Host) (w : World) (ev : Event) (i : nat)
      (counts : JsVal) :
  In (i, counts) (snd (step h w ev)) ->
  exists res_ok j,
    ev = Body i j /\ phase_of w i = Some (AwaitJson res_ok) /\
    fetchMetricsOnce_settled (Fulfilled {| ok := res_ok; json := j |})
    = Normal counts.
Proof.
  destruct ev as [|k e|k res_ok|k j|now]; cbn [step].
  - intros [].
  - destruct (phase_of w k) as [[| |]|]; intros [].
  - destruct (phase_of w k) as [[| |]|]; intros [].
  - destruct (phase_of w k) as [[|ok0|]|] eqn:Hp; try (intros []).
    destruct (fetchMetricsOnce_settled _) as [c|e] eqn:Hs; cbn [snd];
      [|intros []].
    intros [H|[]]. injection H as <- <-. now exists ok0, j.
  - intros [].
Qed.
End MetricsFacts.

(* ===================================================================== *)
(** * Facts for the further properties *)
(* ===================================================================== *)

Module ClassFacts.
Import Num Js DomOps Dashboard Obs Effects.

Lemma update_nth_compose {A} (f g : A -> A) (i : nat) (l : list A) :
  update_nth i f (update_nth i g l) = update_nth i (fun a => f (g a)) l.
Proof.
  revert i. induction l as [|a l IH]; intros [|i]; cbn; try reflexivity.
  now rewrite IH.
Qed.

Lemma update_nth_at {A} (f g : A -> A) (i : nat) (l : list A) (a : A) :
  nth_error l i = Some a -> f a = g a -> update_nth i f l = update_nth i g l.
Proof.
  revert i. induction l as [|b l IH]; intros [|i] H E; cbn in *;
    try discriminate.
  - injection H as ->. now rewrite E.
  - now rewrite (IH i H E).
Qed.

Lemma update_nth_middle {A} (f : A -> A) (pre : list A) (a : A) (rest : list A) :
  update_nth (List.length pre) f (pre ++ a :: rest) = pre ++ f a :: rest.
Proof. induction pre as [|b pre IH]; cbn; [reflexivity | now rewrite IH]. Qed.

Lemma filter_filter {A} (p q : A -> bool) (l : list A) :
  filter p (filter q l) = filter (fun a => q a && p a) l.
Proof.
  induction l as [|a l IH]; cbn; [reflexivity|].
  destruct (q a); cbn; [destruct (p a)|]; now rewrite IH.
Qed.

(** Removing tokens one after the other removes them all. *)
Lemma remove_tokens (tokens : list string) (k : Kpi) :
  fold_left (fun k t => remove_token t k) tokens k
  = {| data_key := data_key k; data_format := data_format k;
       classList := without tokens (classList k);
       textContent := textContent k |}.
Proof.
  revert k. induction tokens as [|t ts IH]; intros k; cbn [fold_left].
  - unfold without. cbn [existsb negb].
    replace (filter (fun _ => true) (classList k)) with (classList k).
    + now destruct k.
    + induction (classList k) as [|c l IHl]; cbn; [reflexivity | now rewrite <- IHl].
  - rewrite IH. unfold remove_token, without. cbn [data_key data_format classList textContent].
    rewrite filter_filter. f_equal. apply filter_ext. intros c.
    cbn [existsb]. now rewrite negb_orb.
Qed.
End ClassFacts.
Module ApplyClosed.
Import Num Js DomOps Dashboard Obs Effects ClassFacts.

Lemma layout_tokens :
  "placeholder"%string
  :: map (fun n => ("col-" ++ ToString (VNum (of_Z (Z.of_nat n))))%string)
         (seq 1 12)
  = layout_classes.
Proof. vm_compute. reflexivity. Qed.

Lemma update_nth_ext {A} (f g : A -> A) (i : nat) (l : list A) :
  (forall a, f a = g a) -> update_nth i f l = update_nth i g l.
Proof.
  intros E. revert i. induction l as [|a l IH]; intros [|i]; cbn;
    try reflexivity.
  - now rewrite E.
  - now rewrite IH.
Qed.

Lemma fold_classList_remove (i : nat) (tokens : list string) :
  forall (F : Kpi -> Kpi) (d : Dom),
    fold_left (fun d t => classList_remove i t d) tokens
      (with_kpis (update_nth i F) d)
    = with_kpis
        (update_nth i
           (fun k => fold_left (fun k t => remove_token t k) tokens (F k))) d.
Proof.
  induction tokens as [|t ts IH]; intros F d; cbn [fold_left].
  - reflexivity.
  - replace (classList_remove i t (with_kpis (update_nth i F) d))
      with (with_kpis (update_nth i (fun k => remove_token t (F k))) d).
    + apply IH.
    + unfold classList_remove, with_kpis. cbn [kpis chart_section
        activity_section activity_list console frame_queue charts clock_reads].
      now rewrite update_nth_compose.
Qed.

Lemma fold_left_map {A B C} (f : A -> C -> A) (g : B -> C) (l : list B) (a : A) :
  fold_left (fun a b => f a (g b)) l a = fold_left f (map g l) a.
Proof. revert a. induction l as [|b l IH]; intros a; cbn; [reflexivity | apply IH]. Qed.

(** The thirteen [classList.remove] calls of [applyMetrics]. *)
Lemma clear_classes (i : nat) (d : Dom) :
  fold_left
    (fun d n =>
       classList_remove i ("col-" ++ ToString (VNum (of_Z (Z.of_nat n))))%string d)
    (seq 1 12) (classList_remove i "placeholder" d)
  = with_kpis (update_nth i cleared) d.
Proof.
  rewrite (fold_left_map (fun d t => classList_remove i t d)
             (fun n => ("col-" ++ ToString (VNum (of_Z (Z.of_nat n))))%string)).
  change (classList_remove i "placeholder" d)
    with (with_kpis (update_nth i (remove_token "placeholder")) d).
  rewrite fold_classList_remove. unfold with_kpis. f_equal.
  apply update_nth_ext. intros k.
  change (fold_left (fun k t => remove_token t k)
            (map (fun n => ("col-" ++ ToString (VNum (of_Z (Z.of_nat n))))%string)
                 (seq 1 12))
            (remove_token "placeholder" k))
    with (fold_left (fun k t => remove_token t k)
            ("placeholder"%string
             :: map (fun n => ("col-" ++ ToString (VNum (of_Z (Z.of_nat n))))%string)
                    (seq 1 12)) k).
  rewrite layout_tokens. apply remove_tokens.
Qed.

Lemma each_closed (h : Host) (counts : JsVal) (d : Dom) (i : nat) (el : Kpi) :
  nth_error (kpis d) i = Some el ->
  applyMetrics_each h counts d i
  = if reduced_motion h
    then with_kpis (update_nth i (settled h counts)) d
    else requestAnimationFrame
           (Tick i (format_for el) (VNum (of_Z 750))
              (performance_now h (clock_reads d)) zero
              (Number (or (value_for counts el) (VNum zero))))
           (snd (performance_now_read h (with_kpis (update_nth i cleared) d))).
Proof.
  intros Hel. unfold applyMetrics_each. rewrite Hel.
  fold (format_for el) (value_for counts el).
  rewrite ApplyFacts.countUp_options, clear_classes.
  destruct (reduced_motion h); [|reflexivity].
  unfold set_textContent, with_kpis.
  cbn [kpis chart_section activity_section activity_list console frame_queue
       charts clock_reads].
  rewrite update_nth_compose. f_equal.
  now apply (update_nth_at _ _ i (kpis d) el).
Qed.

Lemma apply_from (h : Host) (counts : JsVal) (rest : list Kpi) :
  forall (pre : list Kpi) (d : Dom),
    kpis d = (pre ++ rest)%list ->
    fold_left (applyMetrics_each h counts)
      (seq (List.length pre) (List.length rest)) d
    = if reduced_motion h
      then with_kpis (fun _ => pre ++ map (settled h counts) rest)%list d
      else {| kpis := pre ++ map cleared rest;
              chart_section := chart_section d;
              activity_section := activity_section d;
              activity_list := activity_list d; console := console d;
              frame_queue :=
                frame_queue d
                ++ ticks h counts (List.length pre) (clock_reads d) rest;
              charts := charts d;
              clock_reads := clock_reads d + List.length rest |}.
Proof.
  induction rest as [|el rest IH]; intros pre d Hk.
  - cbn [List.length seq fold_left map ticks].
    rewrite !app_nil_r, Nat.add_0_r. unfold with_kpis. rewrite app_nil_r in Hk.
    rewrite <- Hk. destruct d, (reduced_motion h); reflexivity.
  - cbn [List.length seq fold_left].
    assert (Hel : nth_error (kpis d) (List.length pre) = Some el).
    { rewrite Hk, nth_error_app2, Nat.sub_diag by lia. reflexivity. }
    rewrite (each_closed h counts d _ el Hel).
    replace (S (List.length pre)) with (List.length (pre ++ [el])%list)
      by (rewrite length_app; cbn; lia).
    destruct (reduced_motion h) eqn:Hr.
    + specialize (IH (pre ++ [settled h counts el])%list
                     (with_kpis (update_nth (List.length pre) (settled h counts)) d)).
      rewrite !length_app in *. cbn [List.length] in *.
      rewrite IH.
      * unfold with_kpis. cbn [kpis chart_section activity_section activity_list
          console frame_queue charts clock_reads map].
        now rewrite <- app_assoc.
      * unfold with_kpis. cbn [kpis]. rewrite Hk, update_nth_middle.
        now rewrite <- app_assoc.
    + match goal with |- fold_left _ _ ?d1 = _ => specialize (IH (pre ++ [cleared el])%list d1) end.
      rewrite !length_app in *. cbn [List.length] in *.
      rewrite IH.
      * unfold requestAnimationFrame, performance_now_read, with_kpis.
        cbn [kpis chart_section activity_section activity_list
          console frame_queue charts clock_reads map snd ticks].
        rewrite <- !app_assoc. cbn [app].
        rewrite !Nat.add_1_r. f_equal. lia.
      * unfold requestAnimationFrame, performance_now_read, with_kpis.
        cbn [kpis snd]. rewrite Hk, update_nth_middle.
        now rewrite <- app_assoc.
Qed.

(** What [applyMetrics] makes of a document, for truthy counts. *)
Lemma applyMetrics_closed (h : Host) (counts : JsVal) (d : Dom) :
  ToBoolean counts = true ->
  applyMetrics h counts d
  = if reduced_motion h
    then with_kpis (map (settled h counts)) d
    else {| kpis := map cleared (kpis d);
            chart_section := chart_section d;
            activity_section := activity_section d;
            activity_list := activity_list d; console := console d;
            frame_queue :=
              frame_queue d ++ ticks h counts 0 (clock_reads d) (kpis d);
            charts := charts d;
            clock_reads := clock_reads d + List.length (kpis d) |}.
Proof.
  intros Ht. unfold applyMetrics. rewrite Ht. cbn [negb].
  exact (apply_from h counts (kpis d) [] d eq_refl).
Qed.
End ApplyClosed.
Module QueueFacts.
Import Num Js DomOps Dashboard Obs Effects Drawing.

Lemma renderCharts_spec (data : JsVal) (p : number) (d : Dom) :
  renderCharts data p d
  = if is_null data
    then (Throw (TypeError ("Cannot read properties of " ++ ToString data
                            ++ " (reading 'months')")), d)
    else (Normal tt,
          {| kpis := kpis d; chart_section := chart_section d;
             activity_section := activity_section d;
             activity_list := activity_list d; console := console d;
             frame_queue := frame_queue d;
             charts := charts d ++ three_charts data p;
             clock_reads := clock_reads d |}).
Proof.
  unfold renderCharts, bind, lift, modify, new_Chart, three_charts.
  destruct data; cbn [is_null get own_property]; try reflexivity;
    cbn [kpis chart_section activity_section activity_list console frame_queue
         charts clock_reads]; now rewrite <- !app_assoc.
Qed.

(** What running one callback changes. *)
Lemma run_callback_effect (h : Host) (now : number) (d : Dom) (cb : FrameCallback) :
  let d' := run_callback h now d cb in
  frame_queue d' = frame_queue d ++ (if goes_on now cb then [cb] else []) /\
  charts d' = charts d ++ draws cb /\
  regions d' = regions d /\ clock_reads d' = clock_reads d /\
  List.length (kpis d') = List.length (kpis d).
Proof.
  destruct cb as [el f du st fr to|data p]; cbn [run_callback goes_on draws].
  - cbv zeta. rewrite FrameFacts.tick_queue, FrameFacts.tick_length.
    unfold tick. destruct (ltb _ one);
      unfold requestAnimationFrame, set_textContent, with_kpis, regions;
      cbn [kpis chart_section activity_section activity_list console frame_queue
           charts clock_reads]; rewrite app_nil_r; repeat split.
  - cbv zeta. rewrite renderCharts_spec.
    destruct (is_null data); cbn [snd]; unfold regions;
      cbn [kpis chart_section activity_section activity_list console frame_queue
           charts clock_reads]; rewrite ?app_nil_r; repeat split.
Qed.

Lemma fold_effect (h : Host) (now : number) (q : list FrameCallback) :
  forall acc : Dom,
    let d' := fold_left (run_callback h now) q acc in
    frame_queue d' = frame_queue acc ++ filter (goes_on now) q /\
    charts d' = charts acc ++ flat_map draws q /\
    regions d' = regions acc /\ clock_reads d' = clock_reads acc /\
    List.length (kpis d') = List.length (kpis acc).
Proof.
  induction q as [|cb q IH]; intros acc; cbn [fold_left filter flat_map].
  - cbv zeta. rewrite !app_nil_r. repeat split.
  - destruct (IH (run_callback h now acc cb)) as (Hq & Hc & Hr & Hk & Hl).
    destruct (run_callback_effect h now acc cb) as (Hq1 & Hc1 & Hr1 & Hk1 & Hl1).
    cbv zeta. rewrite Hq, Hc, Hr, Hk, Hl, Hq1, Hc1, Hr1, Hk1, Hl1.
    rewrite <- !app_assoc.
    destruct (goes_on now cb); repeat split.
Qed.

Lemma frame_effect (h : Host) (now : number) (d : Dom) :
  let d' := frame h now d in
  frame_queue d' = filter (goes_on now) (frame_queue d) /\
  charts d' = charts d ++ flat_map draws (frame_queue d) /\
  regions d' = regions d /\ clock_reads d' = clock_reads d /\
  List.length (kpis d') = List.length (kpis d).
Proof.
  unfold frame.
  exact (fold_effect h now (frame_queue d)
           {| kpis := kpis d; chart_section := chart_section d;
              activity_section := activity_section d;
              activity_list := activity_list d; console := console d;
              frame_queue := []; charts := charts d;
              clock_reads := clock_reads d |}).
Qed.
End QueueFacts.
Module FlowFacts.
Import Num Js DomOps Dashboard Obs Effects Flows.

Lemma extends_nil (d : Dom) : extends [] d d.
Proof. unfold extends. now rewrite app_nil_r. Qed.

Lemma extends_trans (a b : list FrameCallback) (d d' d'' : Dom) :
  extends a d d' -> extends b d' d'' -> extends (a ++ b) d d''.
Proof.
  unfold extends. intros (H1 & H2 & H3) (K1 & K2 & K3).
  rewrite K1, K2, K3, H1, H2, H3. now rewrite app_assoc.
Qed.

Lemma regions_inv (d1 d2 : Dom) :
  regions d1 = regions d2 ->
  chart_section d1 = chart_section d2 /\
  activity_section d1 = activity_section d2 /\
  activity_list d1 = activity_list d2 /\ console d1 = console d2.
Proof. unfold regions. intros H. injection H as H1 H2 H3 H4. now repeat split. Qed.

Lemma detail_lift {A} (c : Completion A) : detail_step (lift c).
Proof.
  intros d1 d2 H. exists []. unfold lift. cbn [fst snd].
  repeat split; try assumption; try constructor; now rewrite ?app_nil_r.
Qed.

Lemma detail_ret {A} (a : A) : detail_step (ret a).
Proof. exact (detail_lift (Normal a)). Qed.

Lemma detail_throw {A} (e : JsError) : detail_step (@throw A e).
Proof. exact (detail_lift (Throw e)). Qed.

Lemma detail_bind {A B} (m : M A) (k : A -> M B) :
  detail_step m -> (forall a, detail_step (k a)) -> detail_step (bind m k).
Proof.
  intros Hm Hk d1 d2 H. destruct (Hm d1 d2 H) as (a & Ha & Hf & Hr & E1 & E2).
  unfold bind.
  destruct (m d1) as [[x1|e1] d1'], (m d2) as [[x2|e2] d2']; cbn [fst snd] in *;
    try discriminate Hf.
  - injection Hf as <-.
    destruct (Hk x1 d1' d2' Hr) as (b & Hb & Hf' & Hr' & F1 & F2).
    exists (a ++ b)%list. split; [apply Forall_app; now split|].
    split; [exact Hf'|]. split; [exact Hr'|].
    split; eapply extends_trans; eassumption.
  - exists a. split; [exact Ha|]. split; [congruence|]. split; [exact Hr|].
    split; assumption.
Qed.

Lemma detail_catch (m : M unit) (handler : JsError -> M unit) :
  detail_step m -> (forall e, detail_step (handler e)) ->
  detail_step (catch m handler).
Proof.
  intros Hm Hk d1 d2 H. destruct (Hm d1 d2 H) as (a & Ha & Hf & Hr & E1 & E2).
  unfold catch.
  destruct (m d1) as [[x1|e1] d1'], (m d2) as [[x2|e2] d2']; cbn [fst snd] in *;
    try discriminate Hf.
  - exists a. split; [exact Ha|]. split; [congruence|]. split; [exact Hr|].
    split; assumption.
  - injection Hf as <-.
    destruct (Hk e1 d1' d2' Hr) as (b & Hb & Hf' & Hr' & F1 & F2).
    exists (a ++ b)%list. split; [apply Forall_app; now split|].
    split; [exact Hf'|]. split; [exact Hr'|].
    split; eapply extends_trans; eassumption.
Qed.

Lemma detail_render (data : JsVal) (p : number) :
  detail_step (modify (requestAnimationFrame (RenderCharts data p))).
Proof.
  intros d1 d2 H. exists [RenderCharts data p].
  split; [now repeat constructor|].
  unfold modify, requestAnimationFrame, extends, counters. cbn [fst snd].
  repeat split. exact H.
Qed.

Lemma detail_console (label : string) (e : JsError) :
  detail_step (modify (console_error label e)).
Proof.
  intros d1 d2 H. destruct (regions_inv d1 d2 H) as (H1 & H2 & H3 & H4).
  exists []. split; [constructor|].
  unfold modify, console_error, extends, counters, regions.
  cbn [fst snd kpis chart_section activity_section activity_list console
       frame_queue charts clock_reads].
  rewrite H1, H2, H3, H4, !app_nil_r. repeat split.
Qed.

Lemma detail_set_chart (markup : string) : detail_step (set_chart_section markup).
Proof.
  intros d1 d2 H. destruct (regions_inv d1 d2 H) as (H1 & H2 & H3 & H4).
  exists []. split; [constructor|].
  unfold set_chart_section, extends, counters, regions. rewrite H1.
  destruct (chart_section d2) eqn:E;
    cbn [fst snd kpis chart_section activity_section activity_list console
         frame_queue charts clock_reads];
    rewrite ?H1, ?H2, ?H3, ?H4, ?E, ?app_nil_r; repeat split.
Qed.

Lemma detail_set_activity (markup : string) (l : bool) :
  detail_step (set_activity_section markup l).
Proof.
  intros d1 d2 H. destruct (regions_inv d1 d2 H) as (H1 & H2 & H3 & H4).
  exists []. split; [constructor|].
  unfold set_activity_section, extends, counters, regions. rewrite H2.
  destruct (activity_section d2) eqn:E;
    cbn [fst snd kpis chart_section activity_section activity_list console
         frame_queue charts clock_reads];
    rewrite ?H1, ?H2, ?H3, ?H4, ?E, ?app_nil_r; repeat split.
Qed.

Lemma detail_append (li : Li) : detail_step (activityList_appendChild li).
Proof.
  intros d1 d2 H. destruct (regions_inv d1 d2 H) as (H1 & H2 & H3 & H4).
  exists []. split; [constructor|].
  unfold activityList_appendChild, extends, counters, regions. rewrite H3.
  destruct (activity_list d2) eqn:E;
    cbn [fst snd kpis chart_section activity_section activity_list console
         frame_queue charts clock_reads];
    rewrite ?H1, ?H2, ?H3, ?H4, ?E, ?app_nil_r; repeat split.
Qed.

Lemma detail_append_activities (h : Host) (items : list JsVal) :
  detail_step (append_activities h items).
Proof.
  induction items as [|act rest IH]; cbn [append_activities].
  - apply detail_ret.
  - apply detail_bind; [apply detail_lift|]. intros li.
    apply detail_bind; [apply detail_append|]. intros _. exact IH.
Qed.

Lemma detail_forEach (h : Host) (recent : JsVal) :
  detail_step (forEach_activity h recent).
Proof.
  destruct recent; cbn [forEach_activity]; try apply detail_throw.
  apply detail_append_activities.
Qed.

Lemma detail_loadDetails_render (h : Host) (data : JsVal) :
  detail_step (loadDetails_render h data).
Proof.
  unfold loadDetails_render.
  apply detail_bind; [apply detail_lift|]. intros total_debt.
  apply detail_bind; [apply detail_lift|]. intros total_paid.
  apply detail_bind; [apply detail_set_chart|]. intros _.
  apply detail_bind; [apply detail_render|]. intros _.
  apply detail_bind; [apply detail_lift|]. intros recent.
  destruct (ToBoolean recent && _).
  - apply detail_bind; [apply detail_set_activity|]. intros _.
    apply detail_forEach.
  - apply detail_set_activity.
Qed.

Lemma detail_loadDetails_catch (e : JsError) : detail_step (loadDetails_catch e).
Proof.
  unfold loadDetails_catch.
  apply detail_bind; [apply detail_console|]. intros _.
  apply detail_bind; [apply detail_set_chart|]. intros _.
  apply detail_set_activity.
Qed.

Lemma detail_loadDetails (h : Host) (f : Settled) : detail_step (loadDetails h f).
Proof.
  unfold loadDetails, loadDetails_then.
  apply detail_catch; [|apply detail_loadDetails_catch].
  apply detail_bind; [apply detail_lift|]. intros data.
  apply detail_loadDetails_render.
Qed.
End FlowFacts.
Module OrderFacts.
Import Num Js DomOps Dashboard Obs Effects Drawing Flows Schedule.

Lemma dom_ext (a b : Dom) :
  kpis a = kpis b -> chart_section a = chart_section b ->
  activity_section a = activity_section b ->
  activity_list a = activity_list b -> console a = console b ->
  frame_queue a = frame_queue b -> charts a = charts b ->
  clock_reads a = clock_reads b -> a = b.
Proof. destruct a, b. cbn. intros. now subst. Qed.

Lemma ticks_are_ticks (h : Host) (counts : JsVal) (els : list Kpi) :
  forall i c, Forall (fun cb => is_tick cb = true) (ticks h counts i c els).
Proof.
  induction els as [|el els IH]; intros i c; cbn [ticks]; constructor.
  - reflexivity.
  - apply IH.
Qed.

(** [applyMetrics] leaves the regions, the console and the charts
    alone, and what it does depends on the KPI elements and the clock
    only. *)
Lemma applyMetrics_effect (h : Host) (counts : JsVal) (d : Dom) :
  exists (K : list Kpi) (n : nat) (ts : list FrameCallback),
    Forall (fun cb => is_tick cb = true) ts /\
    (reduced_motion h = true -> ts = [] /\ n = 0) /\
    forall d' : Dom,
      counters d' = counters d ->
      applyMetrics h counts d'
      = {| kpis := K; chart_section := chart_section d';
           activity_section := activity_section d';
           activity_list := activity_list d'; console := console d';
           frame_queue := frame_queue d' ++ ts; charts := charts d';
           clock_reads := clock_reads d' + n |}.
Proof.
  destruct (ToBoolean counts) eqn:Ht.
  - destruct (reduced_motion h) eqn:Hr.
    + exists (map (settled h counts) (kpis d)), 0, [].
      split; [constructor|]. split; [now split|].
      intros d' Hc. unfold counters in Hc. injection Hc as Hk Hc.
      rewrite (ApplyClosed.applyMetrics_closed h counts d' Ht), Hr.
      unfold with_kpis. now rewrite Hk, app_nil_r, Nat.add_0_r.
    + exists (map cleared (kpis d)), (List.length (kpis d)),
        (ticks h counts 0 (clock_reads d) (kpis d)).
      split; [apply ticks_are_ticks|]. split; [discriminate|].
      intros d' Hc. unfold counters in Hc. injection Hc as Hk Hc.
      rewrite (ApplyClosed.applyMetrics_closed h counts d' Ht), Hr.
      now rewrite Hk, Hc.
  - exists (kpis d), 0, []. split; [constructor|]. split; [now split|].
    intros d' Hc. unfold counters in Hc. injection Hc as Hk Hc.
    unfold applyMetrics. rewrite Ht. cbn [negb].
    rewrite app_nil_r, Nat.add_0_r, <- Hk. now destruct d'.
Qed.

(** The two flows on one document, in either order. *)
Lemma either_order (h : Host) (f : Settled) (counts : JsVal) (d : Dom) :
  let metrics_first := loadDetails h f (applyMetrics h counts d) in
  let details_first := applyMetrics h counts (snd (loadDetails h f d)) in
  fst metrics_first = fst (loadDetails h f d) /\
  counters (snd metrics_first) = counters details_first /\
  regions (snd metrics_first) = regions details_first /\
  charts (snd metrics_first) = charts details_first /\
  exists ts rs : list FrameCallback,
    Forall (fun cb => is_tick cb = true) ts /\
    Forall (fun cb => is_render cb = true) rs /\
    (reduced_motion h = true -> ts = []) /\
    frame_queue (snd metrics_first) = frame_queue d ++ ts ++ rs /\
    frame_queue details_first = frame_queue d ++ rs ++ ts.
Proof.
  destruct (applyMetrics_effect h counts d) as (K & n & ts & Hts & Hred & HA).
  pose proof (HA d eq_refl) as HAd.
  assert (Hreg : regions (applyMetrics h counts d) = regions d)
    by (rewrite HAd; reflexivity).
  destruct (FlowFacts.detail_loadDetails h f _ _ Hreg)
    as (rs & Hrs & Hf & Hr & (E1c & E1h & E1q) & (E2c & E2h & E2q)).
  cbv zeta. rewrite (HA (snd (loadDetails h f d)) E2c).
  set (m := loadDetails h f (applyMetrics h counts d)) in *.
  set (l := loadDetails h f d) in *.
  split; [exact Hf|].
  unfold counters in *. injection E1c as E1k E1c. injection E2c as E2k E2c.
  rewrite HAd in E1k, E1c, E1h, E1q.
  cbn [kpis clock_reads charts frame_queue] in *.
  split; [now rewrite E1k, E1c, E2c|].
  split; [exact Hr|].
  split; [now rewrite E1h, E2h|].
  exists ts, rs. split; [exact Hts|]. split; [exact Hrs|].
  split; [intros H; now apply Hred|].
  split; [now rewrite E1q, <- app_assoc | now rewrite E2q, <- app_assoc].
Qed.

(** A tick and a render callback can run in either order. *)
Lemma tick_render_commute (h : Host) (now : number) (t r : FrameCallback) (s : Dom) :
  is_tick t = true -> is_render r = true ->
  run_callback h now (run_callback h now s t) r
  = run_callback h now (run_callback h now s r) t.
Proof.
  destruct t as [el fm du st fr to|]; [|discriminate].
  destruct r as [|data p]; [discriminate|]. intros _ _.
  cbn [run_callback]. rewrite !QueueFacts.renderCharts_spec.
  destruct (is_null data); cbn [snd]; [reflexivity|].
  unfold tick. destruct (ltb _ one);
    unfold requestAnimationFrame, set_textContent, with_kpis;
    cbn [kpis chart_section activity_section activity_list console frame_queue
         charts clock_reads]; reflexivity.
Qed.

Lemma fold_swap_one (h : Host) (now : number) (t : FrameCallback)
      (rs : list FrameCallback) :
  is_tick t = true -> Forall (fun cb => is_render cb = true) rs ->
  forall s,
    fold_left (run_callback h now) rs (run_callback h now s t)
    = run_callback h now (fold_left (run_callback h now) rs s) t.
Proof.
  intros Ht Hrs. induction Hrs as [|r rs Hr _ IH]; intros s; cbn [fold_left].
  - reflexivity.
  - rewrite (tick_render_commute h now t r s Ht Hr). apply IH.
Qed.

Lemma fold_swap (h : Host) (now : number) (ts rs : list FrameCallback) :
  Forall (fun cb => is_tick cb = true) ts ->
  Forall (fun cb => is_render cb = true) rs ->
  forall s,
    fold_left (run_callback h now) (ts ++ rs) s
    = fold_left (run_callback h now) (rs ++ ts) s.
Proof.
  intros Hts Hrs. induction Hts as [|t ts Ht _ IH]; intros s.
  - now rewrite app_nil_r.
  - cbn [app fold_left]. rewrite IH, !fold_left_app. cbn [fold_left].
    now rewrite fold_swap_one.
Qed.

Lemma frame_either_order (h : Host) (f : Settled) (counts : JsVal) (d : Dom)
      (now : number) :
  frame h now (snd (loadDetails h f (applyMetrics h counts d)))
  = frame h now (applyMetrics h counts (snd (loadDetails h f d))).
Proof.
  destruct (either_order h f counts d)
    as (_ & Hc & Hr & Hh & ts & rs & Hts & Hrs & _ & Hq1 & Hq2).
  cbv zeta in *.
  set (a := snd (loadDetails h f (applyMetrics h counts d))) in *.
  set (b := applyMetrics h counts (snd (loadDetails h f d))) in *.
  clearbody a b. unfold counters in Hc. injection Hc as Hk Hc.
  destruct (FlowFacts.regions_inv a b Hr) as (R1 & R2 & R3 & R4).
  unfold frame. rewrite Hq1, Hq2, Hk, Hc, Hh, R1, R2, R3, R4.
  rewrite (fold_left_app _ (frame_queue d) (ts ++ rs)).
  rewrite (fold_left_app _ (frame_queue d) (rs ++ ts)).
  now apply fold_swap.
Qed.
End OrderFacts.
Module DetailCases.
Import Num Js DomOps Dashboard Obs Effects Drawing Flows Schedule.
Local Open Scope string_scope.

(** The second handler of [loadDetails], when it stops before the
    activity region is rebuilt. *)
Lemma render_null (h : Host) (data : JsVal) (d : Dom) :
  is_null data = true ->
  loadDetails_render h data d
  = (Throw (TypeError ("Cannot read properties of " ++ ToString data
                       ++ " (reading 'total_debt')")), d).
Proof. destruct data; try discriminate; reflexivity. Qed.

Lemma render_no_chart (h : Host) (data : JsVal) (d : Dom) :
  is_null data = false -> chart_section d = None ->
  loadDetails_render h data d = (Throw cannot_set, d).
Proof.
  intros Hd Hc. unfold loadDetails_render, bind, lift.
  rewrite !RenderFacts.get_not_null by assumption.
  unfold set_chart_section. now rewrite Hc.
Qed.

Lemma render_no_activity (h : Host) (data : JsVal) (d : Dom) :
  is_null data = false -> chart_section d <> None -> activity_section d = None ->
  loadDetails_render h data d
  = (Throw cannot_set,
     {| kpis := kpis d;
        chart_section :=
          Some (chart_markup (own_property data "total_debt")
                             (own_property data "total_paid"));
        activity_section := None; activity_list := activity_list d;
        console := console d;
        frame_queue :=
          (frame_queue d
           ++ [RenderCharts data
                 (percentage_of (own_property data "total_debt")
                                (own_property data "total_paid"))])%list;
        charts := charts d; clock_reads := clock_reads d |}).
Proof.
  intros Hd Hc Ha. unfold loadDetails_render, bind, lift, modify.
  rewrite !RenderFacts.get_not_null by assumption.
  unfold set_chart_section.
  destruct (chart_section d) as [c|]; [|now elim Hc].
  destruct (ToBoolean _ && _);
    unfold set_activity_section, requestAnimationFrame;
    cbn [activity_section]; now rewrite Ha.
Qed.

(** What the second handler leaves of the queue, the console and the
    parts it does not own. *)
Lemma render_queue (h : Host) (data : JsVal) (d : Dom) :
  let d' := snd (loadDetails_render h data d) in
  frame_queue d'
  = (frame_queue d
     ++ scheduled (Fulfilled {| ok := true; json := Parsed data |}) d)%list /\
  console d' = console d.
Proof.
  cbv zeta. unfold scheduled. cbn [ok json].
  destruct (is_null data) eqn:Hd.
  - rewrite (render_null h data d Hd). cbn [snd].
    destruct (chart_section d); now rewrite app_nil_r.
  - destruct (chart_section d) as [c|] eqn:Hc.
    + destruct (activity_section d) as [a|] eqn:Ha.
      * rewrite (RenderSpec.loadDetails_render_spec h data d Hd)
          by (rewrite ?Hc, ?Ha; discriminate).
        destruct (ToBoolean _ && _); [|split; reflexivity].
        match goal with |- context [snd (forEach_activity _ ?r ?d0)] =>
          pose proof (FailureFacts.forEach_activity_preserves h r d0) as Hs end.
        destruct Hs as (_ & _ & _ & Hlog & Hq & _). rewrite Hq, Hlog.
        split; reflexivity.
      * rewrite (render_no_activity h data d Hd) by (rewrite ?Hc; congruence).
        split; reflexivity.
    + rewrite (render_no_chart h data d Hd Hc). cbn [snd].
      now rewrite app_nil_r.
Qed.

Lemma then_queue (h : Host) (f : Settled) (d : Dom) :
  let d' := snd (loadDetails_then h f d) in
  frame_queue d' = (frame_queue d ++ scheduled f d)%list /\
  console d' = console d.
Proof.
  cbv zeta. unfold loadDetails_then, bind, lift.
  destruct f as [e|[res_ok [data|e]]].
  - cbn [snd scheduled]. now rewrite app_nil_r.
  - unfold loadDetails_response. cbn [ok json].
    destruct res_ok; cbn [negb].
    + apply render_queue.
    + cbn [snd scheduled ok json]. now rewrite app_nil_r.
  - unfold loadDetails_response. cbn [ok json scheduled].
    destruct res_ok; cbn [negb snd]; now rewrite app_nil_r.
Qed.

Lemma catch_console (e : JsError) (d : Dom) :
  console (snd (loadDetails_catch e d))
  = (console d ++ [("Dashboard Error:", e)])%list.
Proof.
  unfold loadDetails_catch, bind, modify, set_chart_section,
    set_activity_section, console_error.
  cbn [chart_section activity_section].
  destruct (chart_section d); [|reflexivity].
  destruct (activity_section d); reflexivity.
Qed.

(** [loadDetails] queues what [scheduled] says and logs the error of its
    chain, if it has one. *)
Lemma loadDetails_queue (h : Host) (f : Settled) (d : Dom) :
  let d' := snd (loadDetails h f d) in
  frame_queue d' = (frame_queue d ++ scheduled f d)%list /\
  console d'
  = (console d
     ++ match fst (loadDetails_then h f d) with
        | Throw e => [("Dashboard Error:", e)]
        | Normal _ => []
        end)%list.
Proof.
  cbv zeta. destruct (then_queue h f d) as [Hq Hl].
  unfold loadDetails, catch.
  destruct (loadDetails_then h f d) as [[[]|e] d1]; cbn [fst snd] in *.
  - now rewrite app_nil_r.
  - destruct (DetailsFacts.loadDetails_catch_queue e d1) as [Hq' _].
    now rewrite Hq', catch_console, Hq, Hl.
Qed.

(** On a page that lacks a region the [catch] handler fails in turn. *)
Lemma catch_missing (e : JsError) (d : Dom) :
  chart_section d = None \/ activity_section d = None ->
  let r := loadDetails_catch e d in
  fst r = Throw cannot_set /\
  activity_section (snd r) = activity_section d /\
  chart_section (snd r)
  = match chart_section d with
    | Some _ => Some (chart_error_markup (message e))
    | None => None
    end.
Proof.
  intros H. unfold loadDetails_catch, bind, modify, set_chart_section,
    set_activity_section, console_error.
  cbn [chart_section activity_section].
  destruct (chart_section d) as [c|] eqn:Hc.
  - destruct H as [H|H]; [discriminate|]. rewrite H. cbn. rewrite ?H.
    now repeat split.
  - cbn. rewrite ?Hc. now repeat split.
Qed.

Lemma then_missing (h : Host) (f : Settled) (d : Dom) :
  chart_section d = None \/ activity_section d = None ->
  let r := loadDetails_then h f d in
  (exists e, fst r = Throw e) /\
  activity_section (snd r) = activity_section d /\
  (chart_section (snd r) = None <-> chart_section d = None).
Proof.
  intros H. cbv zeta.
  destruct (fails_early f) eqn:Hf.
  - destruct (FailureFacts.fails_early_throws h f d Hf) as [e ->].
    cbn [fst snd]. split; [now exists e|]. now split.
  - destruct f as [e|[res_ok [data|e]]]; cbn [fails_early ok json] in Hf;
      [discriminate Hf| |destruct res_ok; discriminate Hf].
    destruct res_ok; [|discriminate Hf]. cbn [negb orb] in Hf.
    unfold loadDetails_then, bind, lift, loadDetails_response. cbn [ok json negb].
    destruct (chart_section d) as [c|] eqn:Hc.
    + destruct H as [H|H]; [discriminate|].
      rewrite (render_no_activity h data d Hf) by (rewrite ?Hc; congruence).
      cbn [fst snd activity_section chart_section].
      split; [now eexists|]. split; [now rewrite H|]. split; discriminate.
    + rewrite (render_no_chart h data d Hf Hc). cbn [fst snd].
      split; [now eexists|]. now split.
Qed.
End DetailCases.
Module FramesFacts.
Import Num Js DomOps Dashboard Obs Effects Drawing Flows Schedule.

Lemma frames_cons (h : Host) (now : number) (nows : list number) (d : Dom) :
  frames h (now :: nows) d = frames h nows (frame h now d).
Proof. reflexivity. Qed.

Lemma frames_queue (h : Host) (nows : list number) :
  forall d : Dom,
    frame_queue (frames h nows d)
    = filter (fun cb => forallb (fun now => goes_on now cb) nows) (frame_queue d).
Proof.
  induction nows as [|now nows IH]; intros d.
  - cbn [frames fold_left forallb].
    induction (frame_queue d) as [|cb q IHq]; cbn; [reflexivity | now rewrite <- IHq].
  - rewrite frames_cons, IH.
    rewrite (proj1 (QueueFacts.frame_effect h now d)).
    rewrite ClassFacts.filter_filter. reflexivity.
Qed.

Lemma no_render_goes_on (now : number) (q : list FrameCallback) :
  filter is_render (filter (goes_on now) q) = [] /\
  flat_map draws (filter (goes_on now) q) = [].
Proof.
  induction q as [|cb q [IH1 IH2]]; [now split|].
  cbn [filter]. destruct cb as [el f du st fr to|data p]; cbn [goes_on].
  - destruct (again du st now); cbn [filter is_render flat_map draws app];
      now split.
  - now split.
Qed.

(** Render callbacks draw at the first frame and never again. *)
Lemma frames_charts (h : Host) (now : number) (nows : list number) (d : Dom) :
  charts (frames h (now :: nows) d)
  = charts d ++ flat_map draws (frame_queue d).
Proof.
  rewrite frames_cons.
  destruct (QueueFacts.frame_effect h now d) as (Hq & Hc & _).
  cbv zeta in *. rewrite <- Hc.
  assert (Hno : flat_map draws (frame_queue (frame h now d)) = [])
    by (rewrite Hq; apply no_render_goes_on).
  revert Hno. generalize (frame h now d). clear.
  induction nows as [|n nows IH]; intros d Hno; [reflexivity|].
  rewrite frames_cons.
  destruct (QueueFacts.frame_effect h n d) as (Hq & Hc & _). cbv zeta in *.
  rewrite IH.
  - now rewrite Hc, Hno, app_nil_r.
  - rewrite Hq. apply no_render_goes_on.
Qed.

Lemma draws_ticks (q : list FrameCallback) :
  filter is_render q = [] -> flat_map draws q = [].
Proof.
  induction q as [|cb q IH]; [reflexivity|].
  destruct cb; cbn [filter is_render flat_map draws app]; [exact IH | discriminate].
Qed.

End FramesFacts.
Module RunFacts.
Import Js DomOps Dashboard Metrics DomFacts MetricsFacts Pending Effects.

Lemma phase_of_set_same (w : World) (i : nat) (p : Phase) :
  i < List.length (calls w) -> phase_of (set_phase i p w) i = Some p.
Proof.
  intros Hi. unfold phase_of, set_phase. cbn [calls].
  destruct (nth_error (calls w) i) as [c|] eqn:Hc.
  - now rewrite (nth_error_update_nth_eq _ _ _ _ Hc).
  - apply nth_error_None in Hc. lia.
Qed.

Lemma first_open_le (w : World) : first_open w <= List.length (calls w).
Proof.
  unfold first_open. destruct (List.length (calls w)) as [|k]; [lia|].
  destruct (phase_of w k) as [[| |]|]; lia.
Qed.

Lemma first_open_awaiting (w : World) (i : nat) (p : Phase) :
  coherent w -> phase_of w i = Some p -> (forall r, p <> Done r) ->
  S i = List.length (calls w) /\ first_open w = i.
Proof.
  intros Hw Hp Hn. pose proof (awaiting_is_latest w i p Hw Hp Hn) as Hi.
  split; [exact Hi|]. unfold first_open. rewrite <- Hi, Hp.
  destruct p; try reflexivity. now elim (Hn result).
Qed.

Lemma first_open_set (w : World) (i : nat) (p : Phase) :
  S i = List.length (calls w) ->
  first_open (set_phase i p w)
  = match p with Done _ => S i | _ => i end.
Proof.
  intros Hi. unfold first_open.
  replace (List.length (calls (set_phase i p w))) with (S i)
    by (unfold set_phase; cbn [calls]; now rewrite length_update_nth).
  rewrite phase_of_set_same by lia. now destruct p.
Qed.

Lemma first_open_with_dom (f : Dom -> Dom) (w : World) :
  first_open (with_dom f w) = first_open w.
Proof. reflexivity. Qed.

Lemma first_open_start (w : World) :
  coherent w -> first_open (fetchMetricsOnce_start w) = List.length (calls w).
Proof.
  intros Hw. destruct (abort_previous_spec w Hw) as (_ & Hc & _).
  cbv zeta in Hc. unfold fetchMetricsOnce_start, first_open, phase_of.
  set (w1 := abort_previous w) in *. clearbody w1.
  unfold send_request, new_controller. cbn [metricsAbort calls].
  rewrite length_app. cbn [List.length]. rewrite Nat.add_1_r.
  rewrite nth_error_app2, Nat.sub_diag by lia. cbn. exact Hc.
Qed.

(** One event: what it applies lies between the first open invocation
    before it and the first open one after it. *)
Lemma step_open (h : Host) (w : World) (ev : Event) :
  coherent w ->
  first_open w <= first_open (fst (step h w ev)) /\
  forall i c, In (i, c) (snd (step h w ev)) ->
              first_open w <= i < first_open (fst (step h w ev)).
Proof.
  intros Hw. pose proof (first_open_le w) as Hle.
  destruct ev as [|i e|i res_ok|i j|now]; cbn [step].
  - cbn [fst snd]. rewrite (first_open_start w Hw). split; [lia|]. intros ? ? [].
  - destruct (phase_of w i) as [[| |]|] eqn:Hp; cbn [fst snd];
      try (split; [lia | intros ? ? []]).
    destruct (first_open_awaiting w i AwaitFetch Hw Hp ltac:(discriminate))
      as [Hi Ho].
    rewrite (first_open_set w i _ Hi). split; [lia | intros ? ? []].
  - destruct (phase_of w i) as [[| |]|] eqn:Hp; cbn [fst snd];
      try (split; [lia | intros ? ? []]).
    destruct (first_open_awaiting w i AwaitFetch Hw Hp ltac:(discriminate))
      as [Hi Ho].
    rewrite (first_open_set w i _ Hi). split; [lia | intros ? ? []].
  - destruct (phase_of w i) as [[|ok0|]|] eqn:Hp; cbn [fst snd];
      try (split; [lia | intros ? ? []]).
    destruct (first_open_awaiting w i (AwaitJson ok0) Hw Hp ltac:(discriminate))
      as [Hi Ho].
    destruct (fetchMetricsOnce_settled _) as [counts|e]; cbn [fst snd];
      rewrite ?first_open_with_dom, (first_open_set w i _ Hi).
    + split; [lia|]. intros k c [H|[]]. injection H as <- <-. lia.
    + split; [lia | intros ? ? []].
  - cbn [fst snd]. rewrite first_open_with_dom. split; [lia | intros ? ? []].
Qed.

Lemma run_cons (h : Host) (w : World) (ev : Event) (rest : list Event) :
  run h w (ev :: rest)
  = (fst (run h (fst (step h w ev)) rest),
     snd (step h w ev) ++ snd (run h (fst (step h w ev)) rest)).
Proof.
  cbn [run]. destruct (step h w ev) as [w1 a1].
  cbn [fst snd]. now destruct (run h w1 rest).
Qed.

Lemma run_open (h : Host) (evs : list Event) :
  forall w : World,
    coherent w ->
    forall i c, In (i, c) (snd (run h w evs)) -> first_open w <= i.
Proof.
  induction evs as [|ev rest IH]; intros w Hw i c Hin.
  - destruct Hin.
  - rewrite run_cons in Hin. cbn [snd] in Hin. apply in_app_or in Hin.
    destruct (step_open h w ev Hw) as [Hmono Happ].
    destruct Hin as [Hin|Hin].
    + apply (Happ i c Hin).
    + pose proof (IH _ (coherent_step h w ev Hw) i c Hin). lia.
Qed.

Lemma step_applied_one (h : Host) (w : World) (ev : Event) :
  snd (step h w ev) = [] \/ exists i c, snd (step h w ev) = [(i, c)].
Proof.
  destruct ev as [|i e|i res_ok|i j|now]; cbn [step]; try (now left).
  - destruct (phase_of w i) as [[| |]|]; now left.
  - destruct (phase_of w i) as [[| |]|]; now left.
  - destruct (phase_of w i) as [[|ok0|]|]; try (now left).
    destruct (fetchMetricsOnce_settled _) as [counts|e]; [|now left].
    right. now exists i, counts.
Qed.

(** Results are applied in the order of the calls, each call at most
    once. *)
Lemma run_sorted (h : Host) (evs : list Event) :
  forall w : World,
    coherent w -> StronglySorted lt (map fst (snd (run h w evs))).
Proof.
  induction evs as [|ev rest IH]; intros w Hw.
  - constructor.
  - rewrite run_cons. cbn [snd].
    pose proof (IH _ (coherent_step h w ev Hw)) as Hrest.
    destruct (step_applied_one h w ev) as [->|(i & c & Hone)]; [exact Hrest|].
    rewrite Hone. cbn [app map fst]. constructor; [exact Hrest|].
    apply Forall_forall. intros k Hk. apply in_map_iff in Hk.
    destruct Hk as ([k' c'] & <- & Hin). cbn [fst].
    pose proof (run_open h rest _ (coherent_step h w ev Hw) k' c' Hin).
    destruct (step_open h w ev Hw) as [_ Happ].
    specialize (Happ i c). rewrite Hone in Happ.
    specialize (Happ (or_introl eq_refl)). lia.
Qed.

Lemma run_requests (h : Host) (evs : list Event) :
  forall w : World,
    coherent w ->
    List.length (requests (fst (run h w evs)))
    = List.length (requests w) + List.length (filter is_call evs).
Proof.
  induction evs as [|ev rest IH]; intros w Hw.
  - cbn. lia.
  - rewrite run_cons. cbn [fst]. rewrite (IH _ (coherent_step h w ev Hw)).
    destruct ev as [|i e|i res_ok|i j|now]; cbn [step filter is_call List.length].
    + pose proof (requests_in_step _ (coherent_start w Hw)) as H1.
      pose proof (requests_in_step w Hw) as H2.
      cbn [fst]. rewrite H1, H2.
      pose proof (first_open_start w Hw) as Ho.
      unfold fetchMetricsOnce_start in *.
      destruct (abort_previous_spec w Hw) as (_ & Hc & _). cbv zeta in Hc.
      unfold send_request, new_controller. cbn [metricsAbort calls].
      rewrite length_app. cbn [List.length]. lia.
    + destruct (phase_of w i) as [[| |]|]; cbn [fst]; reflexivity.
    + destruct (phase_of w i) as [[| |]|]; cbn [fst]; reflexivity.
    + destruct (phase_of w i) as [[|ok0|]|]; cbn [fst]; try reflexivity.
      destruct (fetchMetricsOnce_settled _); reflexivity.
    + reflexivity.
Qed.

(** What an event of the metrics flow does to the document. *)
Lemma step_dom (h : Host) (w : World) (ev : Event) :
  dom (fst (step h w ev))
  = match ev with
    | Frame now => frame h now (dom w)
    | _ => fold_left (fun d a => applyMetrics h (snd a) d) (snd (step h w ev))
             (dom w)
    end.
Proof.
  destruct ev as [|i e|i res_ok|i j|now]; cbn [step].
  - unfold fetchMetricsOnce_start, send_request, new_controller, abort_previous.
    cbn [metricsAbort dom fst snd fold_left].
    destruct (metricsAbort w); reflexivity.
  - destruct (phase_of w i) as [[| |]|]; reflexivity.
  - destruct (phase_of w i) as [[| |]|]; reflexivity.
  - destruct (phase_of w i) as [[|ok0|]|]; try reflexivity.
    destruct (fetchMetricsOnce_settled _); reflexivity.
  - reflexivity.
Qed.

Lemma applyMetrics_regions (h : Host) (counts : JsVal) (d : Dom) :
  regions (applyMetrics h counts d) = regions d /\
  charts (applyMetrics h counts d) = charts d.
Proof.
  destruct (OrderFacts.applyMetrics_effect h counts d) as (K & n & ts & _ & _ & HA).
  now rewrite (HA d eq_refl).
Qed.
End RunFacts.

Module RunBounds.
Import Js DomOps Dashboard Metrics DomFacts MetricsFacts Pending Effects RunFacts.

Lemma run_calls (h : Host) (evs : list Event) (w : World) :
  coherent w ->
  List.length (calls (fst (run h w evs)))
  = List.length (calls w) + List.length (filter is_call evs).
Proof.
  intros Hw.
  rewrite <- (requests_in_step _ (coherent_run h evs w Hw)).
  rewrite <- (requests_in_step w Hw). now apply run_requests.
Qed.

Lemma run_bound (h : Host) (evs : list Event) :
  forall w : World,
    coherent w ->
    forall i c, In (i, c) (snd (run h w evs)) ->
                i < List.length (calls (fst (run h w evs))).
Proof.
  induction evs as [|ev rest IH]; intros w Hw i c Hin.
  - destruct Hin.
  - rewrite run_cons in *. cbn [fst snd] in *. apply in_app_or in Hin.
    pose proof (coherent_step h w ev Hw) as Hw1.
    destruct Hin as [Hin|Hin].
    + destruct (step_open h w ev Hw) as [_ Happ].
      specialize (Happ i c Hin).
      pose proof (first_open_le (fst (step h w ev))).
      rewrite (run_calls h rest _ Hw1). lia.
    + now apply (IH _ Hw1 i c).
Qed.

Lemma run_dom (h : Host) (evs : list Event) :
  forall w : World,
    Forall (fun ev => is_frame ev = false) evs ->
    dom (fst (run h w evs))
    = fold_left (fun d a => applyMetrics h (snd a) d) (snd (run h w evs)) (dom w).
Proof.
  induction evs as [|ev rest IH]; intros w Hno.
  - reflexivity.
  - inversion Hno as [|? ? Hev Hrest]; subst.
    rewrite run_cons. cbn [fst snd]. rewrite fold_left_app, (IH _ Hrest).
    f_equal. rewrite step_dom. destruct ev; try reflexivity. discriminate Hev.
Qed.

Lemma run_regions (h : Host) (evs : list Event) :
  forall w : World,
    regions (dom (fst (run h w evs))) = regions (dom w).
Proof.
  induction evs as [|ev rest IH]; intros w.
  - reflexivity.
  - rewrite run_cons. cbn [fst]. rewrite IH, step_dom.
    assert (Hfold : forall (l : list (nat * JsVal)) d,
               regions (fold_left (fun d a => applyMetrics h (snd a) d) l d)
               = regions d).
    { induction l as [|a l IHl]; intros d; cbn [fold_left]; [reflexivity|].
      rewrite IHl. apply applyMetrics_regions. }
    destruct ev; try apply Hfold.
    apply (QueueFacts.frame_effect h now (dom w)).
Qed.
End RunBounds.
Module IntegerFacts.
Import Num Text Intl NumFacts RoundFacts.
Local Open Scope Z_scope.

Lemma round_scaled_integer (m p : positive) (j : Z) (f : nat) :
  0 <= j -> Zpos m = Zpos p * 2 ^ j ->
  round_scaled m (- j) f = Zpos p * 10 ^ Z.of_nat f.
Proof.
  intros Hj Hm. unfold round_scaled.
  assert (Ht : 0 < 10 ^ Z.of_nat f) by (apply Z.pow_pos_nonneg; lia).
  set (t := 10 ^ Z.of_nat f) in *. rewrite Hm.
  destruct (Z.leb_spec 0 (- j)) as [H0|H0].
  - assert (j = 0) by lia. subst j. cbn [Z.opp]. rewrite !Z.pow_0_r. lia.
  - rewrite Z.opp_involutive.
    replace (2 * (Zpos p * 2 ^ j * t) + 2 ^ j)
      with (2 ^ j + Zpos p * t * 2 ^ (j + 1))
      by (rewrite Z.pow_add_r by lia; rewrite Z.pow_1_r; lia).
    assert (0 < 2 ^ j) by (apply Z.pow_pos_nonneg; lia).
    assert (0 < 2 ^ (j + 1)) by (apply Z.pow_pos_nonneg; lia).
    rewrite Z.div_add by lia.
    rewrite Z.div_small; [lia|].
    rewrite Z.pow_add_r, Z.pow_1_r by lia. lia.
Qed.

Lemma raw_fixed_whole (n : Z) (mn mx : nat) :
  0 <= n ->
  raw_fixed (n * 10 ^ Z.of_nat mx) mn mx
  = (dec n, strip_zeros (mx - mn) (frac_digits mx 0)).
Proof.
  intros Hn. unfold raw_fixed.
  assert (Ht : 0 < 10 ^ Z.of_nat mx) by (apply Z.pow_pos_nonneg; lia).
  rewrite Z.div_mul, Z.mod_mul by lia. reflexivity.
Qed.

(** An integer of at most 53 bits, as [of_Z] writes it, is a Number
    whose nearest integer is the integer itself. *)
Lemma of_Z_double (s : bool) (p : positive) :
  Zpos p < 2 ^ 53 ->
  exists m j, 0 <= j /\ Zpos m = Zpos p * 2 ^ j /\
    binary_round prec emax s p 0 = S754_finite s m (- j) /\
    is_double (S754_finite s m (- j)) = true /\
    nearest_integer (S754_finite s m (- j)) = cond_Zopp s (Zpos p).
Proof.
  intros Hp. pose proof (digits2_le_53 p Hp) as Hd.
  pose proof (digits2_ge_1 p) as Hd1.
  assert (Hf : fexp prec emax (Zpos (digits2_pos p) + 0)
               = Zpos (digits2_pos p) - 53)
    by (unfold fexp, emin, prec, emax; lia).
  assert (Hnear : forall m j, 0 <= j -> Zpos m = Zpos p * 2 ^ j ->
            nearest_integer (S754_finite s m (- j)) = cond_Zopp s (Zpos p)).
  { intros m j Hj Hm. cbn [nearest_integer].
    destruct (Z.leb_spec 0 (- j)) as [H0|H0].
    - assert (j = 0) by lia. subst j. cbn [Z.opp] in *.
      rewrite Z.pow_0_r in *. destruct s; cbn [cond_Zopp]; lia.
    - rewrite Z.opp_involutive.
      assert (0 < 2 ^ j) by (apply Z.pow_pos_nonneg; lia).
      assert (H2 : 2 ^ (j + 1) = 2 * 2 ^ j)
        by (rewrite Z.pow_add_r, Z.pow_1_r by lia; lia).
      replace (2 * cond_Zopp s (Zpos m) + 2 ^ j)
        with (2 ^ j + cond_Zopp s (Zpos p) * 2 ^ (j + 1))
        by (rewrite H2, Hm; destruct s; cbn [cond_Zopp]; lia).
      rewrite Z.div_add by lia. rewrite Z.div_small; lia. }
  unfold binary_round. rewrite Hf. unfold shl_align.
  destruct (Zpos (digits2_pos p) - 53 - 0) as [|k|k] eqn:Hk.
  - assert (Hv : is_double (S754_finite s p 0) = true).
    { unfold is_double, valid_binary, bounded, canonical_mantissa.
      rewrite Hf. apply andb_true_intro.
      split; [apply Z.eqb_eq; lia | reflexivity]. }
    exists p, 0. split; [lia|]. split; [cbn; lia|]. cbn [Z.opp].
    split; [now apply round_canonical|]. split; [exact Hv|].
    apply (Hnear p 0); [lia | cbn; lia].
  - lia.
  - assert (Hv : is_double (S754_finite s (Pos.iter xO p k) (- Zpos k)) = true).
    { unfold is_double, valid_binary, bounded, canonical_mantissa.
      rewrite iter_xO_digits. apply andb_true_intro. split.
      - apply Z.eqb_eq. unfold fexp, emin, prec, emax. lia.
      - apply Z.leb_le. unfold emax, prec. lia. }
    exists (Pos.iter xO p k), (Zpos k). split; [lia|].
    split; [apply iter_xO_value|].
    replace (Zpos (digits2_pos p) - 53) with (- Zpos k) by lia.
    split; [now apply round_canonical|]. split; [exact Hv|].
    apply Hnear; [lia | apply iter_xO_value].
Qed.

(** How an integer of at most 53 bits prints under given digit
    options. *)
Lemma to_parts_integer (s : bool) (p : positive) (o : DigitOptions) :
  Zpos p < 2 ^ 53 ->
  to_parts (binary_round prec emax s p 0) o
  = PDecimal s (dec (Zpos p))
      (strip_zeros (snd (resolve o) - fst (resolve o))
                   (frac_digits (snd (resolve o)) 0)).
Proof.
  intros Hp. destruct (of_Z_double s p Hp) as (m & j & Hj & Hm & -> & _).
  unfold to_parts. destruct (resolve o) as [mn mx]. cbn [fst snd].
  rewrite (round_scaled_integer m p j mx Hj Hm).
  now rewrite raw_fixed_whole by lia.
Qed.
End IntegerFacts.

Module EndpointFacts.
Import Num NumFacts.
Local Open Scope Z_scope.

(** [x - x] is +0 and [x / x] is 1, for a finite [x] other than zero. *)
Lemma sub_self (x : number) : is_finite x = true -> sub x x = zero.
Proof.
  destruct x as [[|]|[|]| |s m e]; try discriminate; intros _; try reflexivity.
  unfold sub, SFsub. now rewrite Z.sub_diag.
Qed.

Lemma div_eucl_exact (a b : Z) : 0 < b -> Z.div_eucl (b * a) b = (a, 0).
Proof.
  intros Hb. pose proof (Z.div_mul a b ltac:(lia)) as Hq.
  pose proof (Z.mod_mul a b ltac:(lia)) as Hr.
  rewrite Z.mul_comm in Hq, Hr. unfold Z.div, Z.modulo in Hq, Hr.
  destruct (Z.div_eucl (b * a) b) as [q r]. cbn in Hq, Hr. now subst.
Qed.

Lemma div_self (s : bool) (m : positive) (e : Z) :
  div (S754_finite s m e) (S754_finite s m e) = one.
Proof.
  unfold div, SFdiv, SFdiv_core_binary.
  replace (Zdigits2 (Z.pos m) + e - (Zdigits2 (Z.pos m) + e)) with 0 by lia.
  replace (e - e) with 0 by lia.
  change (Z.min (fexp prec emax 0) 0) with (-53).
  change (0 - -53) with 53.
  rewrite Z.shiftl_mul_pow2 by lia.
  rewrite (div_eucl_exact (2 ^ 53) (Z.pos m)) by lia.
  replace (new_location (Z.pos m) 0) with loc_Exact
    by (unfold new_location; now destruct (Z.even (Z.pos m))).
  destruct s; vm_compute; reflexivity.
Qed.
End EndpointFacts.
Module EndFacts.
Import Num Js DomOps Dashboard Obs Effects Hosts.

Lemma formatValue_reduced (h : Host) (value format : JsVal) :
  formatValue (reduced h) value format = formatValue h value format.
Proof. reflexivity. Qed.

(** The text shown for the number aimed at is the text shown for the
    value itself. *)
Lemma formatValue_target (h : Host) (value format : JsVal) :
  is_nan (target value) = false -> target value <> neg_zero ->
  formatValue h (VNum (target value)) format = formatValue h value format.
Proof.
  intros Hn Hz. unfold formatValue. fold (target value).
  replace (Number (or (VNum (target value)) (VNum zero))) with (target value);
    [reflexivity|].
  unfold or. cbn [ToBoolean].
  destruct (target value) as [[|]|s| |s m e]; try reflexivity.
  - now elim Hz.
  - discriminate Hn.
Qed.

Lemma frames_regions (h : Host) (nows : list number) :
  forall d : Dom,
    regions (frames h nows d) = regions d /\
    clock_reads (frames h nows d) = clock_reads d /\
    List.length (kpis (frames h nows d)) = List.length (kpis d).
Proof.
  induction nows as [|now nows IH]; intros d; [now repeat split|].
  rewrite FramesFacts.frames_cons.
  destruct (IH (frame h now d)) as (Hr & Hc & Hl).
  destruct (QueueFacts.frame_effect h now d) as (_ & _ & Hr' & Hc' & Hl').
  cbv zeta in *. rewrite Hr, Hc, Hl. now repeat split.
Qed.

Lemma texts_ext (d d' : Dom) (f : Kpi -> string) :
  List.length (kpis d') = List.length (kpis d) ->
  (forall i el, nth_error (kpis d) i = Some el -> text_of d' i = Some (f el)) ->
  texts d' = map f (kpis d).
Proof.
  unfold texts, text_of. intros Hlen H.
  apply nth_error_ext. intros i. rewrite !nth_error_map.
  destruct (nth_error (kpis d) i) as [el|] eqn:Hel.
  - now apply H.
  - apply nth_error_None in Hel.
    replace (nth_error (kpis d') i) with (@None Kpi); [reflexivity|].
    symmetry. apply nth_error_None. lia.
Qed.
End EndFacts.

Module SettleFacts.
Import Num Js DomOps Dashboard Obs Effects Hosts EndFacts.

(** Frames run on a document that holds the KPI elements and the ticks
    [applyMetrics] left: every element ends on the text [formatValue]
    shows for its value, with no tick pending. *)
Lemma settle_texts (h : Host) (counts : JsVal) (d0 D : Dom) (nows : list number) :
  ToBoolean counts = true ->
  (forall i, ticks_for i d0 = []) ->
  (forall el, In el (kpis d0) -> regular (value_for counts el)) ->
  Math_pow3 h zero = zero ->
  (forall k, is_finite (performance_now h k) = true) ->
  Forall (fun now => is_finite now = true) nows ->
  (reduced_motion h = false ->
   forall i, i < List.length (kpis d0) ->
     Exists (fun now =>
               ltb (fraction (performance_now h (clock_reads d0 + i)) now) one
               = false) nows) ->
  kpis D = kpis (applyMetrics h counts d0) ->
  (forall i, ticks_for i D = ticks_for i (applyMetrics h counts d0)) ->
  texts (frames h nows D)
  = map (fun el => formatValue h (value_for counts el) (format_for el))
        (kpis d0) /\
  forall i, i < List.length (kpis d0) -> ticks_for i (frames h nows D) = [].
Proof.
  intros Ht Hidle Hreg Hpow Hclock Hfin Hreach HkD HqD.
  assert (Happly : applyMetrics h counts d0
                   = fold_left (applyMetrics_each h counts)
                       (seq 0 (List.length (kpis d0))) d0)
    by (unfold applyMetrics; now rewrite Ht).
  assert (Hlen : List.length (kpis D) = List.length (kpis d0)).
  { rewrite HkD, (ApplyClosed.applyMetrics_closed h counts d0 Ht).
    destruct (reduced_motion h); unfold with_kpis; cbn [kpis];
      apply length_map. }
  assert (Heach : forall i el,
             nth_error (kpis d0) i = Some el ->
             text_of (frames h nows D) i
             = Some (formatValue h (value_for counts el) (format_for el)) /\
             ticks_for i (frames h nows D) = []).
  { intros i el Hel.
    assert (Hlt : i < List.length (kpis d0))
      by (apply nth_error_Some; congruence).
    destruct (Hreg el (nth_error_In _ _ Hel)) as (Hd & Hn & Hz).
    destruct (reduced_motion h) eqn:Hr.
    - destruct (ApplyAll.reduced_upto h counts d0 (List.length (kpis d0)) Hr
                  (Nat.le_refl _)) as (_ & Hq & Htext).
      rewrite <- Happly in Hq, Htext.
      assert (HiD : ticks_for i D = []).
      { rewrite HqD. unfold ticks_for. rewrite Hq. apply Hidle. }
      destruct (FrameFacts.frames_idle h i nows D HiD) as [Hsame Hnone].
      split; [|exact Hnone]. rewrite Hsame.
      unfold text_of. rewrite HkD. fold (text_of (applyMetrics h counts d0) i).
      rewrite (Htext i el Hel).
      now replace (i <? List.length (kpis d0))%nat with true
        by (symmetry; now apply Nat.ltb_lt).
    - destruct (ApplyAll.animated_upto h counts d0 (List.length (kpis d0)) Hr
                  (Nat.le_refl _)) as (_ & _ & _ & Hq).
      specialize (Hq i el Hel). rewrite <- Happly in Hq.
      rewrite Hidle in Hq. cbn [app] in Hq.
      replace (i <? List.length (kpis d0))%nat with true in Hq
        by (symmetry; now apply Nat.ltb_lt).
      unfold first_tick in Hq. fold (target (value_for counts el)) in Hq.
      rewrite <- HqD in Hq.
      destruct (AnimationFacts.frames_complete h i (format_for el)
                  (performance_now h (clock_reads d0 + i))
                  (target (value_for counts el)) nows
                  Hpow (Hclock _) Hd Hz Hfin (Hreach eq_refl i Hlt) D Hq)
        as [Htext Hnone].
      + now rewrite Hlen.
      + split; [|exact Hnone].
        now rewrite Htext, (formatValue_target h _ _ Hn Hz). }
  split.
  - apply (texts_ext d0 (frames h nows D)).
    + now rewrite (proj2 (proj2 (frames_regions h nows D))).
    + intros i el Hel. apply (Heach i el Hel).
  - intros i Hi. destruct (nth_error (kpis d0) i) as [el|] eqn:Hel.
    + apply (Heach i el Hel).
    + apply nth_error_None in Hel. lia.
Qed.

(** What reduced motion shows at once. *)
Lemma reduced_texts (h : Host) (counts : JsVal) (d : Dom) :
  ToBoolean counts = true ->
  texts (applyMetrics (reduced h) counts d)
  = map (fun el => formatValue h (value_for counts el) (format_for el)) (kpis d).
Proof.
  intros Ht. rewrite (ApplyClosed.applyMetrics_closed (reduced h) counts d Ht).
  cbn [reduced_motion reduced]. unfold texts, with_kpis. cbn [kpis].
  rewrite map_map. reflexivity.
Qed.
End SettleFacts.

Module SuccessFacts.
Import Num Js DomOps Dashboard Obs Effects Drawing.

(** A successful details request whose activities are records: the
    document [loadDetails] leaves. *)
Lemma loadDetails_success (h : Host) (data : JsVal) (items : list JsVal) (d : Dom) :
  is_null data = false ->
  chart_section d <> None -> activity_section d <> None ->
  own_property data "recent_activities" = VArr items ->
  items <> [] -> (Z.of_nat (List.length items) < 2 ^ 32)%Z ->
  Forall (fun act => is_null act = false) items ->
  loadDetails h (Fulfilled {| ok := true; json := Parsed data |}) d
  = (Normal tt,
     {| kpis := kpis d;
        chart_section :=
          Some (chart_markup (own_property data "total_debt")
                             (own_property data "total_paid"));
        activity_section := Some activity_markup;
        activity_list := Some (map (item_of h) items);
        console := console d;
        frame_queue :=
          frame_queue d
          ++ [RenderCharts data
                (percentage_of (own_property data "total_debt")
                               (own_property data "total_paid"))];
        charts := charts d; clock_reads := clock_reads d |}).
Proof.
  intros Hd Hc Ha Hr Hne Hlen Hall.
  unfold loadDetails, loadDetails_then, catch, bind, lift, loadDetails_response.
  cbn [ok json negb].
  rewrite (RenderSpec.loadDetails_render_spec h data d Hd Hc Ha). cbv zeta.
  rewrite Hr. cbn [ToBoolean andb].
  destruct (RenderFacts.length_gt_zero items Hne Hlen) as [_ Hgt].
  assert (Hg : gt_number (own_property (VArr items) "length") zero = true)
    by exact Hgt.
  rewrite Hg. cbn [forEach_activity].
  match goal with |- context [append_activities h items ?d0] =>
    destruct (RenderFacts.append_activities_spec h items Hall d0 [] eq_refl)
      as (d' & Hrun & Hl & Hs) end.
  rewrite Hrun. f_equal.
  destruct Hs as (Hk & Hch & Hact & Hlog & Hq & Hcharts & Hclock).
  cbn [kpis chart_section activity_section console frame_queue charts
       clock_reads] in *.
  now apply OrderFacts.dom_ext.
Qed.
End SuccessFacts.
Module TickLists.
Import Dashboard Obs Effects Schedule.

Lemma ticks_no_render (l : list FrameCallback) :
  Forall (fun cb => is_tick cb = true) l -> filter is_render l = [].
Proof.
  induction 1 as [|cb l Hcb _ IH]; [reflexivity|].
  cbn [filter]. unfold is_tick in Hcb. apply negb_true_iff in Hcb.
  now rewrite Hcb.
Qed.

(** Every callback of [ticks] belongs to one of the elements. *)
Lemma ticks_index (h : Host) (counts : JsVal) (els : list Kpi) :
  forall (s c : nat) (cb : FrameCallback),
    In cb (ticks h counts s c els) ->
    exists j, s <= j < s + List.length els /\ is_tick_for j cb = true.
Proof.
  induction els as [|el els IH]; intros s c cb H; [destruct H|].
  cbn [ticks] in H. destruct H as [<-|H].
  - exists s. cbn [List.length is_tick_for]. split; [lia|]. apply Nat.eqb_refl.
  - destruct (IH _ _ _ H) as (j & Hj & Hjt). exists j.
    cbn [List.length]. split; [lia | exact Hjt].
Qed.
End TickLists.
Module BadRecord.
Import Num Js DomOps Dashboard Obs Effects.


End BadRecord.

Module ShiftFacts.
Import Num NumFacts Shift.
Local Open Scope Z_scope.

Lemma shifted_1 (mrs : shr_record) : shifted 1 mrs (shr_1 mrs).
Proof.
  destruct mrs as [m r s]. unfold shifted, no_remainder.
  cbn [shr_m shr_r shr_s].
  intros Hm. change (2 ^ 1) with 2.
  destruct m as [|[p|p|]|p]; cbn [shr_1 shr_m shr_r shr_s]; try lia.
  - split; [lia|]. split; [reflexivity|]. intros [-> ->] _. now split.
  - split; [lia|]. split.
    + rewrite Pos2Z.inj_xI. apply Z.div_unique with (r := 1); lia.
    + intros _ H. rewrite Pos2Z.inj_xI in H.
      replace (2 * Z.pos p + 1) with (1 + Z.pos p * 2) in H by lia.
      rewrite Z.mod_add in H by lia. discriminate H.
  - split; [lia|]. split.
    + rewrite Pos2Z.inj_xO. apply Z.div_unique with (r := 0); lia.
    + intros [-> ->] _. now split.
  - split; [lia|]. split; [reflexivity|]. intros _ H. discriminate H.
Qed.

Lemma shifted_trans (a b : Z) (x y z : shr_record) :
  0 <= a -> 0 <= b ->
  shifted a x y -> shifted b y z -> shifted (a + b) x z.
Proof.
  intros Ha Hb Hxy Hyz Hx.
  destruct (Hxy Hx) as (Hy & Hmy & Hey).
  destruct (Hyz Hy) as (Hz & Hmz & Hez).
  assert (H2a : 0 < 2 ^ a) by (apply Z.pow_pos_nonneg; lia).
  assert (H2b : 0 < 2 ^ b) by (apply Z.pow_pos_nonneg; lia).
  split; [exact Hz|]. split.
  - rewrite Hmz, Hmy, Z.pow_add_r, Z.div_div by lia. reflexivity.
  - intros Hex Hmod. rewrite Z.pow_add_r in Hmod by lia.
    assert (Hdiv : shr_m x = 2 ^ a * 2 ^ b * (shr_m x / (2 ^ a * 2 ^ b))).
    { pose proof (Z.div_mod (shr_m x) (2 ^ a * 2 ^ b) ltac:(lia)). lia. }
    apply Hez.
    + apply Hey; [exact Hex|].
      rewrite Hdiv, <- Z.mul_assoc, Z.mul_comm. apply Z.mod_mul. lia.
    + rewrite Hmy, Hdiv.
      replace (2 ^ a * 2 ^ b * (shr_m x / (2 ^ a * 2 ^ b)))
        with (2 ^ b * (shr_m x / (2 ^ a * 2 ^ b)) * 2 ^ a) by lia.
      rewrite Z.div_mul by lia. rewrite Z.mul_comm. apply Z.mod_mul. lia.
Qed.

Lemma shifted_iter (p : positive) :
  forall mrs, shifted (Zpos p) mrs (iter_pos shr_1 p mrs).
Proof.
  induction p as [p IH|p IH|]; intros mrs; cbn [iter_pos].
  - replace (Zpos p~1) with (1 + (Zpos p + Zpos p)) by lia.
    eapply shifted_trans; [lia | lia | apply shifted_1 |].
    eapply shifted_trans; [lia | lia | apply IH | apply IH].
  - replace (Zpos p~0) with (Zpos p + Zpos p) by lia.
    eapply shifted_trans; [lia | lia | apply IH | apply IH].
  - apply shifted_1.
Qed.

(** [shr] by any amount, negative ones counting as none. *)
Lemma shifted_shr (mrs : shr_record) (e n : Z) :
  shifted (Z.max 0 n) mrs (fst (shr mrs e n)) /\
  snd (shr mrs e n) = e + Z.max 0 n.
Proof.
  assert (Hnone : shifted 0 mrs mrs).
  { intros H. split; [exact H|]. split; [now rewrite Z.pow_0_r, Z.div_1_r|].
    intros Hex _. exact Hex. }
  unfold shr. destruct n as [|p|p]; cbn [fst snd].
  - split; [exact Hnone | lia].
  - split; [|lia]. replace (Z.max 0 (Zpos p)) with (Zpos p) by lia.
    apply shifted_iter.
  - split; [|lia]. replace (Z.max 0 (Zneg p)) with 0 by lia. exact Hnone.
Qed.

Lemma round_nearest_even_bounds (m : Z) (l : location) :
  m <= round_nearest_even m l <= m + 1 /\
  (l = loc_Exact -> round_nearest_even m l = m).
Proof.
  destruct l as [|[ | | ]]; cbn [round_nearest_even]; try (split; [lia|]).
  - reflexivity.
  - destruct (Z.even m); split; try lia; discriminate.
  - discriminate.
  - discriminate.
Qed.

Lemma loc_exact (mrs : shr_record) :
  no_remainder mrs -> loc_of_shr_record mrs = loc_Exact.
Proof. destruct mrs as [m r s]. intros [H1 H2]. cbn in *. now subst. Qed.

Lemma Zdigits2_le (a b : Z) : 0 <= a <= b -> Zdigits2 a <= Zdigits2 b.
Proof.
  intros [Ha Hab]. destruct a as [|p|p]; [|
    |lia].
  - destruct b as [|q|q]; cbn; lia.
  - destruct b as [|q|q]; try lia. cbn [Zdigits2].
    pose proof (digits2_bounds p) as [Hp _].
    pose proof (digits2_bounds q) as [_ Hq].
    destruct (Z_le_gt_dec (Zpos (digits2_pos p)) (Zpos (digits2_pos q)))
      as [|Hgt]; [assumption|]. exfalso.
    assert (2 ^ Zpos (digits2_pos q) <= 2 ^ (Zpos (digits2_pos p) - 1))
      by (apply Z.pow_le_mono_r; lia).
    lia.
Qed.

Lemma fexp_le (a b : Z) : a <= b -> fexp prec emax a <= fexp prec emax b.
Proof. unfold fexp. lia. Qed.
End ShiftFacts.

Module RoundBound.
Import Num NumFacts Shift ShiftFacts.
Local Open Scope Z_scope.

Lemma record_of_loc (m : Z) (l : location) :
  shr_m (shr_record_of_loc m l) = m /\
  (l = loc_Exact -> no_remainder (shr_record_of_loc m l)).
Proof.
  destruct l as [|[ | | ]]; cbn; split; try reflexivity; try discriminate.
  intros _. now split.
Qed.

(** Rounding does not step over a bound that is a multiple of the unit
    in the last place: if the datum [(M + fraction) * 2^ex] is at most
    [b * 2^e1], where [e1] is the exponent the datum is rounded at, then
    so is the rounded Number. *)
Lemma round_aux_le (sx : bool) (M ex : Z) (lx : location) (b : Z) :
  0 <= M ->
  let n := Z.max 0 (fexp prec emax (Zdigits2 M + ex) - ex) in
  let e1 := ex + n in
  M < b * 2 ^ n \/ (M = b * 2 ^ n /\ lx = loc_Exact) ->
  Z.max e1 (fexp prec emax (Zdigits2 b + e1)) <= emax - prec ->
  match binary_round_aux prec emax sx M ex lx with
  | S754_zero s => s = sx
  | S754_finite s m e =>
      s = sx /\
      e1 <= e <= Z.max e1 (fexp prec emax (Zdigits2 b + e1)) /\
      Zpos m * 2 ^ (e - e1) <= b
  | _ => False
  end.
Proof.
  intros HM n e1 Hle Hmax.
  assert (H2n : 0 < 2 ^ n) by (apply Z.pow_pos_nonneg; lia).
  unfold binary_round_aux, shr_fexp.
  destruct (record_of_loc M lx) as [Hrec Hrecx].
  destruct (shifted_shr (shr_record_of_loc M lx) ex
              (fexp prec emax (Zdigits2 M + ex) - ex)) as [Hsh He].
  fold n in Hsh, He.
  destruct (shr (shr_record_of_loc M lx) ex
              (fexp prec emax (Zdigits2 M + ex) - ex)) as [mrs' e'].
  cbn [fst snd] in Hsh, He. subst e'. fold e1.
  unfold shifted in Hsh. rewrite Hrec in Hsh.
  destruct (Hsh HM) as (H1 & Hm1 & Hex1).
  destruct (round_nearest_even_bounds (shr_m mrs') (loc_of_shr_record mrs'))
    as [Hr Hrx].
  set (m2 := round_nearest_even (shr_m mrs') (loc_of_shr_record mrs')) in *.
  assert (Hm2 : 0 <= m2 <= b).
  { split; [lia|]. destruct Hle as [Hlt|[Heq Hx]].
    - assert (M / 2 ^ n < b) by (apply Z.div_lt_upper_bound; lia). lia.
    - assert (Hmod : M mod 2 ^ n = 0) by (rewrite Heq; apply Z.mod_mul; lia).
      rewrite Hrx.
      + rewrite Hm1, Heq, Z.div_mul; lia.
      + apply loc_exact, Hex1; [now apply Hrecx | exact Hmod]. }
  destruct (shifted_shr (shr_record_of_loc m2 loc_Exact) e1
              (fexp prec emax (Zdigits2 m2 + e1) - e1)) as [Hsh2 He2].
  destruct (shr (shr_record_of_loc m2 loc_Exact) e1
              (fexp prec emax (Zdigits2 m2 + e1) - e1)) as [mrs'' e''].
  cbn [fst snd] in Hsh2, He2.
  set (k := Z.max 0 (fexp prec emax (Zdigits2 m2 + e1) - e1)) in *.
  unfold shifted in Hsh2. cbn [shr_record_of_loc shr_m] in Hsh2.
  destruct (Hsh2 ltac:(lia)) as (H2 & Hm3 & _).
  assert (H2k : 0 < 2 ^ k) by (apply Z.pow_pos_nonneg; lia).
  assert (Hek : e'' <= Z.max e1 (fexp prec emax (Zdigits2 b + e1))).
  { pose proof (Zdigits2_le m2 b Hm2).
    pose proof (fexp_le (Zdigits2 m2 + e1) (Zdigits2 b + e1) ltac:(lia)).
    lia. }
  destruct (shr_m mrs'') as [|m|m] eqn:Em; [reflexivity| |lia].
  replace (e'' <=? emax - prec) with true by (symmetry; apply Z.leb_le; lia).
  split; [reflexivity|]. split; [lia|].
  replace (e'' - e1) with k by lia.
  pose proof (Z.mul_div_le m2 (2 ^ k) H2k). rewrite Hm3. lia.
Qed.
End RoundBound.

Module PercentRange.
Import Num NumFacts Shift ShiftFacts RoundBound.
Local Open Scope Z_scope.

Lemma digits_lt_pow (a k : Z) : 0 <= k -> 0 <= a < 2 ^ k -> Zdigits2 a <= k.
Proof.
  intros Hk [Ha Hlt]. destruct a as [|p|p]; [exact Hk| |lia].
  cbn [Zdigits2]. pose proof (digits2_bounds p) as [Hlo _].
  destruct (Z_le_gt_dec (Zpos (digits2_pos p)) k) as [|Hgt]; [assumption|].
  assert (2 ^ k <= 2 ^ (Zpos (digits2_pos p) - 1))
    by (apply Z.pow_le_mono_r; lia).
  lia.
Qed.

Lemma fexp_small (k c : Z) : k <= c -> -1074 <= c - 53 -> fexp prec emax k <= c - 53.
Proof. unfold fexp, emin, prec, emax. lia. Qed.

Lemma new_location_zero (n : Z) : new_location n 0 = loc_Exact.
Proof. unfold new_location. now destruct (Z.even n). Qed.

(** On canonical positive data the comparison of Numbers is the
    comparison of the values. *)
Lemma le_canonical (mx my : positive) (ex ey : Z) :
  is_double (S754_finite false mx ex) = true ->
  is_double (S754_finite false my ey) = true ->
  ltb (S754_finite false my ey) (S754_finite false mx ex) = false ->
  ex <= ey /\ Zpos mx <= Zpos my * 2 ^ (ey - ex).
Proof.
  intros Hx Hy Hlt.
  apply is_double_finite in Hx, Hy. destruct Hx as [Hx _], Hy as [Hy _].
  unfold ltb, SFltb, SFcompare in Hlt.
  destruct (Z.compare_spec ey ex) as [He|He|He].
  - subst ey. split; [lia|]. rewrite Z.sub_diag, Z.mul_1_r.
    destruct (Pos.compare_cont Eq my mx) eqn:Hc; try discriminate.
    + apply Pos.compare_eq in Hc. subst. lia.
    + apply Pos.compare_gt_iff in Hc. lia.
  - discriminate.
  - split; [lia|].
    pose proof (digits2_bounds mx) as [_ Hmx].
    pose proof (digits2_bounds my) as [Hmy _].
    assert (Hd : Zpos (digits2_pos mx) + ex < Zpos (digits2_pos my) + ey).
    { destruct (Z_lt_ge_dec (Zpos (digits2_pos mx) + ex)
                  (Zpos (digits2_pos my) + ey)) as [|Hge]; [assumption|].
      pose proof (fexp_le _ _ (proj1 (Z.ge_le_iff _ _) Hge)). lia. }
    assert (H2 : 2 ^ Zpos (digits2_pos mx)
                 <= 2 ^ (Zpos (digits2_pos my) - 1) * 2 ^ (ey - ex)).
    { rewrite <- Z.pow_add_r by lia. apply Z.pow_le_mono_r; lia. }
    assert (0 < 2 ^ (ey - ex)) by (apply Z.pow_pos_nonneg; lia).
    nia.
Qed.

(** A quotient of positive data, the dividend at most the divisor,
    rounds to a Number that is at most one. *)
Lemma div_le_one (mx my : positive) (ex ey : Z) :
  ex <= ey -> Zpos mx <= Zpos my * 2 ^ (ey - ex) ->
  match div (S754_finite false mx ex) (S754_finite false my ey) with
  | S754_zero s => s = false
  | S754_finite s m e => s = false /\ e <= 0 /\ Zpos m <= 2 ^ (- e)
  | _ => False
  end.
Proof.
  intros He Hle.
  unfold div, SFdiv, SFdiv_core_binary.
  cbn [Zdigits2 xorb].
  set (d1 := Zpos (digits2_pos mx)). set (d2 := Zpos (digits2_pos my)).
  pose proof (digits2_bounds mx) as [Hmx _].
  pose proof (digits2_bounds my) as [_ Hmy].
  fold d1 in Hmx. fold d2 in Hmy.
  assert (H2e : 0 < 2 ^ (ey - ex)) by (apply Z.pow_pos_nonneg; lia).
  assert (Hd : d1 + ex <= d2 + ey).
  { destruct (Z_le_gt_dec (d1 + ex) (d2 + ey)) as [|Hgt]; [assumption|].
    assert (2 ^ d2 * 2 ^ (ey - ex) <= 2 ^ (d1 - 1)).
    { rewrite <- Z.pow_add_r by (unfold d2; lia).
      apply Z.pow_le_mono_r; lia. }
    nia. }
  pose proof (fexp_small (d1 + ex - (d2 + ey)) 0 ltac:(lia) ltac:(lia)) as Hf.
  set (e' := Z.min (fexp prec emax (d1 + ex - (d2 + ey))) (ex - ey)) in *.
  assert (He' : e' <= -53 /\ e' <= ex - ey) by (unfold e'; lia).
  set (s := ex - ey - e').
  assert (Hs : 0 <= s) by (unfold s; lia).
  assert (Hm' : match s with
                | 0 => Zpos mx
                | Zpos _ => Z.shiftl (Zpos mx) s
                | Zneg _ => 0
                end = Zpos mx * 2 ^ s).
  { destruct s as [|p|p] eqn:Es; [cbn; lia| |lia].
    now rewrite Z.shiftl_mul_pow2 by lia. }
  rewrite Hm'. clear Hm'.
  assert (H2s : 0 < 2 ^ s) by (apply Z.pow_pos_nonneg; lia).
  assert (Hbound : Zpos mx * 2 ^ s <= Zpos my * 2 ^ (- e')).
  { replace (- e') with (ey - ex + s) by (unfold s; lia).
    rewrite Z.pow_add_r by lia. nia. }
  assert (H2e' : 0 < 2 ^ (- e')) by (apply Z.pow_pos_nonneg; lia).
  pose proof (Z_div_mod (Zpos mx * 2 ^ s) (Zpos my) ltac:(lia)) as Hdm.
  destruct (Z.div_eucl (Zpos mx * 2 ^ s) (Zpos my)) as [q r].
  destruct Hdm as [Hq Hr].
  assert (Hq0 : 0 <= q) by nia.
  assert (Hq1 : q <= 2 ^ (- e')) by nia.
  set (n := Z.max 0 (fexp prec emax (Zdigits2 q + e') - e')).
  set (e1 := e' + n).
  assert (Hdq : Zdigits2 q <= - e' + 1).
  { apply digits_lt_pow; [lia|]. split; [lia|].
    rewrite Z.pow_add_r by lia. lia. }
  pose proof (fexp_small (Zdigits2 q + e') 1 ltac:(lia) ltac:(lia)) as Hf1.
  assert (He1 : e1 <= -52) by (unfold e1, n; lia).
  assert (H2e1 : 0 < 2 ^ (- e1)) by (apply Z.pow_pos_nonneg; lia).
  assert (Hdb : Zdigits2 (2 ^ (- e1)) <= - e1 + 1).
  { apply digits_lt_pow; [lia|]. split; [lia|].
    rewrite Z.pow_add_r by lia. lia. }
  pose proof (fexp_small (Zdigits2 (2 ^ (- e1)) + e1) 1 ltac:(lia) ltac:(lia))
    as Hf2.
  assert (Hpow : 2 ^ (- e1) * 2 ^ n = 2 ^ (- e')).
  { rewrite <- Z.pow_add_r by (unfold n; lia). f_equal. unfold e1. lia. }
  pose proof (round_aux_le false q e' (new_location (Zpos my) r)
                (2 ^ (- e1)) Hq0) as H.
  cbv zeta in H. fold n in H. fold e1 in H.
  assert (Hcase : q < 2 ^ (- e1) * 2 ^ n \/
                  q = 2 ^ (- e1) * 2 ^ n /\
                  new_location (Zpos my) r = loc_Exact).
  { rewrite Hpow. destruct (Z_lt_le_dec q (2 ^ (- e'))) as [|Hge];
      [now left|right].
    assert (q = 2 ^ (- e')) by lia. split; [assumption|].
    assert (r = 0) by nia. subst r. apply new_location_zero. }
  specialize (H Hcase ltac:(change (emax - prec) with 971; lia)).
  destruct (binary_round_aux prec emax false q e' (new_location (Zpos my) r))
    as [s0|s0| |s0 m0 e0]; try assumption.
  destruct H as (Hs0 & [Hlo Hhi] & Hm0).
  split; [assumption|]. split; [lia|].
  assert (0 < 2 ^ (e0 - e1)) by (apply Z.pow_pos_nonneg; lia).
  assert (2 ^ (- e1) = 2 ^ (- e0) * 2 ^ (e0 - e1)).
  { rewrite <- Z.pow_add_r by lia. f_equal. lia. }
  nia.
Qed.

Lemma hundred_eq : of_Z 100 = S754_finite false 7036874417766400 (-46).
Proof. reflexivity. Qed.

(** A Number that is at most one, times one hundred, is at most one
    hundred. *)
Lemma mul_le_hundred (m : positive) (e : Z) :
  e <= 0 -> Zpos m <= 2 ^ (- e) ->
  match mul (S754_finite false m e) (of_Z 100) with
  | S754_zero s => s = false
  | S754_finite s m' e' =>
      s = false /\ e' < 0 /\ Zpos m' <= 100 * 2 ^ (- e')
  | _ => False
  end.
Proof.
  intros He Hm. rewrite hundred_eq.
  unfold mul, SFmul. cbn [xorb].
  set (c := 7036874417766400%positive).
  set (M := Zpos (m * c)). set (ex := e + -46).
  assert (HM : M = Zpos m * 7036874417766400) by (unfold M, c; lia).
  assert (H2e : 0 < 2 ^ (- e)) by (apply Z.pow_pos_nonneg; lia).
  assert (Hc : 7036874417766400 = 100 * 2 ^ 46) by reflexivity.
  assert (Hex : 2 ^ (- ex) = 2 ^ (- e) * 2 ^ 46).
  { rewrite <- Z.pow_add_r by lia. f_equal. unfold ex. lia. }
  assert (HMle : M <= 100 * 2 ^ (- ex)) by (rewrite Hex, HM, Hc; nia).
  set (n := Z.max 0 (fexp prec emax (Zdigits2 M + ex) - ex)).
  set (e1 := ex + n).
  assert (H2ex : 0 < 2 ^ (- ex))
    by (apply Z.pow_pos_nonneg; unfold ex; lia).
  assert (HdM : Zdigits2 M <= - ex + 7).
  { apply digits_lt_pow; [unfold ex; lia|]. split; [lia|].
    rewrite Z.pow_add_r by (unfold ex; lia).
    change (2 ^ 7) with 128. lia. }
  pose proof (fexp_small (Zdigits2 M + ex) 7 ltac:(lia) ltac:(lia)) as Hf1.
  assert (Hex0 : ex <= -46) by (unfold ex; lia).
  assert (He1 : e1 <= -46) by (unfold e1, n; lia).
  assert (H2e1 : 0 < 2 ^ (- e1)) by (apply Z.pow_pos_nonneg; lia).
  assert (Hdb : Zdigits2 (100 * 2 ^ (- e1)) <= - e1 + 7).
  { apply digits_lt_pow; [lia|]. split; [lia|].
    rewrite Z.pow_add_r by lia. change (2 ^ 7) with 128. lia. }
  pose proof (fexp_small (Zdigits2 (100 * 2 ^ (- e1)) + e1) 7
                ltac:(lia) ltac:(lia)) as Hf2.
  assert (Hpow : 2 ^ (- e1) * 2 ^ n = 2 ^ (- ex)).
  { rewrite <- Z.pow_add_r by (unfold n; lia). f_equal. unfold e1. lia. }
  pose proof (round_aux_le false M ex loc_Exact (100 * 2 ^ (- e1))
                ltac:(lia)) as H.
  cbv zeta in H. fold n in H. fold e1 in H.
  assert (Hcase : M < 100 * 2 ^ (- e1) * 2 ^ n \/
                  M = 100 * 2 ^ (- e1) * 2 ^ n /\ loc_Exact = loc_Exact).
  { rewrite <- Z.mul_assoc, Hpow.
    destruct (Z_lt_le_dec M (100 * 2 ^ (- ex))); [now left|right].
    split; [lia|reflexivity]. }
  specialize (H Hcase ltac:(change (emax - prec) with 971; lia)).
  destruct (binary_round_aux prec emax false M ex loc_Exact)
    as [s0|s0| |s0 m0 e0]; try assumption.
  destruct H as (Hs0 & [Hlo Hhi] & Hm0).
  split; [assumption|]. split; [lia|].
  assert (0 < 2 ^ (e0 - e1)) by (apply Z.pow_pos_nonneg; lia).
  assert (2 ^ (- e1) = 2 ^ (- e0) * 2 ^ (e0 - e1)).
  { rewrite <- Z.pow_add_r by lia. f_equal. lia. }
  nia.
Qed.

(** Rounding a Number between zero and one hundred to an integer gives
    a whole Number between zero and one hundred. *)
Lemma round_le_hundred (m : positive) (e : Z) :
  e < 0 -> Zpos m <= 100 * 2 ^ (- e) ->
  exists z, 0 <= z <= 100 /\ Math_round (S754_finite false m e) = of_Z z.
Proof.
  intros He Hm. unfold Math_round.
  replace (0 <=? e) with false by (symmetry; apply Z.leb_gt; lia).
  cbn [cond_Zopp].
  assert (H2e : 0 < 2 ^ (- e)) by (apply Z.pow_pos_nonneg; lia).
  assert (Hp : 2 ^ (- e + 1) = 2 * 2 ^ (- e))
    by (rewrite Z.pow_add_r by lia; lia).
  set (r := (2 * Zpos m + 2 ^ (- e)) / 2 ^ (- e + 1)).
  assert (Hr : 0 <= r <= 100).
  { unfold r. split.
    - apply Z.div_pos; lia.
    - assert ((2 * Zpos m + 2 ^ (- e)) / 2 ^ (- e + 1) < 101); [|lia].
      apply Z.div_lt_upper_bound; lia. }
  exists r. split; [exact Hr|].
  destruct r; reflexivity.
Qed.

(** The three steps together. *)
Lemma percent_finite (mx my : positive) (ex ey : Z) :
  ex <= ey -> Zpos mx <= Zpos my * 2 ^ (ey - ex) ->
  exists z, 0 <= z <= 100 /\
    Math_round (mul (div (S754_finite false mx ex) (S754_finite false my ey))
                    (of_Z 100)) = of_Z z.
Proof.
  intros He Hle. pose proof (div_le_one mx my ex ey He Hle) as Hd.
  destruct (div _ _) as [s|s| |s m e]; try contradiction.
  - subst s. exists 0. now split.
  - destruct Hd as (-> & He0 & Hm).
    pose proof (mul_le_hundred m e He0 Hm) as Hmul.
    destruct (mul _ _) as [s'|s'| |s' m' e']; try contradiction.
    + subst s'. exists 0. now split.
    + destruct Hmul as (-> & He' & Hm'). now apply round_le_hundred.
Qed.

Lemma percent_number (debt paid : number) :
  is_double debt = true -> is_double paid = true ->
  is_finite paid = true -> sign_bit paid = false ->
  ltb zero debt = true -> ltb debt paid = false ->
  exists z, 0 <= z <= 100 /\
    Math_round (mul (div paid debt) (of_Z 100)) = of_Z z.
Proof.
  intros Hd Hp Hfin Hsign Hpos Hle.
  destruct debt as [sd|[|]| |[|] md ed]; try discriminate Hpos;
    destruct paid as [sp|sp| |sp mp ep]; try discriminate Hfin;
    cbn [sign_bit] in Hsign; subst sp;
    try (exists 0; split; [lia|reflexivity]).
  destruct (le_canonical mp md ep ed Hp Hd Hle) as [He Hm].
  now apply percent_finite.
Qed.

Lemma whole_text_all :
  forallb (fun k => String.eqb (Js.ToString (VNum (of_Z (Z.of_nat k))))
                               (Text.dec (Z.of_nat k))) (seq 0 101) = true.
Proof. vm_compute. reflexivity. Qed.

(** The text of a whole Number from 0 to 100 is its decimal digits. *)
Lemma whole_text (z : Z) :
  0 <= z <= 100 -> Js.ToString (VNum (of_Z z)) = Text.dec z.
Proof.
  intros Hz. pose proof whole_text_all as H.
  rewrite forallb_forall in H.
  specialize (H (Z.to_nat z)). rewrite Z2Nat.id in H by lia.
  apply String.eqb_eq, H, in_seq. lia.
Qed.
End PercentRange.

Module MarkupFacts.
Import Markup.
Local Open Scope string_scope.

Lemma append_assoc (s t u : string) : (s ++ t) ++ u = s ++ t ++ u.
Proof. induction s as [|a s IH]; cbn; [reflexivity | now rewrite IH]. Qed.

Lemma prefix_nil (s : string) : String.prefix "" s = true.
Proof. now destruct s. Qed.

Lemma prefix_app (n s t : string) :
  String.prefix n s = true -> String.prefix n (s ++ t) = true.
Proof.
  revert s. induction n as [|a n IH]; intros s H; [apply prefix_nil|].
  destruct s as [|b s]; [discriminate H|].
  change (String b s ++ t) with (String b (s ++ t)). cbn in *.
  destruct (Ascii.ascii_dec a b); [now apply IH | discriminate H].
Qed.

Lemma prefix_self (n t : string) : String.prefix n (n ++ t) = true.
Proof.
  induction n as [|a n IH]; [apply prefix_nil|].
  change (String a n ++ t) with (String a (n ++ t)). cbn.
  destruct (Ascii.ascii_dec a a); [exact IH | congruence].
Qed.

Lemma occurs_prefix (n s : string) :
  String.prefix n s = true -> occurs n s = true.
Proof. intros H. destruct s; cbn [occurs]; now rewrite H. Qed.

Lemma occurs_cons (n : string) (a : ascii) (s : string) :
  occurs n s = true -> occurs n (String a s) = true.
Proof.
  intros H. cbn [occurs]. rewrite H.
  now destruct (String.prefix n (String a s)).
Qed.

Lemma occurs_app_l (n s t : string) :
  occurs n s = true -> occurs n (s ++ t) = true.
Proof.
  induction s as [|a s IH]; intros H.
  - cbn in H. destruct n; [|discriminate H]. apply occurs_prefix, prefix_nil.
  - cbn [occurs] in H. destruct (String.prefix n (String a s)) eqn:E.
    + apply occurs_prefix, prefix_app, E.
    + change (String a s ++ t) with (String a (s ++ t)).
      apply occurs_cons, IH, H.
Qed.

Lemma occurs_app_r (n s t : string) :
  occurs n t = true -> occurs n (s ++ t) = true.
Proof.
  intros H. induction s as [|a s IH]; [exact H|].
  change (String a s ++ t) with (String a (s ++ t)).
  now apply occurs_cons.
Qed.

Lemma occurs_between (a n b : string) : occurs n (a ++ n ++ b) = true.
Proof. apply occurs_app_r, occurs_prefix, prefix_self. Qed.

(** What occurs in a line occurs in the text the lines make up. *)
Lemma occurs_lines (n l : string) (ls : list string) :
  In l ls -> occurs n l = true -> occurs n (Text.lines ls) = true.
Proof.
  unfold Text.lines. intros Hin Hl.
  induction ls as [|x ls IH]; [destruct Hin|].
  destruct Hin as [->|Hin].
  - destruct ls as [|y ls]; [exact Hl|]. cbn [String.concat].
    now apply occurs_app_l.
  - destruct ls as [|y ls]; [destruct Hin|].
    change (String.concat Text.nl (x :: y :: ls))
      with (x ++ Text.nl ++ String.concat Text.nl (y :: ls)).
    apply occurs_app_r, occurs_app_r. now apply IH.
Qed.
End MarkupFacts.

Module LoadedFacts.

(** The document once both requests have succeeded and the animation
    has run its course, whichever response arrived first. *)
Lemma page_loaded :
  forall (h : Host) (metrics : Settled) (counts data : JsVal)
         (items : list JsVal) (d : Dom) (now : number) (nows : list number),
    chart_section d <> None -> activity_section d <> None ->
    frame_queue d = [] ->
    Dashboard.fetchMetricsOnce_settled metrics = Normal counts ->
    (forall el, In el (kpis d) -> Hosts.regular (Obs.value_for counts el)) ->
    Obs.is_null data = false ->
    Js.own_property data "recent_activities" = VArr items ->
    items <> [] -> (Z.of_nat (List.length items) < 2 ^ 32)%Z ->
    Forall (fun act => Obs.is_null act = false) items ->
    Math_pow3 h Num.zero = Num.zero ->
    (forall k, Num.is_finite (performance_now h k) = true) ->
    Forall (fun t => Num.is_finite t = true) (now :: nows) ->
    (forall i, i < List.length (kpis d) ->
       Exists (fun t =>
                 Num.ltb (Obs.fraction (performance_now h (clock_reads d + i)) t)
                         Num.one = false) (now :: nows)) ->
    let details := Fulfilled {| ok := true; json := Parsed data |} in
    let total_debt := Js.own_property data "total_debt" in
    let total_paid := Js.own_property data "total_paid" in
    let metrics_first :=
      Dashboard.frames h (now :: nows)
        (snd (Dashboard.loadDetails h details
                (Dashboard.applyMetrics h counts d))) in
    let details_first :=
      Dashboard.frames h (now :: nows)
        (Dashboard.applyMetrics h counts
           (snd (Dashboard.loadDetails h details d))) in
    details_first = metrics_first /\
    Obs.texts metrics_first
    = map (fun el => Dashboard.formatValue h (Obs.value_for counts el)
                       (Obs.format_for el)) (kpis d) /\
    chart_section metrics_first
    = Some (Dashboard.chart_markup total_debt total_paid) /\
    activity_section metrics_first = Some Dashboard.activity_markup /\
    activity_list metrics_first = Some (map (Dashboard.item_of h) items) /\
    charts metrics_first
    = charts d
      ++ Drawing.three_charts data
           (Dashboard.percentage_of total_debt total_paid) /\
    console metrics_first = console d /\
    frame_queue metrics_first = [].
Proof.
  intros h metrics counts data items d now nows Hc Ha Hq0 Hm Hreg Hd Hr Hne
    Hlen Hall Hpow Hclock Hfin Hreach details total_debt total_paid
    metrics_first details_first.
  pose proof (AnimationFacts.settled_truthy _ _ Hm) as Ht.
  set (A := Dashboard.applyMetrics h counts d) in *.
  destruct (RunFacts.applyMetrics_regions h counts d) as [HregA HchA].
  fold A in HregA, HchA.
  destruct (FlowFacts.regions_inv _ _ HregA) as (R1 & R2 & R3 & R4).
  assert (HL : Dashboard.loadDetails h details A
               = (Normal tt,
                  {| kpis := kpis A;
                     chart_section :=
                       Some (Dashboard.chart_markup total_debt total_paid);
                     activity_section := Some Dashboard.activity_markup;
                     activity_list := Some (map (Dashboard.item_of h) items);
                     console := console A;
                     frame_queue :=
                       frame_queue A
                       ++ [RenderCharts data
                             (Dashboard.percentage_of total_debt total_paid)];
                     charts := charts A; clock_reads := clock_reads A |})).
  { apply SuccessFacts.loadDetails_success; try assumption.
    - now rewrite R1.
    - now rewrite R2. }
  set (L := snd (Dashboard.loadDetails h details A)) in *.
  assert (HLk : kpis L = kpis A) by (unfold L; now rewrite HL).
  assert (HLq : frame_queue L
                = frame_queue A
                  ++ [RenderCharts data
                        (Dashboard.percentage_of total_debt total_paid)])
    by (unfold L; now rewrite HL).
  assert (Hidle : forall i, Obs.ticks_for i d = [])
    by (intros i; unfold Obs.ticks_for; now rewrite Hq0).
  assert (HLt : forall i, Obs.ticks_for i L = Obs.ticks_for i A).
  { intros i. unfold Obs.ticks_for. rewrite HLq, filter_app.
    cbn [filter Obs.is_tick_for]. apply app_nil_r. }
  destruct (SettleFacts.settle_texts h counts d L (now :: nows) Ht Hidle Hreg
              Hpow Hclock Hfin (fun _ => Hreach) HLk HLt) as [Htexts Hnone].
  destruct (EndFacts.frames_regions h (now :: nows) L) as (HregF & _ & HlenF).
  destruct (FlowFacts.regions_inv _ _ HregF) as (F1 & F2 & F3 & F4).
  fold metrics_first in Htexts, Hnone, F1, F2, F3, F4, HlenF.
  split; [|split; [exact Htexts|]].
  { unfold details_first, metrics_first, L, A.
    rewrite !FramesFacts.frames_cons.
    now rewrite OrderFacts.frame_either_order. }
  split; [rewrite F1; unfold L; now rewrite HL|].
  split; [rewrite F2; unfold L; now rewrite HL|].
  split; [rewrite F3; unfold L; now rewrite HL|].
  assert (HqA : frame_queue A
                = if reduced_motion h then []
                  else Effects.ticks h counts 0 (clock_reads d) (kpis d)).
  { unfold A. rewrite (ApplyClosed.applyMetrics_closed h counts d Ht).
    destruct (reduced_motion h); unfold DomOps.with_kpis; cbn [frame_queue];
      now rewrite Hq0. }
  assert (HdA : flat_map Drawing.draws (frame_queue A) = []).
  { apply FramesFacts.draws_ticks. rewrite HqA.
    destruct (reduced_motion h); [reflexivity|].
    apply TickLists.ticks_no_render, OrderFacts.ticks_are_ticks. }
  split; [|split].
  - unfold metrics_first. rewrite FramesFacts.frames_charts.
    rewrite HLq, flat_map_app, HdA. cbn [flat_map Drawing.draws app].
    rewrite Hd, app_nil_r. unfold L. rewrite HL. cbn [snd charts].
    now rewrite HchA.
  - rewrite F4. unfold L. rewrite HL. cbn [snd console]. exact R4.
  - unfold metrics_first. rewrite FramesFacts.frames_queue, HLq, filter_app.
    match goal with |- filter ?P _ ++ filter ?P [?r] = [] =>
      change (filter P [r]) with (@nil FrameCallback) end.
    rewrite app_nil_r.
    rewrite <- (FramesFacts.frames_queue h (now :: nows) A).
    clear -HqA Ht Hpow Hclock Hfin Hreach Hreg Hq0 Hidle.
    destruct (SettleFacts.settle_texts h counts d A (now :: nows) Ht Hidle Hreg
                Hpow Hclock Hfin (fun _ => Hreach) eq_refl (fun _ => eq_refl))
      as [_ HnoneA].
    destruct (frame_queue (Dashboard.frames h (now :: nows) A)) as [|cb q] eqn:E;
      [reflexivity|]. exfalso.
    assert (Hin : In cb (frame_queue (Dashboard.frames h (now :: nows) A)))
      by (rewrite E; now left).
    rewrite FramesFacts.frames_queue in Hin. apply filter_In in Hin.
    destruct Hin as [Hin _]. rewrite HqA in Hin.
    destruct (reduced_motion h); [destruct Hin|].
    destruct (TickLists.ticks_index _ _ _ _ _ _ Hin) as (j & Hj & Hjt).
    specialize (HnoneA j ltac:(lia)). unfold Obs.ticks_for in HnoneA.
    rewrite E in HnoneA. cbn [filter] in HnoneA. rewrite Hjt in HnoneA.
    discriminate HnoneA.
Qed.
End LoadedFacts.

Module RoundValue.
Import Num NumFacts Shift ShiftFacts RoundBound PercentRange.
Local Open Scope Z_scope.


(** The mantissa of a Number that comes out of the rounding step has at
    most 53 bits. *)
Lemma round_aux_mantissa (sx : bool) (M ex : Z) (lx : location) :
  0 <= M ->
  match binary_round_aux prec emax sx M ex lx with
  | S754_finite _ m _ => Zpos m < 2 ^ 53
  | _ => True
  end.
Proof.
  intros HM.
  set (n := Z.max 0 (fexp prec emax (Zdigits2 M + ex) - ex)).
  assert (H2n : 0 < 2 ^ n) by (apply Z.pow_pos_nonneg; lia).
  unfold binary_round_aux, shr_fexp.
  destruct (record_of_loc M lx) as [Hrec _].
  destruct (shifted_shr (shr_record_of_loc M lx) ex
              (fexp prec emax (Zdigits2 M + ex) - ex)) as [Hsh He].
  fold n in Hsh, He.
  destruct (shr (shr_record_of_loc M lx) ex
              (fexp prec emax (Zdigits2 M + ex) - ex)) as [mrs' e'].
  cbn [fst snd] in Hsh, He. subst e'. set (e1 := ex + n).
  unfold shifted in Hsh. rewrite Hrec in Hsh.
  destruct (Hsh HM) as (H1 & Hm1 & _).
  destruct (round_nearest_even_bounds (shr_m mrs') (loc_of_shr_record mrs'))
    as [Hr _].
  set (m2 := round_nearest_even (shr_m mrs') (loc_of_shr_record mrs')) in *.
  assert (Hd53 : shr_m mrs' < 2 ^ 53).
  { rewrite Hm1. apply Z.div_lt_upper_bound; [lia|].
    rewrite <- Z.pow_add_r by lia.
    destruct M as [|p|p]; [apply Z.pow_pos_nonneg; lia| |lia].
    pose proof (digits2_bounds p) as [_ Hp]. cbn [Zdigits2] in n.
    assert (2 ^ Zpos (digits2_pos p) <= 2 ^ (n + 53)).
    { apply Z.pow_le_mono_r; [lia|]. unfold n, fexp, emin, prec, emax. lia. }
    lia. }
  assert (He1 : emin prec emax <= e1) by (unfold e1, n, fexp; lia).
  destruct (shifted_shr (shr_record_of_loc m2 loc_Exact) e1
              (fexp prec emax (Zdigits2 m2 + e1) - e1)) as [Hsh2 He2].
  destruct (shr (shr_record_of_loc m2 loc_Exact) e1
              (fexp prec emax (Zdigits2 m2 + e1) - e1)) as [mrs'' e''].
  cbn [fst snd] in Hsh2, He2.
  set (k := Z.max 0 (fexp prec emax (Zdigits2 m2 + e1) - e1)) in *.
  unfold shifted in Hsh2. cbn [shr_record_of_loc shr_m] in Hsh2.
  destruct (Hsh2 ltac:(lia)) as (H2 & Hm3 & _).
  assert (Hlt : shr_m mrs'' < 2 ^ 53).
  { rewrite Hm3.
    destruct (Z_lt_le_dec m2 (2 ^ 53)) as [Hlt|Hge].
    - assert (0 < 2 ^ k) by (apply Z.pow_pos_nonneg; lia).
      pose proof (Z.div_le_upper_bound m2 (2 ^ k) m2 ltac:(lia) ltac:(nia)).
      lia.
    - assert (Hm2 : m2 = 2 ^ 53) by lia.
      assert (Hk : k = 1).
      { unfold k. rewrite Hm2.
        change (Zdigits2 (2 ^ 53)) with 54.
        unfold fexp, emin, prec, emax in *. lia. }
      rewrite Hk, Hm2. reflexivity. }
  destruct (shr_m mrs'') as [|m|m]; [exact I| |exact I].
  now destruct (e'' <=? emax - prec).
Qed.
End RoundValue.

Module QFacts.
Local Open Scope Q_scope.

Lemma pow2_pos (e : Z) : 0 < 2 ^ e.
Proof. apply Qpower_0_lt. reflexivity. Qed.

Lemma pow2_add (a b : Z) : 2 ^ (a + b) == 2 ^ a * 2 ^ b.
Proof. apply Qpower_plus. discriminate. Qed.

Lemma pow2_Z (k : Z) : (0 <= k)%Z -> inject_Z (2 ^ k) == 2 ^ k.
Proof. intros Hk. exact (Zpower_Qpower 2 k Hk). Qed.



(** A mantissa moved by [k] places. *)
Lemma dyadic_shift (m k e : Z) :
  (0 <= k)%Z -> inject_Z (m * 2 ^ k) * 2 ^ e == inject_Z m * 2 ^ (e + k).
Proof.
  intros Hk. rewrite inject_Z_mult, (pow2_Z k Hk), pow2_add. ring.
Qed.



End QFacts.

Module UnitFacts.
Import Num NumFacts Shift ShiftFacts RoundBound PercentRange RoundValue QFacts.


(** The value of a Number given by its mantissa in units of [2^e1]. *)
Lemma to_Q_units (s : bool) (m : positive) (e e1 m2 : Z) :
  (e1 <= e)%Z -> (Zpos m * 2 ^ (e - e1) = m2)%Z ->
  (to_Q (S754_finite s m e) == inject_Z (cond_Zopp s m2) * 2 ^ e1)%Q.
Proof.
  intros He <-. unfold to_Q.
  replace (cond_Zopp s (Zpos m * 2 ^ (e - e1)))
    with (cond_Zopp s (Zpos m) * 2 ^ (e - e1))%Z
    by (destruct s; cbn [cond_Zopp]; ring).
  rewrite dyadic_shift by lia. now replace (e1 + (e - e1))%Z with e by lia.
Qed.

End UnitFacts.

Module EasingFacts.
Import Num NumFacts QFacts UnitFacts.






End EasingFacts.

Module MathRoundFacts.
Import Num NumFacts RoundFacts QFacts UnitFacts.

(** The value of the Number of an integer of at most 53 bits. *)
Lemma to_Q_of_Z (z : Z) : (Z.abs z < 2 ^ 53)%Z -> (to_Q (of_Z z) == inject_Z z)%Q.
Proof.
  intros Hz. unfold of_Z, binary_normalize.
  destruct z as [|p|p]; [reflexivity| |].
  - destruct (of_Z_exact false p (digits2_le_53 p Hz))
      as (m & j & Hj & Hm & ->).
    rewrite (to_Q_units false m (- j) (- j) (Zpos m) ltac:(lia)
               ltac:(rewrite Z.sub_diag, Z.pow_0_r; lia)).
    cbn [cond_Zopp]. rewrite Hm, dyadic_shift by lia.
    replace (- j + j)%Z with 0%Z by lia. change (2 ^ 0)%Q with 1%Q. ring.
  - destruct (of_Z_exact true p (digits2_le_53 p Hz))
      as (m & j & Hj & Hm & ->).
    unfold to_Q. cbn [cond_Zopp].
    change (Z.neg m) with (- Zpos m)%Z. change (Z.neg p) with (- Zpos p)%Z.
    rewrite !inject_Z_opp, Hm.
    assert (E : (inject_Z (Zpos p * 2 ^ j) * 2 ^ (- j) == inject_Z (Zpos p))%Q).
    { rewrite dyadic_shift by lia.
      replace (- j + j)%Z with 0%Z by lia. change (2 ^ 0)%Q with 1%Q. ring. }
    rewrite <- E. ring.
Qed.

(** The mantissa of a product has at most 53 bits. *)
Lemma mul_mantissa (a b : number) (s : bool) (m : positive) (e : Z) :
  mul a b = S754_finite s m e -> (Zpos m < 2 ^ 53)%Z.
Proof.
  destruct a as [sa|sa| |sa ma ea], b as [sb|sb| |sb mb eb];
    try discriminate.
  unfold mul, SFmul. intros E.
  pose proof (RoundValue.round_aux_mantissa (xorb sa sb)
                (Zpos (ma * mb)) (ea + eb) loc_Exact ltac:(lia)) as H.
  now rewrite E in H.
Qed.

(** [Math.round]: the result is the integer within one half of the
    datum, the upper one of two. *)
Lemma Math_round_value (x : number) :
  is_finite x = true ->
  match x with S754_finite _ m _ => (Zpos m < 2 ^ 53)%Z | _ => True end ->
  exists z : Z,
    is_finite (Math_round x) = true /\
    (to_Q (Math_round x) == inject_Z z)%Q /\
    (inject_Z z <= to_Q x + (1 # 2) < inject_Z z + 1)%Q.
Proof.
  assert (Hfz : forall z, (Z.abs z < 2 ^ 53)%Z -> is_finite (of_Z z) = true).
  { intros z Hz. unfold of_Z, binary_normalize.
    destruct z as [|p|p]; [reflexivity| |].
    - now destruct (of_Z_exact false p (digits2_le_53 p Hz))
        as (m & j & _ & _ & ->).
    - now destruct (of_Z_exact true p (digits2_le_53 p Hz))
        as (m & j & _ & _ & ->). }
  destruct x as [s|s| |s m e]; try discriminate; intros _ Hm.
  - exists 0%Z. cbn. split; [reflexivity|]. split; [reflexivity|].
    split; vm_compute; [discriminate | reflexivity].
  - cbn [Math_round]. set (v := cond_Zopp s (Zpos m)).
    assert (Hv : (Z.abs v < 2 ^ 53)%Z) by (unfold v; destruct s; cbn; lia).
    destruct (Z.leb_spec 0 e) as [He|He].
    + exists (v * 2 ^ e)%Z.
      assert (E : (inject_Z (v * 2 ^ e) == to_Q (S754_finite s m e))%Q).
      { unfold to_Q. fold v. rewrite inject_Z_mult, pow2_Z by lia.
        reflexivity. }
      rewrite E. split; [reflexivity|]. split; [reflexivity|]. split; lra.
    + set (k := (- e)%Z). assert (Hk : (1 <= k)%Z) by (unfold k; lia).
      assert (H2k : (0 < 2 ^ k)%Z) by (apply Z.pow_pos_nonneg; lia).
      assert (H2k1 : (2 ^ (k + 1) = 2 * 2 ^ k)%Z)
        by (rewrite Z.pow_add_r, Z.pow_1_r by lia; lia).
      set (r := ((2 * v + 2 ^ k) / 2 ^ (k + 1))%Z).
      assert (Hr : (2 ^ (k + 1) * r <= 2 * v + 2 ^ k
                    < 2 ^ (k + 1) * (r + 1))%Z).
      { unfold r. pose proof (Z.mul_div_le (2 * v + 2 ^ k) (2 ^ (k + 1))).
        pose proof (Z.mul_succ_div_gt (2 * v + 2 ^ k) (2 ^ (k + 1))). lia. }
      assert (H2 : (2 <= 2 ^ k)%Z).
      { change 2%Z with (2 ^ 1)%Z at 1. apply Z.pow_le_mono_r; lia. }
      assert (Hrb : (Z.abs r < 2 ^ 53)%Z) by nia.
      exists r. split; [|split].
      * destruct r as [|p|p] eqn:Er; [reflexivity| |]; now apply Hfz.
      * destruct r as [|p|p] eqn:Er; [reflexivity| |];
          rewrite to_Q_of_Z by exact Hrb; reflexivity.
      * (* in units of [2^e]: 2 r 2^k <= 2 v + 2^k < 2 (r + 1) 2^k *)
        assert (Hx2 : (to_Q (S754_finite s m e) * 2 ^ k == inject_Z v)%Q).
        { unfold to_Q. fold v. rewrite <- Qmult_assoc, <- pow2_add.
          replace (e + k)%Z with 0%Z by (unfold k; lia).
          change (2 ^ 0)%Q with 1%Q. ring. }
        pose proof (pow2_pos k) as Hpk.
        destruct Hr as [Hlo Hhi]. rewrite H2k1 in Hlo, Hhi.
        rewrite Zle_Qle in Hlo. rewrite Zlt_Qlt in Hhi.
        rewrite !inject_Z_mult, !inject_Z_plus, !inject_Z_mult in Hlo, Hhi.
        rewrite (pow2_Z k) in Hlo, Hhi by lia.
        rewrite <- Hx2 in Hlo, Hhi. rewrite ?inject_Z_plus in Hhi.
        change (inject_Z 2) with 2%Q in Hlo, Hhi.
        change (inject_Z 1) with 1%Q in Hhi.
        set (q := to_Q (S754_finite s m e)) in *.
        set (P := (2 ^ k)%Q) in *. set (R := inject_Z r) in *.
        split.
        -- assert ((R - q - (1 # 2)) * P <= 0)%Q by nra.
           nra.
        -- assert (0 < (R + 1 - q - (1 # 2)) * P)%Q by nra.
           nra.
Qed.
End MathRoundFacts.

(* ===================================================================== *)
(** * The claims *)
(* ===================================================================== *)

(** C1: in every world the page can reach, (1) each request sent went to
    [/dashboard/metrics] with the cache disabled; (2) a call of
    [fetchMetricsOnce] first aborts the controller it holds, so that when
    the new request is sent every earlier request's signal is aborted and
    every earlier invocation has settled, the new request going out under
    a fresh signal that is not aborted; (3) an event hands a result to
    [applyMetrics] only for the most recent call, whose signal is not
    aborted - the result of a call that a later call superseded is never
    applied. *)
Theorem C1_latest_request_only :
  forall (h : Host) (d : Dom) (evs : list Metrics.Event),
    let w := fst (Metrics.run h (Metrics.initial d) evs) in
    (forall r, In r (Metrics.requests w) ->
               Metrics.url r = "/dashboard/metrics"%string /\
               Metrics.cache r = "no-store"%string) /\
    (let w1 := Metrics.new_controller (Metrics.abort_previous w) in
     fst (Metrics.step h w Metrics.Call) = Metrics.send_request w1 /\
     (forall r, In r (Metrics.requests w) ->
                nth_error (Metrics.aborted w1) (Metrics.signal r) = Some true) /\
     (forall i c, nth_error (Metrics.calls w1) i = Some c ->
                  exists result, Metrics.phase c = Metrics.Done result) /\
     Metrics.requests (Metrics.send_request w1)
     = Metrics.requests w
       ++ [{| Metrics.url := "/dashboard/metrics"; Metrics.cache := "no-store";
              Metrics.signal := List.length (Metrics.requests w) |}] /\
     nth_error (Metrics.aborted (Metrics.send_request w1))
               (List.length (Metrics.requests w)) = Some false) /\
    (forall ev i counts,
        In (i, counts) (snd (Metrics.step h w ev)) ->
        S i = List.length (Metrics.calls w) /\
        nth_error (Metrics.aborted w) i = Some false).
Proof.
  intros h d evs w.
  assert (Hw : Metrics.coherent w)
    by (apply MetricsFacts.coherent_run, MetricsFacts.coherent_initial).
  clearbody w.
  assert (Hshape : forall r, In r (Metrics.requests w) ->
            exists i, i < List.length (Metrics.calls w) /\
              r = {| Metrics.url := "/dashboard/metrics";
                     Metrics.cache := "no-store"; Metrics.signal := i |}).
  { intros r Hr. apply In_nth_error in Hr. destruct Hr as [i Hi].
    exists i. split.
    - rewrite <- (Metrics.requests_in_step w Hw).
      now apply (MetricsFacts.nth_error_lt _ _ _ Hi).
    - now apply (Metrics.request_shape w Hw). }
  split; [|split].
  - intros r Hr. destruct (Hshape r Hr) as (i & _ & ->). now split.
  - destruct (MetricsFacts.abort_previous_spec w Hw)
      as (Ha & Hc & Hr & _ & Hab & Hdone).
    cbv zeta in *. repeat apply conj.
    + reflexivity.
    + intros r Hin. destruct (Hshape r Hin) as (i & Hi & ->).
      cbn [Metrics.signal Metrics.new_controller Metrics.aborted].
      rewrite nth_error_app1 by lia. now apply Hab.
    + intros i c H. now apply (Hdone i c).
    + unfold Metrics.send_request, Metrics.new_controller.
      cbn [Metrics.metricsAbort Metrics.requests]. rewrite Hr.
      now rewrite Ha, <- (Metrics.requests_in_step w Hw).
    + unfold Metrics.send_request, Metrics.new_controller.
      cbn [Metrics.metricsAbort Metrics.aborted].
      rewrite nth_error_app2
        by (rewrite Ha, (Metrics.requests_in_step w Hw); lia).
      rewrite Ha, (Metrics.requests_in_step w Hw), Nat.sub_diag. reflexivity.
  - intros ev i counts Hin.
    destruct (MetricsFacts.applied_awaits h w ev i counts Hin)
      as (res_ok & j & _ & Hp & _).
    assert (Hi : S i = List.length (Metrics.calls w))
      by (apply (MetricsFacts.awaiting_is_latest w i _ Hw Hp); discriminate).
    split; [exact Hi|]. apply (Metrics.latest_live w Hw). now symmetry.
Qed.

Lemma C1_witness :
  let w :=
    fst (Metrics.run (browser true) (Metrics.initial Sample.page)
           [Metrics.Call; Metrics.Responds 0 true]) in
  1 = List.length (Metrics.calls w) /\
  nth_error (Metrics.aborted w) 0 = Some false.
Proof.
  apply (proj2 (proj2 (C1_latest_request_only (browser true) Sample.page
                         [Metrics.Call; Metrics.Responds 0 true]))
           (Metrics.Body 0 (Parsed Sample.metrics_body)) 0 Sample.counts).
  left. reflexivity.
Defined.

(** A run in which the first response arrives late: the second call
    aborts the first, whose body is then ignored; only the second result
    reaches the page. *)
Example stale_response_ignored :
  let late :=
    Metrics.Body 0
      (Parsed (VObj [("ok"%string, VBool true);
                     ("counts"%string,
                      VObj [("orders"%string, VNum (Num.of_Z 7))])])) in
  let run :=
    Metrics.run (browser true) (Metrics.initial Sample.page)
      [Metrics.Call; Metrics.Responds 0 true; Metrics.Call; late;
       Metrics.Responds 1 true; Metrics.Body 1 (Parsed Sample.metrics_body)] in
  snd run = [(1, Sample.counts)] /\
  Metrics.aborted (fst run) = [true; false] /\
  Obs.texts (Metrics.dom (fst run)) = ["42"; "1,234.50"]%string.
Proof. cbv zeta. repeat split; reflexivity. Qed.

(** C2 (as amended): [fetchMetricsOnce] resolves with [data.counts]
    exactly when the body parses and [res.ok], [data.ok] and
    [data.counts] are all truthy.  Otherwise it fails: with the parser's
    error when the body does not parse, whatever the status; with a
    TypeError when the status is a success and the body is [null]; else
    with an [Error] whose message is [data.error] when that is truthy - a
    string as it is, another value converted to a string - and 'Failed to
    fetch metrics.' when it is not; a truthy [data.error] that cannot be
    converted makes the failure the conversion's TypeError. *)
Theorem C2_fetchMetricsOnce_outcome :
  forall (res_ok : bool) (body : Json),
    let outcome :=
      Dashboard.fetchMetricsOnce_settled
        (Fulfilled {| ok := res_ok; json := body |}) in
    let accepts (data : JsVal) : bool :=
      res_ok && Js.ToBoolean (Js.own_property data "ok")
      && Js.ToBoolean (Js.own_property data "counts") in
    (forall e : JsError, body = Malformed e -> outcome = Throw e) /\
    (forall data : JsVal,
        body = Parsed data ->
        let error := Js.get_opt data "error" in
        (accepts data = true ->
         outcome = Normal (Js.own_property data "counts")) /\
        (res_ok = true -> Obs.is_null data = true ->
         outcome = Throw (Js.TypeError
                            ("Cannot read properties of " ++ Js.ToString data
                             ++ " (reading 'ok')"))) /\
        (accepts data = false ->
         res_ok = false \/ Obs.is_null data = false ->
         (Js.ToBoolean error = false ->
          outcome = Throw {| name := "Error";
                             message := "Failed to fetch metrics." |}) /\
         (Js.ToBoolean error = true -> Js.convertible error = true ->
          outcome = Throw {| name := "Error";
                             message := Js.ToString error |}) /\
         (Js.ToBoolean error = true -> Js.convertible error = false ->
          outcome = Throw Js.cannot_convert) /\
         (forall s : string,
             error = VStr s -> s <> ""%string ->
             outcome = Throw {| name := "Error"; message := s |}))) /\
    ((exists c, outcome = Normal c) <->
     exists data, body = Parsed data /\ accepts data = true).
Proof.
  intros res_ok body outcome accepts.
  assert (Hnull : forall data, Obs.is_null data = true ->
                    Js.ToBoolean (Js.own_property data "ok") = false)
    by (intros [ | | | | | | ]; intros H; try discriminate H; reflexivity).
  assert (Hcases : forall data,
             body = Parsed data ->
             res_ok = false \/ Obs.is_null data = false ->
             (accepts data = true /\
              outcome = Normal (Js.own_property data "counts")) \/
             (accepts data = false /\
              outcome = Throw (Dashboard.metrics_error data))).
  { intros data Hb Hdata.
    unfold outcome, accepts, Dashboard.fetchMetricsOnce_settled,
      Dashboard.fetchMetricsOnce_check. rewrite Hb. cbn [json ok].
    destruct res_ok; cbn [negb andb]; [|now right].
    destruct Hdata as [Hd|Hd]; [discriminate|].
    destruct data; try discriminate Hd; cbn [Js.get];
      (destruct (Js.ToBoolean (Js.own_property _ "ok")); cbn [negb andb];
       [|now right]);
      (destruct (Js.ToBoolean (Js.own_property _ "counts")); cbn [negb];
       [now left|now right]). }
  split; [|split].
  - intros e ->. reflexivity.
  - intros data Hb error. split; [|split].
    + intros Ha.
      assert (Hd : Obs.is_null data = false).
      { destruct (Obs.is_null data) eqn:E; [|reflexivity].
        unfold accepts in Ha. rewrite (Hnull data E) in Ha.
        now destruct res_ok. }
      destruct (Hcases data Hb (or_intror Hd)) as [[_ Ho]|[Hf _]];
        [exact Ho | congruence].
    + intros -> Hd. unfold outcome. rewrite Hb.
      destruct data; try discriminate Hd; reflexivity.
    + intros Ha Hdata.
      destruct (Hcases data Hb Hdata) as [[Ht _]|[_ Ho]]; [congruence|].
      rewrite Ho. unfold Dashboard.metrics_error, Js.Error, Js.or.
      fold error. repeat split.
      * intros ->. reflexivity.
      * intros Ht Hc. rewrite Ht, Hc.
        destruct error; try reflexivity; discriminate Ht.
      * intros Ht Hc. now rewrite Ht, Hc.
      * intros s0 -> Hs. cbn [Js.ToBoolean].
        destruct (String.eqb_spec s0 ""); [contradiction|reflexivity].
  - split.
    + intros [c Hc]. destruct body as [data|e].
      * exists data. split; [reflexivity|].
        destruct (Obs.is_null data) eqn:Hd.
        -- exfalso. unfold outcome in Hc. destruct res_ok.
           ++ destruct data; try discriminate Hd; discriminate Hc.
           ++ discriminate Hc.
        -- destruct (Hcases data eq_refl (or_intror Hd)) as [[Ht _]|[_ Ho]];
             [exact Ht | congruence].
      * discriminate Hc.
    + intros (data & Hb & Ha).
      exists (Js.own_property data "counts").
      assert (Hd : Obs.is_null data = false).
      { destruct (Obs.is_null data) eqn:E; [|reflexivity].
        unfold accepts in Ha. rewrite (Hnull data E) in Ha.
        now destruct res_ok. }
      destruct (Hcases data Hb (or_intror Hd)) as [[_ Ho]|[Hf _]];
        [exact Ho | congruence].
Qed.

Lemma C2_witness :
  Dashboard.fetchMetricsOnce_settled
    (Fulfilled {| ok := true; json := Parsed Sample.metrics_body |})
  = Normal Sample.counts.
Proof.
  exact (proj1 (proj1 (proj2 (C2_fetchMetricsOnce_outcome
                                true (Parsed Sample.metrics_body)))
                  Sample.metrics_body eq_refl) eq_refl).
Defined.

(** C2, as stated, fails: a body whose [error] field is present but empty
    gets the default message; a body whose [counts] field is present but
    falsy is rejected; and a body that does not parse fails with the
    parser's message, which is neither the payload's nor the default
    one. *)
Lemma C2_counterexample :
  let empty_error := [("ok"%string, VBool false); ("error"%string, VStr "")] in
  let zero_counts := [("ok"%string, VBool true); ("counts"%string, VNum Num.zero)] in
  (In ("error"%string, VStr "") empty_error /\
   Dashboard.fetchMetricsOnce_settled
     (Fulfilled {| ok := true; json := Parsed (VObj empty_error) |})
   = Throw {| name := "Error"; message := "Failed to fetch metrics." |} /\
   "Failed to fetch metrics."%string <> Js.ToString (VStr "")) /\
  (In ("counts"%string, VNum Num.zero) zero_counts /\
   Js.ToBoolean (Js.own_property (VObj zero_counts) "ok") = true /\
   Dashboard.fetchMetricsOnce_settled
     (Fulfilled {| ok := true; json := Parsed (VObj zero_counts) |})
   = Throw {| name := "Error"; message := "Failed to fetch metrics." |}) /\
  (Dashboard.fetchMetricsOnce_settled
     (Fulfilled {| ok := false; json := Malformed Sample.syntax_error |})
   = Throw Sample.syntax_error /\
   message Sample.syntax_error <> "Failed to fetch metrics."%string).
Proof.
  cbv zeta. repeat split; try reflexivity.
  - right. left. reflexivity.
  - discriminate.
  - right. left. reflexivity.
  - discriminate.
Qed.

(** A [null] body under a success status is not covered by C2: reading
    [data.ok] throws a TypeError before any message is chosen. *)
Lemma null_body_TypeError :
  Dashboard.fetchMetricsOnce_settled
    (Fulfilled {| ok := true; json := Parsed VNull |})
  = Throw (Js.TypeError "Cannot read properties of null (reading 'ok')").
Proof. reflexivity. Qed.

(** C3 (as amended): after a successful metrics fetch whose values can be
    converted, a KPI element whose [data-key] is a key of the counts
    shows the value formatted under the element's format: under reduced
    motion at once - [countUp] does nothing but write that text, and no
    frame callback is queued - and otherwise at the end of the animation
    (on frames with finite timestamps of which one reaches the full
    duration), provided the number of the value is neither NaN nor -0,
    as is the case of every value that is a number. *)
Theorem C3_final_text :
  forall (h : Host) (f : Settled) (counts : JsVal) (d : Dom)
         (i : nat) (el : Kpi),
    Dashboard.fetchMetricsOnce_settled f = Normal counts ->
    nth_error (kpis d) i = Some el ->
    Js.has_own counts (data_key el) = true ->
    Obs.values_convert counts d = true ->
    let value := Obs.value_for counts el in
    let shown := Dashboard.formatValue h value (Obs.format_for el) in
    (reduced_motion h = true ->
     Obs.text_of (Dashboard.applyMetrics h counts d) i = Some shown /\
     frame_queue (Dashboard.applyMetrics h counts d) = frame_queue d /\
     forall (el' : nat) (endValue opts : JsVal) (d0 : Dom),
       Dashboard.countUp h el' endValue opts d0
       = DomOps.set_textContent el'
           (Dashboard.formatValue h endValue
              (Js.or (Js.get_opt opts "format") (VStr "int"))) d0) /\
    (reduced_motion h = false ->
     Hosts.regular value ->
     Math_pow3 h Num.zero = Num.zero ->
     (forall k, Num.is_finite (performance_now h k) = true) ->
     Obs.ticks_for i d = [] ->
     forall nows : list number,
       Forall (fun now => Num.is_finite now = true) nows ->
       Exists (fun now =>
                 Num.ltb (Obs.fraction (performance_now h (clock_reads d + i)) now)
                         Num.one = false) nows ->
       let d' := Dashboard.frames h nows (Dashboard.applyMetrics h counts d) in
       Obs.text_of d' i = Some shown /\ Obs.ticks_for i d' = []) /\
    (forall x : number,
        Js.own_property counts (data_key el) = VNum x ->
        Num.is_double x = true -> Hosts.regular value).
Proof.
  intros h f counts d i el Hfetch Hel _ _ value shown.
  pose proof (AnimationFacts.settled_truthy f counts Hfetch) as Htruthy.
  assert (Happly : Dashboard.applyMetrics h counts d
                   = fold_left (Dashboard.applyMetrics_each h counts)
                       (seq 0 (List.length (kpis d))) d)
    by (unfold Dashboard.applyMetrics; now rewrite Htruthy).
  assert (Hi : (i < List.length (kpis d))%nat)
    by (apply nth_error_Some; congruence).
  split; [|split].
  - intros Hr.
    destruct (ApplyAll.reduced_upto h counts d (List.length (kpis d)) Hr
                (Nat.le_refl _)) as (_ & Hq & Ht).
    rewrite Happly. split; [|split; [exact Hq|]].
    + rewrite (Ht i el Hel).
      now replace (i <? List.length (kpis d))%nat with true
        by (symmetry; now apply Nat.ltb_lt).
    + intros el' endValue opts d0.
      unfold Dashboard.countUp, Dashboard.prefersReduced. now rewrite Hr.
  - intros Hr (Hdbl & Hnan & Hnz) Hpow Hclock Hidle nows Hfin Hreach d'.
    destruct (ApplyAll.animated_upto h counts d (List.length (kpis d)) Hr
                (Nat.le_refl _)) as (Ha & _ & _ & Hq).
    specialize (Hq i el Hel). rewrite <- Happly in Hq, Ha.
    rewrite Hidle in Hq. cbn [app] in Hq.
    replace (i <? List.length (kpis d))%nat with true in Hq
      by (symmetry; now apply Nat.ltb_lt).
    unfold Obs.first_tick in Hq.
    destruct (AnimationFacts.frames_complete h i (Obs.format_for el)
                (performance_now h (clock_reads d + i))
                (Hosts.target value) nows
                Hpow (Hclock _) Hdbl Hnz Hfin Hreach
                (Dashboard.applyMetrics h counts d) Hq)
      as [Ht Hq'].
    + now rewrite (ApplyAll.attrs_length _ _ Ha).
    + split; [|exact Hq'].
      unfold d', shown. rewrite Ht. f_equal.
      now apply EndFacts.formatValue_target.
  - intros x Hx Hdbl. unfold value, Obs.value_for. rewrite Hx.
    destruct (AnimationFacts.number_or_zero x Hdbl) as (Hn & Hnz & _).
    cbv zeta in Hn, Hnz. unfold Hosts.regular, Hosts.target.
    cbn [Js.coalesce]. split; [exact Hn|]. split; [|exact Hnz].
    unfold Js.or. cbn [Js.ToBoolean].
    destruct x as [s|s| |s m e]; reflexivity.
Qed.

Lemma C3_witness :
  Obs.text_of (Dashboard.applyMetrics (browser true) Sample.counts Sample.page) 1
  = Some "1,234.50"%string /\
  Obs.text_of
    (Dashboard.frames (browser false)
       [Num.of_Z 1016; Num.of_Z 1400; Num.of_Z 1760]
       (Dashboard.applyMetrics (browser false) Sample.counts Sample.page)) 1
  = Some "1,234.50"%string.
Proof.
  pose proof (C3_final_text (browser true)
                (Fulfilled {| ok := true; json := Parsed Sample.metrics_body |})
                Sample.counts Sample.page 1 Sample.revenue_card
                eq_refl eq_refl eq_refl eq_refl) as Hreduced.
  pose proof (C3_final_text (browser false)
                (Fulfilled {| ok := true; json := Parsed Sample.metrics_body |})
                Sample.counts Sample.page 1 Sample.revenue_card
                eq_refl eq_refl eq_refl eq_refl) as Hanimated.
  cbv zeta in Hreduced, Hanimated. split.
  - exact (proj1 (proj1 Hreduced eq_refl)).
  - refine (proj1 (proj1 (proj2 Hanimated) eq_refl _ eq_refl _ eq_refl
                     [Num.of_Z 1016; Num.of_Z 1400; Num.of_Z 1760] _ _)).
    + repeat split; discriminate.
    + intros k. reflexivity.
    + repeat constructor.
    + apply Exists_cons_tl, Exists_cons_tl, Exists_cons_hd. reflexivity.
Defined.

(** C3, as stated, fails: a key of the counts bound to a string that is
    not a number is a recognized key, yet the animation ends on "0" -
    every frame formats NaN, which [formatValue] replaces by 0 - while
    the value formatted, which is what reduced motion shows, is "NaN". *)
Lemma C3_counterexample :
  let counts := VObj [("orders"%string, VStr "abc")] in
  let body := VObj [("ok"%string, VBool true); ("counts"%string, counts)] in
  Dashboard.fetchMetricsOnce_settled
    (Fulfilled {| ok := true; json := Parsed body |}) = Normal counts /\
  Js.has_own counts (data_key Sample.orders_card) = true /\
  Dashboard.formatValue (browser false) (VStr "abc") (VStr "int")
  = "NaN"%string /\
  Obs.text_of (Dashboard.applyMetrics (browser true) counts Sample.page) 0
  = Some "NaN"%string /\
  (let d' :=
     Dashboard.frames (browser false)
       [Num.of_Z 1016; Num.of_Z 1400; Num.of_Z 1760]
       (Dashboard.applyMetrics (browser false) counts Sample.page) in
   Obs.text_of d' 0 = Some "0"%string /\ Obs.ticks_for 0 d' = []).
Proof.
  cbv zeta. repeat split; vm_compute; reflexivity.
Qed.



(** C5: on a successful details fetch the percentage handed to the chart
    renderer is [total_paid / total_debt * 100] rounded to the nearest
    integer when [total_debt > 0], and 0 otherwise, whatever [total_paid]
    is.  Rounded means: when the product is finite the percentage is the
    integer [z] with [z <= product + 1/2 < z + 1], so a tie goes
    upwards; a product that is not finite is kept.  A debt of 1000 with
    250 paid gives 25, 1 of 3 gives 33, 2 of 3 gives 67, 3 of 8 gives 38
    and -3 of 8 gives -37; a debt of 0 gives 0. *)
Theorem C5_percentage :
  (forall total_debt total_paid : JsVal,
      let product :=
        Num.mul (Num.div (Js.Number total_paid) (Js.Number total_debt))
                (Num.of_Z 100) in
      let percentage := Dashboard.percentage_of total_debt total_paid in
      Js.convertible total_debt = true -> Js.convertible total_paid = true ->
      (Num.ltb Num.zero (Js.Number total_debt) = false ->
       percentage = Num.zero) /\
      (Num.ltb Num.zero (Js.Number total_debt) = true ->
       (Num.is_finite product = true ->
        exists z : Z,
          Num.is_finite percentage = true /\
          (Num.to_Q percentage == inject_Z z)%Q /\
          (inject_Z z <= Num.to_Q product + (1 # 2) < inject_Z z + 1)%Q) /\
       (Num.is_finite product = false -> percentage = product))) /\
  map (fun amounts : Z * Z =>
         Dashboard.percentage_of (VNum (Num.of_Z (fst amounts)))
                                 (VNum (Num.of_Z (snd amounts))))
      [(1000, 250); (3, 1); (3, 2); (8, 3); (8, -3); (200, 1)]%Z
  = map Num.of_Z [25; 33; 67; 38; -37; 1]%Z /\
  (forall total_paid : JsVal,
      Dashboard.percentage_of (VNum Num.zero) total_paid = Num.zero) /\
  (forall (h : Host) (data : JsVal) (d : Dom),
      Obs.is_null data = false -> Obs.amounts_convert data = true ->
      chart_section d <> None ->
      In (RenderCharts data
            (Dashboard.percentage_of (Js.own_property data "total_debt")
                                     (Js.own_property data "total_paid")))
         (frame_queue
            (snd (Dashboard.loadDetails h
                    (Fulfilled {| ok := true; json := Parsed data |}) d)))).
Proof.
  split; [|split; [reflexivity|split; [reflexivity|]]].
  - intros total_debt total_paid product percentage _ _.
    unfold percentage, Dashboard.percentage_of, Js.gt_number.
    fold product. split.
    + now intros ->.
    + intros ->. split.
      * intros Hfin. apply MathRoundFacts.Math_round_value; [exact Hfin|].
        destruct product as [s|s| |s m e] eqn:E; try exact I.
        exact (MathRoundFacts.mul_mantissa _ _ s m e E).
      * intros Hinf. now destruct product.
  - intros h data d Hd _ Hc.
    pose proof (PercentFacts.render_queues_charts h data d Hd Hc) as Hin.
    unfold Dashboard.loadDetails, catch, Dashboard.loadDetails_then, bind,
      lift.
    cbn [Dashboard.loadDetails_response ok json negb].
    destruct (Dashboard.loadDetails_render h data d) as [[[]|e] d1];
      cbn [snd] in *; [exact Hin|].
    now rewrite (proj1 (DetailsFacts.loadDetails_catch_queue e d1)).
Qed.

Lemma C5_witness :
  (exists z : Z,
      Num.is_finite (Dashboard.percentage_of (VNum (Num.of_Z 3))
                                             (VNum (Num.of_Z 2))) = true /\
      (Num.to_Q (Dashboard.percentage_of (VNum (Num.of_Z 3))
                                         (VNum (Num.of_Z 2)))
       == inject_Z z)%Q /\
      (inject_Z z
       <= Num.to_Q (Num.mul (Num.div (Num.of_Z 2) (Num.of_Z 3))
                            (Num.of_Z 100)) + (1 # 2)
       < inject_Z z + 1)%Q) /\
  In (RenderCharts (Sample.details_with (VArr [])) (Num.of_Z 25))
     (frame_queue
        (snd (Dashboard.loadDetails (browser false)
                (Fulfilled {| ok := true;
                              json := Parsed (Sample.details_with (VArr [])) |})
                Sample.page))).
Proof.
  split.
  - refine (proj1 (proj2 (proj1 C5_percentage (VNum (Num.of_Z 3))
                            (VNum (Num.of_Z 2)) _ _) _) _);
      reflexivity.
  - apply (proj2 (proj2 (proj2 C5_percentage)) (browser false)
             (Sample.details_with (VArr [])) Sample.page).
    + reflexivity.
    + reflexivity.
    + discriminate.
Defined.

(** C6 (as amended): for a value whose number is finite, [formatValue]
    shows exactly 2 fraction digits under 'money', at most 1 under
    'percent', and under any other format the nearest integer (ties
    upwards) with no fraction digit - with its digits in full when that
    integer is below 2^53; in an en-US browser 1234.5 is shown as
    "1,234.50" as money and as "1,235" as an integer.  A value whose
    number is not finite is shown as the locale's infinity symbol,
    signed, or as its NaN symbol, whatever the format. *)
Theorem C6_fraction_digits :
  forall (h : Host) (value : JsVal),
    let n := Js.Number (Js.or value (VNum Num.zero)) in
    Num.is_double n = true ->
    (Num.is_finite n = true ->
     (exists s i f,
         Dashboard.formatValue h value (VStr "money")
         = Intl.format (locale h) (Intl.PDecimal s i f) /\
         String.length f = 2) /\
     (exists s i f,
         Dashboard.formatValue h value (VStr "percent")
         = Intl.format (locale h) (Intl.PDecimal s i f) /\
         String.length f <= 1) /\
     (forall format : JsVal,
         Js.is_string format "money" = false ->
         Js.is_string format "percent" = false ->
         (exists i,
             Dashboard.formatValue h value format
             = Intl.format (locale h) (Intl.PDecimal (Num.sign_bit n) i "")) /\
         ((Z.abs (Num.nearest_integer n) < 2 ^ 53)%Z ->
          Dashboard.formatValue h value format
          = Intl.format (locale h)
              (Intl.PDecimal (Num.sign_bit n)
                 (Text.dec (Z.abs (Num.nearest_integer n))) "")))) /\
    (Num.is_finite n = false ->
     forall format : JsVal,
       Dashboard.formatValue h value format
       = Intl.format (locale h)
           (match n with
            | S754_infinity s => Intl.PInfinity s
            | _ => Intl.PNaN
            end)) /\
    Dashboard.formatValue (browser false)
      (VNum (Num.of_ratio false 12345 10)) (VStr "money") = "1,234.50"%string /\
    Dashboard.formatValue (browser false)
      (VNum (Num.of_ratio false 12345 10)) (VStr "int") = "1,235"%string.
Proof.
  intros h value n Hdbl.
  split; [|split; [|split; reflexivity]].
  - intros Hfin. split; [|split].
    + destruct (FormatFacts.to_parts_finite n (Some 2) (Some 2) Hfin)
        as (s & i & f & Hp & _ & Hlen).
      exists s, i, f. split; [|now apply Hlen].
      unfold Dashboard.formatValue. fold n.
      change (Js.is_string (VStr "money") "money") with true. cbv iota.
      unfold Intl.toLocaleString. now rewrite Hp.
    + destruct (FormatFacts.to_parts_finite n None (Some 1) Hfin)
        as (s & i & f & Hp & Hlen & _).
      exists s, i, f. split; [|exact Hlen].
      unfold Dashboard.formatValue. fold n.
      change (Js.is_string (VStr "percent") "money") with false.
      change (Js.is_string (VStr "percent") "percent") with true. cbv iota.
      unfold Intl.toLocaleString. now rewrite Hp.
    + intros format Hm Hp.
      assert (Hshown : Dashboard.formatValue h value format
                       = Intl.format (locale h)
                           (Intl.PDecimal (Num.sign_bit n)
                              (Text.dec (Z.abs (Num.nearest_integer n))) "")).
      { unfold Dashboard.formatValue. fold n.
        rewrite Hm, Hp. unfold Intl.toLocaleString.
        now rewrite RoundFacts.Math_round_parts. }
      split; [eexists; exact Hshown | intros _; exact Hshown].
  - intros Hfin format. unfold Dashboard.formatValue. fold n.
    destruct n as [s|s| |s m e]; try discriminate Hfin;
      destruct (Js.is_string format "money");
      try destruct (Js.is_string format "percent"); reflexivity.
Qed.

Lemma C6_witness :
  exists s i f,
    Dashboard.formatValue (browser false) (VStr "1234.5") (VStr "money")
    = Intl.format Intl.en_US (Intl.PDecimal s i f) /\
    String.length f = 2.
Proof.
  apply (C6_fraction_digits (browser false) (VStr "1234.5")); reflexivity.
Defined.

(** C6, as stated, fails: 1e999 is a numeric input, its number is
    +Infinity, and as money it is shown as the infinity sign alone - no
    decimal separator and no fraction digit. *)
Lemma C6_counterexample :
  let shown :=
    Dashboard.formatValue (browser false) (VStr "1e999") (VStr "money") in
  Js.Number (Js.or (VStr "1e999") (VNum Num.zero)) = S754_infinity false /\
  shown = Text.byte_string [226; 136; 158] /\
  Markup.occurs "." shown = false /\
  Dashboard.formatValue (browser false) (VNum (S754_infinity true))
    (VStr "money")
  = ("-" ++ Text.byte_string [226; 136; 158])%string.
Proof.
  cbv zeta. repeat split; vm_compute; reflexivity.
Qed.

(** C7 (as amended): an end value or a formatted value that is falsy -
    missing ([undefined], [null]), [NaN], a zero, the empty string or
    [false] - is replaced by 0, in [formatValue] and in [countUp] alike;
    and for every missing or number-typed value the value used is a
    number other than NaN. *)
Theorem C7_zero_fallback :
  forall (h : Host) (value : JsVal),
    (Js.ToBoolean value = false ->
     Js.Number (Js.or value (VNum Num.zero)) = Num.zero /\
     (forall format,
         Dashboard.formatValue h value format
         = Dashboard.formatValue h (VNum Num.zero) format) /\
     (forall el opts d,
         Dashboard.countUp h el value opts d
         = Dashboard.countUp h el (VNum Num.zero) opts d)) /\
    (Obs.is_null value = true \/ (exists x, value = VNum x) ->
     Num.is_nan (Js.Number (Js.or value (VNum Num.zero))) = false).
Proof.
  intros h value. split.
  - intros Hf.
    assert (Hor : Js.or value (VNum Num.zero) = VNum Num.zero)
      by (unfold Js.or; now rewrite Hf).
    split; [now rewrite Hor|]. split.
    + intros format. unfold Dashboard.formatValue. now rewrite Hor.
    + intros el opts d. unfold Dashboard.countUp.
      destruct (Dashboard.prefersReduced h).
      * unfold Dashboard.formatValue. now rewrite Hor.
      * now rewrite Hor.
  - intros [Hn|[x ->]].
    + destruct value; try discriminate Hn; reflexivity.
    + unfold Js.or. cbn [Js.ToBoolean].
      destruct x as [s|s| |s m e]; reflexivity.
Qed.

Lemma C7_witness :
  Js.Number (Js.or VUndefined (VNum Num.zero)) = Num.zero /\
  Num.is_nan (Js.Number (Js.or (VNum Num.nan) (VNum Num.zero))) = false.
Proof.
  split.
  - apply (C7_zero_fallback (browser false) VUndefined). reflexivity.
  - apply (C7_zero_fallback (browser false) (VNum Num.nan)).
    right. now exists Num.nan.
Defined.

(** C7, as stated, fails: a non-numeric string is truthy, so it is not
    replaced by 0; [Number] turns it into NaN, which is what is shown and
    what the animation aims at. *)
Lemma C7_counterexample :
  Js.Number (Js.or (VStr "abc") (VNum Num.zero)) = Num.nan /\
  Js.Number (Js.or (VStr "abc") (VNum Num.zero)) <> Num.zero /\
  Dashboard.formatValue (browser true) (VStr "abc") (VStr "int") = "NaN"%string /\
  Dashboard.formatValue (browser true) (VNum Num.zero) (VStr "int") = "0"%string /\
  frame_queue
    (Dashboard.countUp (browser false) 0 (VStr "abc") VUndefined Sample.page)
  = [Tick 0 (VStr "int") (VNum (Num.of_Z 750))
       (performance_now (browser false) 0) Num.zero Num.nan].
Proof.
  repeat split; try reflexivity. discriminate.
Qed.

(** C8 (as amended): whenever the chain of [loadDetails] throws - whatever
    the stage - on a page that has both regions, the [catch] handler logs
    the error and replaces the chart region with the paragraph 'Chart
    load failed: ' and the activity region with the paragraph 'Activity
    load failed: ', each followed by the error's message text, and draws
    no chart; when the failure is a rejected fetch, a status that is not
    a success (such as 500), a body that does not parse or a [null] body,
    no chart-render callback is scheduled either. *)
Theorem C8_details_failure :
  forall (h : Host) (f : Settled) (d : Dom),
    chart_section d <> None -> activity_section d <> None ->
    let chart_says (msg : string) :=
      (Text.html "<p class=~text-danger~>Chart load failed: " ++ msg
       ++ "</p>")%string in
    let activity_says (msg : string) :=
      (Text.html "<p class=~text-danger~>Activity load failed: " ++ msg
       ++ "</p>")%string in
    (forall (e : JsError) (d1 : Dom),
        Dashboard.loadDetails_then h f d = (Throw e, d1) ->
        exists d',
          Dashboard.loadDetails h f d = (Normal tt, d') /\
          chart_section d' = Some (chart_says (message e)) /\
          activity_section d' = Some (activity_says (message e)) /\
          activity_list d' = None /\
          console d' = (console d ++ [("Dashboard Error:"%string, e)])%list /\
          charts d' = charts d /\
          (Obs.fails_early f = true -> frame_queue d' = frame_queue d)) /\
    (Obs.fails_early f = true ->
     exists e, Dashboard.loadDetails_then h f d = (Throw e, d)) /\
    (forall body, Obs.fails_early (Fulfilled {| ok := false; json := body |})
                  = true).
Proof.
  intros h f d Hc Ha chart_says activity_says. split; [|split].
  - intros e d1 Hthen.
    pose proof (FailureFacts.loadDetails_then_preserves h f d Hc Ha) as Hp.
    cbv zeta in Hp. rewrite Hthen in Hp. cbn [snd] in Hp.
    destruct Hp as (Hc1 & Ha1 & Hlog1 & Hcharts1 & _).
    destruct (DetailsFacts.loadDetails_catch_spec e d1 Hc1 Ha1)
      as (d' & Hrun & Hch & Hact & Hlist & Hlog & Hq & Hcharts & _).
    exists d'. unfold Dashboard.loadDetails, catch. rewrite Hthen.
    split; [exact Hrun|]. split; [exact Hch|]. split; [exact Hact|].
    split; [exact Hlist|]. split; [now rewrite Hlog, Hlog1|].
    split; [now rewrite Hcharts, Hcharts1|].
    intros Hf. destruct (FailureFacts.fails_early_throws h f d Hf) as [e' He'].
    rewrite He' in Hthen. inversion Hthen; subst. exact Hq.
  - apply FailureFacts.fails_early_throws.
  - reflexivity.
Qed.

Lemma C8_witness :
  exists d',
    Dashboard.loadDetails (browser false)
      (Fulfilled {| ok := false;
                    json := Parsed (VObj [("error"%string, VStr "Server down")]) |})
      Sample.page = (Normal tt, d') /\
    chart_section d'
    = Some (Text.html
              "<p class=~text-danger~>Chart load failed: Server down</p>") /\
    frame_queue d' = [].
Proof.
  destruct (proj1 (C8_details_failure (browser false)
              (Fulfilled {| ok := false;
                            json := Parsed (VObj [("error"%string,
                                                   VStr "Server down")]) |})
              Sample.page ltac:(discriminate) ltac:(discriminate))
              (Js.Error (VStr "Server down")) Sample.page eq_refl)
    as (d' & Hrun & Hch & _ & _ & _ & _ & Hq).
  exists d'. split; [exact Hrun|]. split; [exact Hch|].
  apply Hq. reflexivity.
Defined.

(** C8, as stated, fails: an error thrown while the activity list is
    built (here on a [null] activity record) is logged and shown in both
    regions, yet the chart-render callback was queued before it and runs
    at the next frame, making its three [new Chart] calls. *)
Lemma C8_counterexample :
  let settled :=
    Fulfilled {| ok := true;
                 json := Parsed (Sample.details_with (VArr [VNull])) |} in
  let failure :=
    Js.TypeError "Cannot read properties of null (reading 'color')" in
  let d' := snd (Dashboard.loadDetails (browser false) settled Sample.page) in
  fst (Dashboard.loadDetails_then (browser false) settled Sample.page)
  = Throw failure /\
  console d' = [("Dashboard Error:"%string, failure)] /\
  chart_section d'
  = Some (Text.html "<p class=~text-danger~>Chart load failed: "
          ++ "Cannot read properties of null (reading 'color')</p>")%string /\
  activity_section d'
  = Some (Text.html "<p class=~text-danger~>Activity load failed: "
          ++ "Cannot read properties of null (reading 'color')</p>")%string /\
  Obs.renders d'
  = [RenderCharts (Sample.details_with (VArr [VNull])) (Num.of_Z 25)] /\
  map canvas (charts (Dashboard.frame (browser false) (Num.of_Z 1016) d'))
  = ["ordersChart"; "topClientsChart"; "debtChart"]%string.
Proof.
  cbv zeta. repeat split; reflexivity.
Qed.

(** C9: on a successful details fetch (a body that is not [null] and
    whose amounts can be printed, on a page with both regions), a
    non-empty [recent_activities] array of records yields the list
    markup with one [li] per record, in the order of the array: the icon
    in a [span] and the text in a [div], both under the record's colour
    class, followed by the time as the host prints it; an empty or absent
    [recent_activities] yields the single "No recent activities"
    placeholder and no list item. *)
Theorem C9_activity_list :
  forall (h : Host) (data : JsVal) (d : Dom),
    Obs.is_null data = false -> Obs.amounts_convert data = true ->
    chart_section d <> None -> activity_section d <> None ->
    let recent := Js.own_property data "recent_activities" in
    let result :=
      Dashboard.loadDetails h
        (Fulfilled {| ok := true; json := Parsed data |}) d in
    let item (act : JsVal) : Li :=
      let color := Js.ToString (Js.own_property act "color") in
      let icon := Js.ToString (Js.own_property act "icon") in
      let text := Js.ToString (Js.own_property act "text") in
      let time := Date_toLocaleString h (Js.own_property act "time") in
      {| className :=
           "list-group-item d-flex justify-content-between align-items-start flex-wrap px-0 py-2";
         innerHTML :=
           Text.lines
             [ "";
               Text.html "              <div class=~d-flex align-items-start~>";
               Text.html "                <span class=~fs-5 me-2 " ++ color
                 ++ Text.html "~>" ++ icon ++ "</span>";
               Text.html "                <div><div class=~fw-medium " ++ color
                 ++ Text.html "~>" ++ text ++ "</div></div>";
               Text.html "              </div>";
               Text.html "              <small class=~text-muted ms-auto mt-1~>"
                 ++ time ++ "</small>";
               "            " ]%string |} in
    (forall items : list JsVal,
        recent = VArr items -> items <> [] ->
        (Z.of_nat (List.length items) < 2 ^ 32)%Z ->
        Forall (fun act => Obs.activity_record act = true) items ->
        fst result = Normal tt /\
        (exists markup,
            activity_section (snd result) = Some markup /\
            Markup.declares "activityList" markup = true /\
            Markup.occurs "Recent Activities" markup = true) /\
        activity_list (snd result) = Some (map item items)) /\
    (recent = VArr [] \/ Obs.is_null recent = true ->
     fst result = Normal tt /\
     activity_section (snd result)
     = Some (Text.html
               "<p class=~text-muted text-center~>No recent activities</p>") /\
     activity_list (snd result) = None).
Proof.
  intros h data d Hd _ Hc Ha recent result item.
  assert (Hres : result = catch (Dashboard.loadDetails_render h data)
                                Dashboard.loadDetails_catch d) by reflexivity.
  pose proof (RenderSpec.loadDetails_render_spec h data d Hd Hc Ha) as Hspec.
  cbv zeta in Hspec. fold recent in Hspec.
  unfold catch in Hres. split.
  - intros items Hr Hne Hlen Hrec.
    assert (Hall : Forall (fun act => Obs.is_null act = false) items).
    { apply (Forall_impl _ (P := fun act => Obs.activity_record act = true));
        [|exact Hrec].
      intros act H. unfold Obs.activity_record in H.
      apply andb_prop in H. now destruct (Obs.is_null act). }
    destruct (RenderFacts.length_gt_zero items Hne Hlen) as [_ Hgt].
    rewrite Hr in Hspec. cbn [Js.ToBoolean andb] in Hspec.
    assert (Hg : Js.gt_number (Js.own_property (VArr items) "length") Num.zero
                 = true) by exact Hgt.
    rewrite Hg in Hspec. cbn [Dashboard.forEach_activity] in Hspec.
    edestruct (RenderFacts.append_activities_spec h items Hall)
      as (d' & Hrun & Hl & Hs); [|rewrite Hrun in Hspec].
    + cbn [activity_list]. reflexivity.
    + rewrite Hspec in Hres. rewrite Hres. cbn [fst snd].
      destruct Hs as (_ & _ & Hact & _).
      split; [reflexivity|]. split.
      * exists Dashboard.activity_markup. rewrite Hact.
        split; [reflexivity|]. split; vm_compute; reflexivity.
      * rewrite Hl. f_equal.
  - intros Hr.
    assert (Hcond : Js.ToBoolean recent
                    && Js.gt_number (Js.own_property recent "length") Num.zero
                    = false).
    { destruct Hr as [->|Hr]; [reflexivity|].
      destruct recent; try discriminate Hr; reflexivity. }
    rewrite Hcond in Hspec. rewrite Hspec in Hres. rewrite Hres.
    repeat split.
Qed.

Lemma C9_witness :
  option_map (map innerHTML)
    (activity_list
       (snd (Dashboard.loadDetails (browser false)
               (Fulfilled
                  {| ok := true;
                     json := Parsed (Sample.details_with
                                       (VArr [Sample.payment])) |})
               Sample.page)))
  = Some [Text.lines
            [ "";
              Text.html "              <div class=~d-flex align-items-start~>";
              Text.html "                <span class=~fs-5 me-2 text-success~>$</span>";
              Text.html "                <div><div class=~fw-medium text-success~>Payment received</div></div>";
              Text.html "              </div>";
              Text.html "              <small class=~text-muted ms-auto mt-1~>Date(2024-03-01T10:00:00Z)</small>";
              "            " ]%string]
  /\
  activity_list
    (snd (Dashboard.loadDetails (browser false)
            (Fulfilled
               {| ok := true;
                  json := Parsed (Sample.details_with (VArr [])) |})
            Sample.page))
  = None.
Proof.
  split.
  - rewrite (proj2 (proj2 (proj1
              (C9_activity_list (browser false)
                 (Sample.details_with (VArr [Sample.payment]))
                 Sample.page eq_refl eq_refl ltac:(discriminate)
                 ltac:(discriminate))
              [Sample.payment] eq_refl ltac:(discriminate) eq_refl
              ltac:(repeat constructor)))).
    vm_compute. reflexivity.
  - refine (proj2 (proj2 (proj2
              (C9_activity_list (browser false)
                 (Sample.details_with (VArr [])) Sample.page _ _ _ _) _))).
    + reflexivity.
    + reflexivity.
    + discriminate.
    + discriminate.
    + left. reflexivity.
Defined.

(** C10: when the details response is not a success and its body does not
    parse as JSON, the parse failure is swallowed (the body counts as an
    empty object): the error raised carries the default message
    'Failed to fetch dashboard data.', not the parser's, and that is the
    message [loadDetails] logs and shows in both regions. *)
Theorem C10_unparsable_error_body_default_message :
  forall (h : Host) (parse_error : JsError) (d : Dom),
    chart_section d <> None -> activity_section d <> None ->
    let response := {| ok := false; json := Malformed parse_error |} in
    let default := Js.Error (VStr "Failed to fetch dashboard data.") in
    Dashboard.loadDetails_response response = Throw default /\
    message default = "Failed to fetch dashboard data."%string /\
    exists d',
      Dashboard.loadDetails h (Fulfilled response) d = (Normal tt, d') /\
      chart_section d'
      = Some (Dashboard.chart_error_markup "Failed to fetch dashboard data.") /\
      activity_section d'
      = Some (Dashboard.activity_error_markup "Failed to fetch dashboard data.") /\
      console d' = (console d ++ [("Dashboard Error:"%string, default)])%list.
Proof.
  intros h parse_error d Hc Ha response default.
  split; [reflexivity|]. split; [reflexivity|].
  destruct (DetailsFacts.loadDetails_catch_spec default d Hc Ha)
    as (d' & Hrun & Hch & Hact & _ & Hlog & _).
  exists d'. repeat split; try assumption.
Qed.

Lemma C10_witness :
  exists d',
    Dashboard.loadDetails (browser false)
      (Fulfilled {| ok := false; json := Malformed Sample.syntax_error |})
      Sample.page = (Normal tt, d') /\
    chart_section d'
    = Some (Dashboard.chart_error_markup "Failed to fetch dashboard data.").
Proof.
  destruct (C10_unparsable_error_body_default_message (browser false)
              Sample.syntax_error Sample.page)
    as (_ & _ & d' & Hrun & Hch & _).
  - discriminate.
  - discriminate.
  - exists d'. split; assumption.
Defined.

(* ===================================================================== *)
(** * Further properties of the code *)
(* ===================================================================== *)





(** X3: with animation on, [applyMetrics] (given truthy counts, whose
    values can be converted and of which the keys of the page are read
    as own properties) writes no text: it clears the layout classes of
    every KPI element, reads the clock once per element and queues one
    callback per element, in document order, each aiming from 0 at the
    number of the element's value; the regions, the console and the
    charts are left alone. *)
Theorem X3_applyMetrics_animated :
  forall (h : Host) (counts : JsVal) (d : Dom),
    reduced_motion h = false -> Js.ToBoolean counts = true ->
    Obs.keys_read_own counts d = true -> Obs.values_convert counts d = true ->
    let d' := Dashboard.applyMetrics h counts d in
    d' = {| kpis := map Effects.cleared (kpis d);
            chart_section := chart_section d;
            activity_section := activity_section d;
            activity_list := activity_list d; console := console d;
            frame_queue :=
              frame_queue d
              ++ Effects.ticks h counts 0 (clock_reads d) (kpis d);
            charts := charts d;
            clock_reads := clock_reads d + List.length (kpis d) |} /\
    Obs.texts d' = Obs.texts d /\
    List.length (frame_queue d')
    = List.length (frame_queue d) + List.length (kpis d) /\
    forall i el,
      nth_error (kpis d) i = Some el ->
      nth_error (frame_queue d') (List.length (frame_queue d) + i)
      = Some (Tick i (Obs.format_for el) (VNum (Num.of_Z 750))
                (performance_now h (clock_reads d + i)) Num.zero
                (Js.Number (Js.or (Obs.value_for counts el) (VNum Num.zero)))).
Proof.
  intros h counts d Hr Ht _ _ d'. unfold d'.
  rewrite (ApplyClosed.applyMetrics_closed h counts d Ht), Hr.
  split; [reflexivity|].
  assert (Hlen : forall els i c, List.length (Effects.ticks h counts i c els)
                                 = List.length els)
    by (induction els as [|e els IH]; intros i c; cbn; [reflexivity | now rewrite IH]).
  assert (Hnth : forall els s c i el,
             nth_error els i = Some el ->
             nth_error (Effects.ticks h counts s c els) i
             = Some (Tick (s + i) (Obs.format_for el) (VNum (Num.of_Z 750))
                       (performance_now h (c + i)) Num.zero
                       (Js.Number (Js.or (Obs.value_for counts el)
                                         (VNum Num.zero))))).
  { induction els as [|e els IH]; intros s c [|i] el H; cbn in H;
      try discriminate.
    - injection H as ->. cbn [Effects.ticks nth_error].
      now rewrite !Nat.add_0_r.
    - cbn [Effects.ticks nth_error]. rewrite (IH (S s) (S c) i el H).
      now rewrite !Nat.add_succ_r. }
  split; [|split].
  - unfold Obs.texts. cbn [kpis]. rewrite map_map. now apply map_ext.
  - cbn [frame_queue]. now rewrite length_app, Hlen.
  - intros i el Hel. cbn [frame_queue].
    rewrite nth_error_app2 by lia.
    replace (List.length (frame_queue d) + i - List.length (frame_queue d))
      with i by lia.
    now rewrite (Hnth _ 0 (clock_reads d) i el Hel).
Qed.

Lemma X3_witness :
  Obs.texts (Dashboard.applyMetrics (browser false) Sample.counts Sample.page)
  = ["--"; "--"]%string.
Proof.
  exact (proj1 (proj2 (X3_applyMetrics_animated (browser false) Sample.counts
                         Sample.page eq_refl eq_refl eq_refl eq_refl))).
Defined.

(** X4: an animation frame runs every pending callback once and leaves
    pending exactly the ticks whose fraction was still below 1, in their
    order: the queue never grows across a frame, a render callback never
    stays queued, and after several frames a tick is pending only if
    every one of them found its fraction below 1.  A frame changes no
    region, logs nothing and does not read the clock. *)
Theorem X4_frame_queue :
  forall (h : Host) (now : number) (nows : list number) (d : Dom),
    frame_queue (Dashboard.frame h now d)
    = filter (Effects.goes_on now) (frame_queue d) /\
    List.length (frame_queue (Dashboard.frame h now d))
    <= List.length (frame_queue d) /\
    Obs.renders (Dashboard.frame h now d) = [] /\
    frame_queue (Dashboard.frames h nows d)
    = filter (fun cb => forallb (fun now => Effects.goes_on now cb) nows)
             (frame_queue d) /\
    Effects.regions (Dashboard.frame h now d) = Effects.regions d /\
    clock_reads (Dashboard.frame h now d) = clock_reads d.
Proof.
  intros h now nows d.
  destruct (QueueFacts.frame_effect h now d) as (Hq & _ & Hr & Hc & _).
  cbv zeta in *. split; [exact Hq|]. split; [|split; [|split; [|split]]].
  - rewrite Hq. apply filter_length_le.
  - unfold Obs.renders. rewrite Hq. apply FramesFacts.no_render_goes_on.
  - apply FramesFacts.frames_queue.
  - exact Hr.
  - exact Hc.
Qed.




(** X7: [loadDetails] ends with an uncaught error exactly when the page
    lacks a region.  With both regions it always ends normally, the
    [catch] handler taking care of every failure.  Without the chart
    region or the activity region it always ends with a TypeError,
    whatever the response: the handler logs one error and then fails
    itself on the missing element; the activity region, if there is one,
    keeps what it showed, and the chart region, if there is one, shows
    the error. *)
Theorem X7_loadDetails_missing_region :
  forall (h : Host) (f : Settled) (d : Dom),
    let r := Dashboard.loadDetails h f d in
    (chart_section d <> None -> activity_section d <> None ->
     fst r = Normal tt) /\
    (chart_section d = None \/ activity_section d = None ->
     fst r = Throw DomOps.cannot_set /\
     activity_section (snd r) = activity_section d /\
     exists e,
       fst (Dashboard.loadDetails_then h f d) = Throw e /\
       console (snd r) = console d ++ [("Dashboard Error:"%string, e)] /\
       chart_section (snd r)
       = match chart_section d with
         | Some _ => Some (Dashboard.chart_error_markup (message e))
         | None => None
         end).
Proof.
  intros h f d r. split.
  - intros Hc Ha. unfold r, Dashboard.loadDetails, catch.
    pose proof (FailureFacts.loadDetails_then_preserves h f d Hc Ha) as Hp.
    cbv zeta in Hp.
    destruct (Dashboard.loadDetails_then h f d) as [[[]|e] d1]; [reflexivity|].
    cbn [snd] in Hp. destruct Hp as (Hc1 & Ha1 & _).
    destruct (DetailsFacts.loadDetails_catch_spec e d1 Hc1 Ha1) as (d' & -> & _).
    reflexivity.
  - intros H.
    destruct (DetailCases.then_missing h f d H) as ([e He] & Ha & Hc).
    destruct (DetailCases.loadDetails_queue h f d) as [_ Hl].
    cbv zeta in *. rewrite He in Hl.
    unfold r in *. unfold Dashboard.loadDetails, catch in *.
    destruct (Dashboard.loadDetails_then h f d) as [[[]|e1] d1];
      cbn [fst snd] in *; [discriminate He|]. injection He as ->.
    assert (H1 : chart_section d1 = None \/ activity_section d1 = None).
    { destruct H as [H|H]; [left; now apply Hc | right; now rewrite Ha]. }
    destruct (DetailCases.catch_missing e d1 H1) as (Hf & Ha' & Hc').
    cbv zeta in *. split; [exact Hf|]. split; [now rewrite Ha', Ha|].
    exists e. split; [reflexivity|]. split; [exact Hl|].
    rewrite Hc'. destruct (chart_section d1) eqn:E1, (chart_section d) eqn:E;
      try reflexivity.
    + discriminate (proj2 Hc eq_refl).
    + discriminate (proj1 Hc eq_refl).
Qed.

Lemma X7_witness :
  fst (Dashboard.loadDetails (browser false)
         (Fulfilled {| ok := true; json := Parsed (Sample.details_with (VArr [])) |})
         {| kpis := []; chart_section := None;
            activity_section := Some "Loading..."%string;
            activity_list := None; console := []; frame_queue := [];
            charts := []; clock_reads := 0 |})
  = Throw DomOps.cannot_set.
Proof.
  refine (proj1 (proj2 (X7_loadDetails_missing_region (browser false) _ _) _)).
  left. reflexivity.
Defined.

(** X8: which message a failed details request shows, on a page with both
    regions, in the paragraphs 'Chart load failed: ...' and 'Activity
    load failed: ...': a rejected fetch shows the rejection's message; a
    success status with a body that does not parse shows the parser's
    message; a status that is not a success shows the body's [error] when
    that is truthy - converted to a string, or the conversion's own
    failure when it cannot be converted - and the default message
    otherwise, also for a [null] body, which [errData?.error] reads
    safely. *)
Theorem X8_details_error_message :
  forall (h : Host) (d : Dom),
    chart_section d <> None -> activity_section d <> None ->
    let shows (f : Settled) (msg : string) :=
      fst (Dashboard.loadDetails h f d) = Normal tt /\
      chart_section (snd (Dashboard.loadDetails h f d))
      = Some (Text.html "<p class=~text-danger~>Chart load failed: " ++ msg
              ++ "</p>")%string /\
      activity_section (snd (Dashboard.loadDetails h f d))
      = Some (Text.html "<p class=~text-danger~>Activity load failed: " ++ msg
              ++ "</p>")%string in
    (forall e, shows (Rejected e) (message e)) /\
    (forall e, shows (Fulfilled {| ok := true; json := Malformed e |})
                     (message e)) /\
    (forall body,
        let error := Js.get_opt body "error" in
        shows (Fulfilled {| ok := false; json := Parsed body |})
              (if Js.ToBoolean error
               then if Js.convertible error then Js.ToString error
                    else "Cannot convert object to primitive value"%string
               else "Failed to fetch dashboard data."%string)).
Proof.
  intros h d Hc Ha shows.
  assert (Hshow : forall f e,
             Dashboard.loadDetails_then h f d = (Throw e, d) ->
             shows f (message e)).
  { intros f e Hthen. unfold shows, Dashboard.loadDetails, catch.
    rewrite Hthen.
    destruct (DetailsFacts.loadDetails_catch_spec e d Hc Ha)
      as (d' & -> & Hch & Hact & _).
    cbn [fst snd]. split; [reflexivity|]. split; [exact Hch | exact Hact]. }
  split; [|split].
  - intros e. now apply Hshow.
  - intros e. now apply Hshow.
  - intros body error.
    replace (if Js.ToBoolean error
             then if Js.convertible error then Js.ToString error
                  else "Cannot convert object to primitive value"%string
             else "Failed to fetch dashboard data."%string)
      with (message (Js.Error (Js.or error
                                 (VStr "Failed to fetch dashboard data.")))).
    + now apply Hshow.
    + unfold Js.or, Js.Error.
      destruct (Js.ToBoolean error) eqn:E; [|reflexivity].
      destruct (Js.convertible error); [|reflexivity].
      destruct error; try reflexivity; discriminate E.
Qed.

Lemma X8_witness :
  chart_section
    (snd (Dashboard.loadDetails (browser false)
            (Fulfilled {| ok := false;
                          json := Parsed (VObj [("error"%string,
                                                 VNum (Num.of_Z 404))]) |})
            Sample.page))
  = Some (Text.html "<p class=~text-danger~>Chart load failed: 404</p>").
Proof.
  exact (proj1 (proj2 (proj2 (proj2
           (X8_details_error_message (browser false) Sample.page
              ltac:(discriminate) ltac:(discriminate)))
           (VObj [("error"%string, VNum (Num.of_Z 404))])))).
Defined.

(** X9: the two flows do not disturb each other.  Whether the metrics are
    applied before the details response is handled or after it,
    [loadDetails] ends the same way and the document has the same KPI
    elements, regions, console, charts and clock; the pending callbacks
    are the same too, the ticks and the render callback coming in the
    order of arrival.  Under reduced motion the two documents are
    equal. *)
Theorem X9_flows_independent :
  forall (h : Host) (f : Settled) (counts : JsVal) (d : Dom),
    let metrics_first :=
      Dashboard.loadDetails h f (Dashboard.applyMetrics h counts d) in
    let details_first :=
      Dashboard.applyMetrics h counts (snd (Dashboard.loadDetails h f d)) in
    fst metrics_first = fst (Dashboard.loadDetails h f d) /\
    kpis (snd metrics_first) = kpis details_first /\
    clock_reads (snd metrics_first) = clock_reads details_first /\
    Effects.regions (snd metrics_first) = Effects.regions details_first /\
    charts (snd metrics_first) = charts details_first /\
    (exists ts rs : list FrameCallback,
        Forall (fun cb => Obs.is_render cb = false) ts /\
        Forall (fun cb => Obs.is_render cb = true) rs /\
        frame_queue (snd metrics_first) = frame_queue d ++ ts ++ rs /\
        frame_queue details_first = frame_queue d ++ rs ++ ts) /\
    (reduced_motion h = true -> snd metrics_first = details_first).
Proof.
  intros h f counts d metrics_first details_first.
  destruct (OrderFacts.either_order h f counts d)
    as (Hf & Hc & Hr & Hh & ts & rs & Hts & Hrs & Hred & Hq1 & Hq2).
  cbv zeta in *. fold metrics_first details_first in Hf, Hc, Hr, Hh, Hq1, Hq2.
  unfold Effects.counters in Hc. injection Hc as Hk Hc.
  split; [exact Hf|]. split; [exact Hk|]. split; [exact Hc|].
  split; [exact Hr|]. split; [exact Hh|]. split.
  - exists ts, rs. split; [|now repeat split].
    eapply Forall_impl; [|exact Hts]. intros cb H.
    unfold Schedule.is_tick in H. now apply negb_true_iff in H.
  - intros Hreduced. rewrite (Hred Hreduced) in Hq1, Hq2.
    destruct (FlowFacts.regions_inv _ _ Hr) as (R1 & R2 & R3 & R4).
    apply OrderFacts.dom_ext; try assumption.
    rewrite Hq1, Hq2. cbn [app]. now rewrite app_nil_r.
Qed.

Lemma X9_witness :
  snd (Dashboard.loadDetails (browser true) (Rejected Sample.syntax_error)
         (Dashboard.applyMetrics (browser true) Sample.counts Sample.page))
  = Dashboard.applyMetrics (browser true) Sample.counts
      (snd (Dashboard.loadDetails (browser true) (Rejected Sample.syntax_error)
              Sample.page)).
Proof.
  apply (X9_flows_independent (browser true) (Rejected Sample.syntax_error)
           Sample.counts Sample.page).
  reflexivity.
Defined.

(** X10: after the next animation frame the order of arrival no longer
    shows: a frame run on the document that got the metrics first and a
    frame run on the one that got the details first leave the same
    document, and so do any further frames. *)
Theorem X10_order_of_arrival :
  forall (h : Host) (f : Settled) (counts : JsVal) (d : Dom)
         (now : number) (nows : list number),
    Dashboard.frames h (now :: nows)
      (snd (Dashboard.loadDetails h f (Dashboard.applyMetrics h counts d)))
    = Dashboard.frames h (now :: nows)
        (Dashboard.applyMetrics h counts (snd (Dashboard.loadDetails h f d))).
Proof.
  intros h f counts d now nows.
  rewrite !FramesFacts.frames_cons.
  now rewrite OrderFacts.frame_either_order.
Qed.

(** X11: results reach the page in the order of the calls, and each
    call's result at most once: along any run of events the indices of
    the invocations whose result is handed to [applyMetrics] are strictly
    increasing, each of them is an invocation made so far, and what is
    applied is truthy. *)
Theorem X11_applied_in_call_order :
  forall (h : Host) (d : Dom) (evs : list Metrics.Event),
    let r := Metrics.run h (Metrics.initial d) evs in
    StronglySorted lt (map fst (snd r)) /\
    NoDup (map fst (snd r)) /\
    forall i counts, In (i, counts) (snd r) ->
                     i < List.length (Metrics.calls (fst r)) /\
                     Js.ToBoolean counts = true.
Proof.
  intros h d evs r. unfold r.
  pose proof (MetricsFacts.coherent_initial d) as H0.
  pose proof (RunFacts.run_sorted h evs _ H0) as Hs.
  split; [exact Hs|]. split.
  - clear -Hs. induction Hs as [|a l _ IH Ha]; constructor; [|exact IH].
    intros Hin. rewrite Forall_forall in Ha. specialize (Ha a Hin). lia.
  - intros i counts Hin.
    split; [now apply (RunBounds.run_bound h evs _ H0 i counts)|].
    clear -Hin. revert Hin. generalize (Metrics.initial d).
    induction evs as [|ev rest IH]; intros w Hin; [destruct Hin|].
    rewrite RunFacts.run_cons in Hin. cbn [snd] in Hin.
    apply in_app_or in Hin. destruct Hin as [Hin|Hin]; [|now apply (IH _ Hin)].
    destruct (MetricsFacts.applied_awaits h w ev i counts Hin)
      as (res_ok & j & _ & _ & Hres).
    now apply (AnimationFacts.settled_truthy _ _ Hres).
Qed.

Lemma X11_witness :
  1 < List.length
        (Metrics.calls
           (fst (Metrics.run (browser true) (Metrics.initial Sample.page)
                   [Metrics.Call; Metrics.Call; Metrics.Responds 1 true;
                    Metrics.Body 1 (Parsed Sample.metrics_body)]))) /\
  Js.ToBoolean Sample.counts = true.
Proof.
  apply (X11_applied_in_call_order (browser true) Sample.page
           [Metrics.Call; Metrics.Call; Metrics.Responds 1 true;
            Metrics.Body 1 (Parsed Sample.metrics_body)]).
  left. reflexivity.
Defined.

(** X12: one request per call and none otherwise: after any run of events
    the number of requests sent, of controllers made and of invocations
    started is the number of calls of [fetchMetricsOnce] - a response, a
    failure or a frame never sends anything. *)
Theorem X12_one_request_per_call :
  forall (h : Host) (d : Dom) (evs : list Metrics.Event),
    let w := fst (Metrics.run h (Metrics.initial d) evs) in
    let n := List.length (filter Pending.is_call evs) in
    List.length (Metrics.requests w) = n /\
    List.length (Metrics.aborted w) = n /\
    List.length (Metrics.calls w) = n.
Proof.
  intros h d evs w n. unfold w, n.
  pose proof (MetricsFacts.coherent_initial d) as H0.
  pose proof (MetricsFacts.coherent_run h evs _ H0) as Hw.
  pose proof (RunFacts.run_requests h evs _ H0) as Hr. cbn in Hr.
  rewrite (Metrics.controllers_in_step _ Hw).
  rewrite <- (Metrics.requests_in_step _ Hw). now repeat split.
Qed.

(** X13: the metrics flow never shows or logs an error.  No event of it -
    a call, a response, a failure, a frame - changes the chart region,
    the activity region or the console; and apart from frames the
    document changes only by [applyMetrics] on the results applied, so a
    request that fails (a network error, a status that is not a success,
    a body that does not parse or is refused, an abort) leaves the page
    exactly as it was. *)
Theorem X13_metrics_failure_silent :
  forall (h : Host) (w : Metrics.World) (evs : list Metrics.Event),
    let r := Metrics.run h w evs in
    Effects.regions (Metrics.dom (fst r)) = Effects.regions (Metrics.dom w) /\
    (Forall (fun ev => Pending.is_frame ev = false) evs ->
     Metrics.dom (fst r)
     = fold_left (fun d a => Dashboard.applyMetrics h (snd a) d) (snd r)
                 (Metrics.dom w)) /\
    (Forall (fun ev => Pending.is_frame ev = false) evs ->
     snd r = [] -> Metrics.dom (fst r) = Metrics.dom w).
Proof.
  intros h w evs r. unfold r.
  split; [apply RunBounds.run_regions|]. split.
  - apply RunBounds.run_dom.
  - intros Hno Hnil. rewrite (RunBounds.run_dom h evs w Hno), Hnil. reflexivity.
Qed.

Lemma X13_witness :
  Metrics.dom
    (fst (Metrics.run (browser false) (Metrics.initial Sample.page)
            [Metrics.Call; Metrics.Responds 0 false;
             Metrics.Body 0 (Parsed Sample.metrics_body)]))
  = Sample.page.
Proof.
  apply (X13_metrics_failure_silent (browser false) (Metrics.initial Sample.page)
           [Metrics.Call; Metrics.Responds 0 false;
            Metrics.Body 0 (Parsed Sample.metrics_body)]).
  - repeat constructor.
  - reflexivity.
Defined.

(** X14: [initDashboard] calls [fetchMetricsOnce] once.  On a page where
    that is the only call, whatever the network and the frames do, one
    request is sent, its signal is never aborted, and [applyMetrics] runs
    at most once, on the result of that call. *)
Theorem X14_single_call :
  forall (h : Host) (d : Dom) (evs : list Metrics.Event),
    Forall (fun ev => Pending.is_call ev = false) evs ->
    let r := Metrics.run h (Metrics.initial d) (Metrics.Call :: evs) in
    Metrics.requests (fst r)
    = [{| Metrics.url := "/dashboard/metrics"; Metrics.cache := "no-store";
          Metrics.signal := 0 |}] /\
    Metrics.aborted (fst r) = [false] /\
    Metrics.metricsAbort (fst r) = Some 0 /\
    (snd r = [] \/ exists counts, snd r = [(0, counts)]).
Proof.
  intros h d evs Hno r.
  pose proof (MetricsFacts.coherent_initial d) as H0.
  pose proof (MetricsFacts.coherent_run h (Metrics.Call :: evs) _ H0) as Hw.
  fold r in Hw.
  assert (Hn : List.length (filter Pending.is_call (Metrics.Call :: evs)) = 1).
  { cbn [filter Pending.is_call List.length]. f_equal. clear -Hno.
    induction Hno as [|ev rest Hev _ IH]; [reflexivity|].
    cbn [filter]. now rewrite Hev. }
  pose proof (RunBounds.run_calls h (Metrics.Call :: evs) _ H0) as Hc.
  rewrite Hn in Hc. change (List.length (Metrics.calls (fst r)) = 1) in Hc.
  pose proof (Metrics.requests_in_step _ Hw) as Hr.
  pose proof (Metrics.controllers_in_step _ Hw) as Ha.
  pose proof (Metrics.holds_latest _ Hw) as Hl.
  pose proof (Metrics.latest_live _ Hw 0 Hc) as Hlive.
  pose proof (Metrics.request_shape _ Hw 0) as Hshape.
  rewrite Hc in Hr, Ha, Hl.
  split; [|split; [|split]].
  - clear -Hr Hshape. revert Hr Hshape.
    destruct (Metrics.requests (fst r)) as [|q [|q' l]]; try discriminate.
    intros _ Hshape. now rewrite (Hshape q eq_refl).
  - clear -Ha Hlive. revert Ha Hlive.
    destruct (Metrics.aborted (fst r)) as [|b [|b' l]]; try discriminate.
    intros _ Hlive. cbn in Hlive. now injection Hlive as ->.
  - exact Hl.
  - pose proof (RunFacts.run_sorted h (Metrics.Call :: evs) _ H0) as Hs.
    pose proof (RunBounds.run_bound h (Metrics.Call :: evs) _ H0) as Hb.
    fold r in Hs, Hb. rewrite Hc in Hb. clear -Hs Hb. revert Hs Hb.
    destruct (snd r) as [|[i c] [|[i' c'] l]]; intros Hs Hb; [now left| |].
    + right. exists c. specialize (Hb i c (or_introl eq_refl)).
      now replace i with 0 by lia.
    + exfalso.
      pose proof (Hb i c (or_introl eq_refl)).
      pose proof (Hb i' c' (or_intror (or_introl eq_refl))).
      cbn [map fst] in Hs. inversion Hs as [|? ? _ Hall]; subst.
      inversion Hall; subst. lia.
Qed.

Lemma X14_witness :
  Metrics.aborted
    (fst (Metrics.run (browser true) (Metrics.initial Sample.page)
            [Metrics.Call; Metrics.Responds 0 true;
             Metrics.Body 0 (Parsed Sample.metrics_body);
             Metrics.Body 0 (Parsed Sample.metrics_body)])) = [false].
Proof.
  apply (X14_single_call (browser true) Sample.page
           [Metrics.Responds 0 true;
            Metrics.Body 0 (Parsed Sample.metrics_body);
            Metrics.Body 0 (Parsed Sample.metrics_body)]).
  repeat constructor.
Defined.

(** X15: an integer count is shown exactly.  For an integer [z] of at
    most 53 bits, [formatValue] shows the decimal digits of [|z|], grouped
    by the locale and signed, followed by the two fraction digits 00
    under 'money' and by no fraction under 'percent' or any other
    format. *)
Theorem X15_formatValue_integer :
  forall (h : Host) (z : Z),
    (Z.abs z < 2 ^ 53)%Z ->
    let shown frac :=
      Intl.format (locale h)
        (Intl.PDecimal (z <? 0)%Z (Text.dec (Z.abs z)) frac) in
    Dashboard.formatValue h (VNum (Num.of_Z z)) (VStr "money")
    = shown "00"%string /\
    Dashboard.formatValue h (VNum (Num.of_Z z)) (VStr "percent")
    = shown ""%string /\
    forall format : JsVal,
      Js.is_string format "money" = false ->
      Js.is_string format "percent" = false ->
      Dashboard.formatValue h (VNum (Num.of_Z z)) format = shown ""%string.
Proof.
  intros h z Hz shown.
  assert (Hcase : forall (s : bool) (p : positive),
             (Zpos p < 2 ^ 53)%Z ->
             let x := binary_round Num.prec Num.emax s p 0 in
             let parts frac := Intl.PDecimal s (Text.dec (Zpos p)) frac in
             Js.Number (Js.or (VNum x) (VNum Num.zero)) = x /\
             Intl.to_parts x
               {| Intl.minimumFractionDigits := Some 2;
                  Intl.maximumFractionDigits := Some 2 |} = parts "00"%string /\
             Intl.to_parts x
               {| Intl.minimumFractionDigits := None;
                  Intl.maximumFractionDigits := Some 1 |} = parts ""%string /\
             Intl.to_parts (Num.Math_round x) Intl.no_options = parts ""%string).
  { intros s p Hp x parts. unfold x, parts.
    rewrite !(IntegerFacts.to_parts_integer s p _ Hp).
    destruct (IntegerFacts.of_Z_double s p Hp) as (m & j & _ & _ & -> & Hv & Hn).
    rewrite (RoundFacts.Math_round_parts _ Hv eq_refl), Hn.
    replace (Z.abs (cond_Zopp s (Z.pos p))) with (Z.pos p)
      by (destruct s; reflexivity).
    repeat split. }
  assert (Hfmt : forall x p00 p0,
             Js.Number (Js.or (VNum (Num.of_Z z)) (VNum Num.zero)) = x ->
             Intl.to_parts x
               {| Intl.minimumFractionDigits := Some 2;
                  Intl.maximumFractionDigits := Some 2 |} = p00 ->
             Intl.to_parts x
               {| Intl.minimumFractionDigits := None;
                  Intl.maximumFractionDigits := Some 1 |} = p0 ->
             Intl.to_parts (Num.Math_round x) Intl.no_options = p0 ->
             Dashboard.formatValue h (VNum (Num.of_Z z)) (VStr "money")
             = Intl.format (locale h) p00 /\
             Dashboard.formatValue h (VNum (Num.of_Z z)) (VStr "percent")
             = Intl.format (locale h) p0 /\
             forall format : JsVal,
               Js.is_string format "money" = false ->
               Js.is_string format "percent" = false ->
               Dashboard.formatValue h (VNum (Num.of_Z z)) format
               = Intl.format (locale h) p0).
  { intros x p00 p0 Hn H2 H1 H0. unfold Dashboard.formatValue. rewrite Hn.
    change (Js.is_string (VStr "money") "money") with true.
    change (Js.is_string (VStr "percent") "money") with false.
    change (Js.is_string (VStr "percent") "percent") with true.
    cbv iota. unfold Intl.toLocaleString. rewrite H2, H1.
    split; [reflexivity|]. split; [reflexivity|].
    intros format Hm Hp. now rewrite Hm, Hp, H0. }
  unfold shown. destruct z as [|p|p].
  - apply (Hfmt Num.zero); reflexivity.
  - destruct (Hcase false p Hz) as (Hn & H2 & H1 & H0).
    apply (Hfmt (binary_round Num.prec Num.emax false p 0)); assumption.
  - destruct (Hcase true p Hz) as (Hn & H2 & H1 & H0).
    apply (Hfmt (binary_round Num.prec Num.emax true p 0)); assumption.
Qed.

Lemma X15_witness :
  Dashboard.formatValue (browser false) (VNum (Num.of_Z 1234567)) (VStr "money")
  = "1,234,567.00"%string.
Proof.
  rewrite (proj1 (X15_formatValue_integer (browser false) 1234567 eq_refl)).
  reflexivity.
Defined.

(** X16: a value that is not a finite number has no digits to show: NaN
    is shown as the locale's NaN symbol and an infinity as its infinity
    symbol, signed, whatever the format; an object that can be converted
    (one without a [toString] field of its own) and a string that is not
    a numeric literal are truthy, become NaN and are shown so. *)
Theorem X16_formatValue_not_finite :
  forall (h : Host) (value format : JsVal),
    let n := Js.Number (Js.or value (VNum Num.zero)) in
    (Num.is_nan n = true ->
     Dashboard.formatValue h value format = Intl.nan_symbol (locale h)) /\
    (forall s : bool,
        n = S754_infinity s ->
        Dashboard.formatValue h value format
        = ((if s then Intl.minus_sign (locale h) else "")
           ++ Intl.infinity_symbol (locale h))%string) /\
    (forall fields : list (string * JsVal),
        Js.convertible (VObj fields) = true ->
        Dashboard.formatValue h (VObj fields) format
        = Intl.nan_symbol (locale h)) /\
    Dashboard.formatValue h (VStr "12 orders") format
    = Intl.nan_symbol (locale h).
Proof.
  intros h value format n.
  assert (Hnan : forall v, Js.Number (Js.or v (VNum Num.zero)) = Num.nan ->
                           Dashboard.formatValue h v format
                           = Intl.nan_symbol (locale h)).
  { intros v Hv. unfold Dashboard.formatValue. rewrite Hv.
    destruct (Js.is_string format "money"); [reflexivity|].
    destruct (Js.is_string format "percent"); reflexivity. }
  split; [|split; [|split]].
  - intros Hn. apply Hnan. fold n. now destruct n.
  - intros s Hs. unfold Dashboard.formatValue. fold n. rewrite Hs.
    destruct (Js.is_string format "money"); [reflexivity|].
    destruct (Js.is_string format "percent"); reflexivity.
  - intros fields _. apply Hnan. vm_compute. reflexivity.
  - apply Hnan. vm_compute. reflexivity.
Qed.

Lemma X16_witness :
  Dashboard.formatValue (browser false) (VStr "Infinity") (VStr "money")
  = Text.byte_string [226; 136; 158].
Proof.
  exact (proj1 (proj2 (X16_formatValue_not_finite (browser false)
                         (VStr "Infinity") (VStr "money"))) false eq_refl).
Defined.

(** X17: a negative value that rounds to zero keeps its sign: under a
    format other than 'money' and 'percent' a negative number whose
    nearest integer is 0 (such as -0.4) is shown as minus zero, and under
    'money' a negative number below half a cent is shown as minus
    0.00. *)
Theorem X17_formatValue_negative_zero :
  forall (h : Host) (m : positive) (e : Z),
    let x := S754_finite true m e in
    Num.is_double x = true ->
    (Num.nearest_integer x = 0%Z ->
     forall format : JsVal,
       Js.is_string format "money" = false ->
       Js.is_string format "percent" = false ->
       Dashboard.formatValue h (VNum x) format
       = (Intl.minus_sign (locale h) ++ "0")%string) /\
    (Num.round_scaled m e 2 = 0%Z ->
     Dashboard.formatValue h (VNum x) (VStr "money")
     = (Intl.minus_sign (locale h) ++ "0" ++ Intl.decimal_separator (locale h)
        ++ "00")%string).
Proof.
  intros h m e x Hx. split.
  - intros Hn format Hm Hp. unfold Dashboard.formatValue.
    change (Js.Number (Js.or (VNum x) (VNum Num.zero))) with x.
    rewrite Hm, Hp. unfold Intl.toLocaleString.
    rewrite (RoundFacts.Math_round_parts x Hx eq_refl), Hn.
    reflexivity.
  - intros Hr. unfold Dashboard.formatValue.
    change (Js.Number (Js.or (VNum x) (VNum Num.zero))) with x.
    change (Js.is_string (VStr "money") "money") with true. cbv iota.
    unfold Intl.toLocaleString, Intl.to_parts, x.
    cbn [Intl.resolve Intl.minimumFractionDigits Intl.maximumFractionDigits].
    rewrite Hr. reflexivity.
Qed.

Lemma X17_witness :
  Dashboard.formatValue (browser false) (VNum (Num.of_ratio true 2 5))
    (VStr "int") = "-0"%string /\
  Dashboard.formatValue (browser false) (VNum (Num.of_ratio true 1 1000))
    (VStr "money") = "-0.00"%string.
Proof.
  split.
  - exact (proj1 (X17_formatValue_negative_zero (browser false)
                    7205759403792794 (-54) eq_refl) eq_refl (VStr "int")
             eq_refl eq_refl).
  - exact (proj2 (X17_formatValue_negative_zero (browser false)
                    4611686018427388 (-62) eq_refl) eq_refl).
Defined.

(** X18: the ends of the collection rate.  For a debt that is a finite
    positive number, a debt paid in full gives exactly 100 (the quotient
    of a number by itself is 1), nothing paid gives 0, and a missing
    [total_paid] gives NaN, so that the centre text of the doughnut reads
    100%, 0% and NaN%. *)
Theorem X18_percentage_ends :
  forall (m : positive) (e : Z),
    let total_debt := VNum (S754_finite false m e) in
    Dashboard.percentage_of total_debt total_debt = Num.of_Z 100 /\
    Dashboard.percentage_of total_debt (VNum Num.zero) = Num.zero /\
    Dashboard.percentage_of total_debt VUndefined = Num.nan /\
    map (fun total_paid =>
           (Js.ToString (VNum (Dashboard.percentage_of total_debt total_paid))
            ++ "%")%string)
        [total_debt; VNum Num.zero; VUndefined]
    = ["100%"; "0%"; "NaN%"]%string.
Proof.
  intros m e total_debt.
  assert (H100 : Dashboard.percentage_of total_debt total_debt = Num.of_Z 100).
  { unfold Dashboard.percentage_of, Js.gt_number.
    change (Num.ltb Num.zero (Js.Number total_debt)) with true. cbv iota.
    change (Js.Number total_debt) with (S754_finite false m e).
    rewrite EndpointFacts.div_self. vm_compute. reflexivity. }
  assert (H0 : Dashboard.percentage_of total_debt (VNum Num.zero) = Num.zero)
    by reflexivity.
  assert (Hnan : Dashboard.percentage_of total_debt VUndefined = Num.nan)
    by reflexivity.
  split; [exact H100|]. split; [exact H0|]. split; [exact Hnan|].
  cbn [map]. rewrite H100, H0, Hnan. vm_compute. reflexivity.
Qed.

(** X19: the [beforeDraw] hook of the doughnut draws one text per call -
    the percentage followed by a percent sign, at half the chart's width
    and at height 105, in bold 22px Segoe UI, centred on the point - and,
    although it restores before it saves, it does not let the stack of
    saved drawing states grow: a call leaves the stack as deep as it
    found it (one deep if it was empty), with the state just used on
    top, so that any number of redraws keeps the depth the first call
    left. *)
Theorem X19_beforeDraw :
  forall (Other : Type) (percentage : number) (width : JsVal)
         (c : Canvas.Context Other),
    let c' := Canvas.beforeDraw percentage width c in
    Canvas.filled c'
    = Canvas.filled c
      ++ [{| Canvas.text := (Js.ToString (VNum percentage) ++ "%")%string;
             Canvas.x := Num.div (Js.Number width) (Num.of_Z 2);
             Canvas.y := Num.of_Z 105;
             Canvas.drawn_with := Canvas.state c' |}] /\
    Canvas.font (Canvas.state c') = "bold 22px Segoe UI"%string /\
    Canvas.textBaseline (Canvas.state c') = "middle"%string /\
    Canvas.textAlign (Canvas.state c') = "center"%string /\
    hd_error (Canvas.stack c') = Some (Canvas.state c') /\
    List.length (Canvas.stack c') = Nat.max 1 (List.length (Canvas.stack c)) /\
    forall n : nat,
      let redrawn := Nat.iter n (Canvas.beforeDraw percentage width) c' in
      Canvas.state redrawn = Canvas.state c' /\
      Canvas.stack redrawn = Canvas.stack c' /\
      List.length (Canvas.filled redrawn) = List.length (Canvas.filled c') + n.
Proof.
  intros Other percentage width c c'.
  assert (Hone : forall c0 : Canvas.Context Other,
             let c1 := Canvas.beforeDraw percentage width c0 in
             Canvas.filled c1
             = Canvas.filled c0
               ++ [{| Canvas.text := (Js.ToString (VNum percentage) ++ "%")%string;
                      Canvas.x := Num.div (Js.Number width) (Num.of_Z 2);
                      Canvas.y := Num.of_Z 105;
                      Canvas.drawn_with := Canvas.state c1 |}] /\
             Canvas.stack c1
             = Canvas.state c1 :: tl (Canvas.stack c0) /\
             Canvas.state c1
             = {| Canvas.font := "bold 22px Segoe UI";
                  Canvas.textBaseline := "middle";
                  Canvas.textAlign := "center";
                  Canvas.other :=
                    Canvas.other (match Canvas.stack c0 with
                                  | [] => Canvas.state c0
                                  | s :: _ => s
                                  end) |}).
  { intros c0. unfold Canvas.beforeDraw, Canvas.save, Canvas.fillText,
      Canvas.set_textAlign, Canvas.set_textBaseline, Canvas.set_font,
      Canvas.set_state, Canvas.restore.
    destruct (Canvas.stack c0) as [|s rest] eqn:E; cbn; rewrite ?E;
      repeat split. }
  destruct (Hone c) as (Hf & Hs & Hst). fold c' in Hf, Hs, Hst.
  split; [exact Hf|]. rewrite Hst at 1 2 3.
  do 3 (split; [reflexivity|]).
  split; [now rewrite Hs|]. split.
  - rewrite Hs. cbn [List.length]. destruct (Canvas.stack c); reflexivity.
  - intros n. cbv zeta. clearbody c'.
    induction n as [|n (IHs & IHk & IHf)].
    + cbn [Nat.iter]. split; [reflexivity|]. split; [reflexivity|].
      symmetry. apply Nat.add_0_r.
    + rewrite Nat.iter_succ.
      destruct (Hone (Nat.iter n (Canvas.beforeDraw percentage width) c'))
        as (Hf' & Hs' & Hst').
      rewrite IHk, Hs in Hs', Hst'. cbn [tl] in Hs'.
      assert (Heq : Canvas.state
                      (Canvas.beforeDraw percentage width
                         (Nat.iter n (Canvas.beforeDraw percentage width) c'))
                    = Canvas.state c').
      { rewrite Hst'. rewrite Hst at 2. rewrite Hst. reflexivity. }
      split; [exact Heq|]. split.
      * rewrite Hs', Heq. now rewrite Hs.
      * rewrite Hf', length_app, IHf. cbn [List.length]. lia.
Qed.

(** X20: a frame whose timestamp equals the start time shows zero and
    keeps the animation going: for a finite start, a finite end value and
    a 750 ms duration, provided the host's [Math.pow(1, 3)] is 1, [tick]
    writes the formatted 0 and queues itself again. *)
Theorem X20_tick_at_start :
  forall (h : Host) (el : nat) (format : JsVal) (start to : number)
         (d : Dom) (k : Kpi),
    nth_error (kpis d) el = Some k ->
    Num.is_finite start = true -> Num.is_finite to = true ->
    Math_pow3 h Num.one = Num.one ->
    let d' := Dashboard.tick h el format (VNum (Num.of_Z 750)) start
                Num.zero to start d in
    Obs.text_of d' el = Some (Dashboard.formatValue h (VNum Num.zero) format) /\
    frame_queue d'
    = frame_queue d
      ++ [Tick el format (VNum (Num.of_Z 750)) start Num.zero to].
Proof.
  intros h el format start to d k Hk Hs Hto Hpow d'.
  assert (Ht : Num.Math_min
                 (Num.div (Num.sub start start) (Js.Number (VNum (Num.of_Z 750))))
                 Num.one = Num.zero)
    by (rewrite (EndpointFacts.sub_self start Hs); reflexivity).
  assert (Hcur : Num.add Num.zero
                   (Num.mul (Num.sub to Num.zero)
                            (Dashboard.easeOutCubic h Num.zero)) = Num.zero).
  { unfold Dashboard.easeOutCubic.
    change (Num.sub Num.one Num.zero) with Num.one. rewrite Hpow.
    change (Num.sub Num.one Num.one) with Num.zero.
    rewrite NumFacts.sub_zero_r.
    destruct to as [[|]|[|]| |[|] m e]; try discriminate Hto; reflexivity. }
  unfold d', Dashboard.tick. rewrite Ht, Hcur.
  change (Num.ltb Num.zero Num.one) with true. cbv iota.
  split; [|reflexivity].
  unfold DomOps.requestAnimationFrame, Obs.text_of. cbn [kpis].
  now apply (DomFacts.text_of_set_same d el _ k).
Qed.

Lemma X20_witness :
  Obs.text_of
    (Dashboard.tick (browser false) 1 (VStr "money") (VNum (Num.of_Z 750))
       (Num.of_Z 1000) Num.zero (Num.of_ratio false 12345 10) (Num.of_Z 1000)
       Sample.page) 1
  = Some (Dashboard.formatValue (browser false) (VNum Num.zero) (VStr "money")).
Proof.
  apply (X20_tick_at_start (browser false) 1 (VStr "money") (Num.of_Z 1000)
           (Num.of_ratio false 12345 10) Sample.page Sample.revenue_card);
    reflexivity.
Defined.

(** X21: a KPI element whose key the counts do not hold, neither as a
    property of their own nor as one they inherit - or hold as [null], 0,
    NaN, the empty string or [false] - ends up showing the formatted 0
    ("0", or "0.00" as money, in an en-US browser): at once under reduced
    motion, and otherwise once a frame has reached the full duration. *)
Theorem X21_missing_key_shows_zero :
  forall (h : Host) (counts : JsVal) (d : Dom) (i : nat) (el : Kpi),
    Js.ToBoolean counts = true ->
    nth_error (kpis d) i = Some el ->
    Js.reads_own counts (data_key el) = true ->
    Obs.values_convert counts d = true ->
    Js.ToBoolean (Js.own_property counts (data_key el)) = false ->
    let shown := Dashboard.formatValue h (VNum Num.zero) (Obs.format_for el) in
    (reduced_motion h = true ->
     Obs.text_of (Dashboard.applyMetrics h counts d) i = Some shown) /\
    (reduced_motion h = false ->
     Math_pow3 h Num.zero = Num.zero ->
     (forall k, Num.is_finite (performance_now h k) = true) ->
     Obs.ticks_for i d = [] ->
     forall nows : list number,
       Forall (fun now => Num.is_finite now = true) nows ->
       Exists (fun now =>
                 Num.ltb (Obs.fraction (performance_now h (clock_reads d + i)) now)
                         Num.one = false) nows ->
       Obs.text_of (Dashboard.frames h nows (Dashboard.applyMetrics h counts d)) i
       = Some shown) /\
    Dashboard.formatValue (browser false) (VNum Num.zero) (VStr "int")
    = "0"%string /\
    Dashboard.formatValue (browser false) (VNum Num.zero) (VStr "money")
    = "0.00"%string.
Proof.
  intros h counts d i el Ht Hel _ _ Hmiss shown.
  assert (Hor : Js.or (Obs.value_for counts el) (VNum Num.zero) = VNum Num.zero).
  { unfold Obs.value_for, Js.coalesce, Js.or.
    destruct (Js.own_property counts (data_key el)); try reflexivity;
      now rewrite Hmiss. }
  assert (Hlt : i < List.length (kpis d))
    by (apply nth_error_Some; congruence).
  assert (Happly : Dashboard.applyMetrics h counts d
                   = fold_left (Dashboard.applyMetrics_each h counts)
                       (seq 0 (List.length (kpis d))) d)
    by (unfold Dashboard.applyMetrics; now rewrite Ht).
  split; [|split; [|split; reflexivity]].
  - intros Hr.
    destruct (ApplyAll.reduced_upto h counts d (List.length (kpis d)) Hr
                (Nat.le_refl _)) as (_ & _ & Htext).
    rewrite Happly, (Htext i el Hel).
    replace (i <? List.length (kpis d))%nat with true
      by (symmetry; now apply Nat.ltb_lt).
    unfold shown, Dashboard.formatValue. now rewrite Hor.
  - intros Hr Hpow Hclock Hidle nows Hfin Hreach.
    destruct (ApplyAll.animated_upto h counts d (List.length (kpis d)) Hr
                (Nat.le_refl _)) as (Ha & _ & _ & Hq).
    specialize (Hq i el Hel). rewrite <- Happly in Hq, Ha.
    rewrite Hidle in Hq. cbn [app] in Hq.
    replace (i <? List.length (kpis d))%nat with true in Hq
      by (symmetry; now apply Nat.ltb_lt).
    unfold Obs.first_tick in Hq. rewrite Hor in Hq.
    change (Js.Number (VNum Num.zero)) with Num.zero in Hq.
    destruct (AnimationFacts.frames_complete h i (Obs.format_for el)
                (performance_now h (clock_reads d + i)) Num.zero nows
                Hpow (Hclock _) eq_refl ltac:(discriminate) Hfin Hreach
                (Dashboard.applyMetrics h counts d) Hq) as [Htext _].
    + now rewrite (ApplyAll.attrs_length _ _ Ha).
    + exact Htext.
Qed.

Lemma X21_witness :
  Obs.text_of
    (Dashboard.applyMetrics (browser true)
       (VObj [("orders"%string, VNum (Num.of_Z 42))]) Sample.page) 1
  = Some (Dashboard.formatValue (browser true) (VNum Num.zero) (VStr "money")).
Proof.
  apply (X21_missing_key_shows_zero (browser true)
           (VObj [("orders"%string, VNum (Num.of_Z 42))]) Sample.page 1
           Sample.revenue_card); reflexivity.
Defined.

(** X22: a metrics body of the wrong type is refused with the default
    message: when the body parses to a number, a string, a boolean or an
    array, [data.ok] is [undefined], and [fetchMetricsOnce] throws
    Error('Failed to fetch metrics.') whatever the status. *)
Theorem X22_metrics_body_not_an_object :
  forall (res_ok : bool) (data : JsVal),
    Obs.is_null data = false ->
    (forall fields, data <> VObj fields) ->
    Dashboard.fetchMetricsOnce_settled
      (Fulfilled {| ok := res_ok; json := Parsed data |})
    = Throw {| name := "Error"; message := "Failed to fetch metrics." |}.
Proof.
  intros res_ok data Hnull Hobj.
  unfold Dashboard.fetchMetricsOnce_settled, Dashboard.fetchMetricsOnce_check.
  cbn [json ok].
  assert (Hok : Js.get data "ok" = Normal VUndefined).
  { destruct data as [| |b|n|s|items|fields]; try discriminate Hnull;
      try reflexivity. now elim (Hobj fields). }
  assert (Herr : Dashboard.metrics_error data
                 = {| name := "Error"; message := "Failed to fetch metrics." |}).
  { destruct data as [| |b|n|s|items|fields]; try discriminate Hnull;
      try reflexivity. now elim (Hobj fields). }
  rewrite Hok, Herr. now destruct res_ok.
Qed.

Lemma X22_witness :
  Dashboard.fetchMetricsOnce_settled
    (Fulfilled {| ok := true; json := Parsed (VArr [VNum (Num.of_Z 42)]) |})
  = Throw {| name := "Error"; message := "Failed to fetch metrics." |}.
Proof.
  apply X22_metrics_body_not_an_object; [reflexivity | discriminate].
Defined.

(** X23: the markup [loadDetails] writes declares the elements the script
    looks up afterwards: whatever the totals, the chart markup holds the
    three canvases [renderCharts] draws on ([ordersChart],
    [topClientsChart], [debtChart]); the activity markup holds the list
    [activityList] the items are appended to, and the placeholder markup
    does not. *)
Theorem X23_markup_declares_ids :
  forall (total_debt total_paid data : JsVal) (percentage : number),
    map canvas (Drawing.three_charts data percentage)
    = ["ordersChart"; "topClientsChart"; "debtChart"]%string /\
    Forall (fun c => Markup.declares (canvas c)
                       (Dashboard.chart_markup total_debt total_paid) = true)
           (Drawing.three_charts data percentage) /\
    Markup.declares "activityList" Dashboard.activity_markup = true /\
    Markup.declares "activityList" Dashboard.no_activity_markup = false.
Proof.
  intros total_debt total_paid data percentage.
  split; [reflexivity|]. split; [|split; vm_compute; reflexivity].
  unfold Drawing.three_charts.
  repeat constructor; cbn [canvas]; vm_compute; reflexivity.
Qed.

(** X24: the animation ends on what reduced motion shows at once.  When
    the keys of the page are read as own properties of the counts, every
    element's value can be converted and is regular (the number aimed at
    is not NaN and not -0), no tick is pending beforehand, and the frames
    are finite and
    pass the full duration of every element, the texts after the frames
    are those [applyMetrics] writes at once under reduced motion - every
    element showing its formatted value - and no tick is left. *)
Theorem X24_animation_ends_on_reduced :
  forall (h : Host) (counts : JsVal) (d : Dom) (nows : list number),
    Js.ToBoolean counts = true ->
    Obs.keys_read_own counts d = true -> Obs.values_convert counts d = true ->
    (forall i, Obs.ticks_for i d = []) ->
    (forall el, In el (kpis d) -> Hosts.regular (Obs.value_for counts el)) ->
    Math_pow3 h Num.zero = Num.zero ->
    (forall k, Num.is_finite (performance_now h k) = true) ->
    Forall (fun now => Num.is_finite now = true) nows ->
    (forall i, i < List.length (kpis d) ->
       Exists (fun now =>
                 Num.ltb (Obs.fraction (performance_now h (clock_reads d + i)) now)
                         Num.one = false) nows) ->
    let d' := Dashboard.frames h nows (Dashboard.applyMetrics h counts d) in
    Obs.texts d' = Obs.texts (Dashboard.applyMetrics (Hosts.reduced h) counts d) /\
    Obs.texts d'
    = map (fun el => Dashboard.formatValue h (Obs.value_for counts el)
                       (Obs.format_for el)) (kpis d) /\
    forall i, i < List.length (kpis d) -> Obs.ticks_for i d' = [].
Proof.
  intros h counts d nows Ht _ _ Hidle Hreg Hpow Hclock Hfin Hreach d'.
  destruct (SettleFacts.settle_texts h counts d
              (Dashboard.applyMetrics h counts d) nows Ht Hidle Hreg Hpow
              Hclock Hfin (fun _ => Hreach) eq_refl (fun _ => eq_refl))
    as [Htexts Hnone].
  split; [|split; [exact Htexts | exact Hnone]].
  unfold d'. now rewrite Htexts, SettleFacts.reduced_texts.
Qed.

Lemma X24_witness :
  Obs.texts
    (Dashboard.frames (browser false) [Num.of_Z 1100; Num.of_Z 1750]
       (Dashboard.applyMetrics (browser false) Sample.counts Sample.page))
  = Obs.texts (Dashboard.applyMetrics (Hosts.reduced (browser false))
                 Sample.counts Sample.page).
Proof.
  apply (X24_animation_ends_on_reduced (browser false) Sample.counts Sample.page
           [Num.of_Z 1100; Num.of_Z 1750]).
  - reflexivity.
  - reflexivity.
  - reflexivity.
  - intros i. reflexivity.
  - intros el [<-|[<-|[]]]; repeat split; discriminate.
  - reflexivity.
  - intros k. reflexivity.
  - repeat constructor.
  - intros i _. apply Exists_cons_tl, Exists_cons_hd. reflexivity.
Defined.

(** X25: the page once both requests have succeeded, end to end.  On a
    page with both regions and nothing pending, whose metrics request
    resolves with counts of regular values (which can be converted, the
    keys of the page being read as own properties) and whose details
    request brings a body with amounts that can be printed and a
    non-empty array of activity records, after frames that pass the full
    duration: every KPI element shows its formatted value; the chart
    region holds the three canvases and the sentence with the two
    amounts; the activity region holds the list, with one item per
    record in order - icon and text under the record's colour class,
    then the time; the three charts have been created once, nothing is
    logged and nothing is pending - and this whichever response arrived
    first. *)
Theorem X25_page_loaded :
  forall (h : Host) (metrics : Settled) (counts data : JsVal)
         (items : list JsVal) (d : Dom) (now : number) (nows : list number),
    chart_section d <> None -> activity_section d <> None ->
    frame_queue d = [] ->
    Dashboard.fetchMetricsOnce_settled metrics = Normal counts ->
    Obs.keys_read_own counts d = true -> Obs.values_convert counts d = true ->
    (forall el, In el (kpis d) -> Hosts.regular (Obs.value_for counts el)) ->
    Obs.is_null data = false -> Obs.amounts_convert data = true ->
    Js.own_property data "recent_activities" = VArr items ->
    items <> [] -> (Z.of_nat (List.length items) < 2 ^ 32)%Z ->
    Forall (fun act => Obs.activity_record act = true) items ->
    Math_pow3 h Num.zero = Num.zero ->
    (forall k, Num.is_finite (performance_now h k) = true) ->
    Forall (fun t => Num.is_finite t = true) (now :: nows) ->
    (forall i, i < List.length (kpis d) ->
       Exists (fun t =>
                 Num.ltb (Obs.fraction (performance_now h (clock_reads d + i)) t)
                         Num.one = false) (now :: nows)) ->
    let details := Fulfilled {| ok := true; json := Parsed data |} in
    let total_debt := Js.own_property data "total_debt" in
    let total_paid := Js.own_property data "total_paid" in
    let metrics_first :=
      Dashboard.frames h (now :: nows)
        (snd (Dashboard.loadDetails h details
                (Dashboard.applyMetrics h counts d))) in
    let details_first :=
      Dashboard.frames h (now :: nows)
        (Dashboard.applyMetrics h counts
           (snd (Dashboard.loadDetails h details d))) in
    let item (act : JsVal) : Li :=
      let color := Js.ToString (Js.own_property act "color") in
      let icon := Js.ToString (Js.own_property act "icon") in
      let text := Js.ToString (Js.own_property act "text") in
      let time := Date_toLocaleString h (Js.own_property act "time") in
      {| className :=
           "list-group-item d-flex justify-content-between align-items-start flex-wrap px-0 py-2";
         innerHTML :=
           Text.lines
             [ "";
               Text.html "              <div class=~d-flex align-items-start~>";
               Text.html "                <span class=~fs-5 me-2 " ++ color
                 ++ Text.html "~>" ++ icon ++ "</span>";
               Text.html "                <div><div class=~fw-medium " ++ color
                 ++ Text.html "~>" ++ text ++ "</div></div>";
               Text.html "              </div>";
               Text.html "              <small class=~text-muted ms-auto mt-1~>"
                 ++ time ++ "</small>";
               "            " ]%string |} in
    details_first = metrics_first /\
    Obs.texts metrics_first
    = map (fun el => Dashboard.formatValue h (Obs.value_for counts el)
                       (Obs.format_for el)) (kpis d) /\
    (exists markup,
        chart_section metrics_first = Some markup /\
        Forall (fun id => Markup.declares id markup = true)
               ["ordersChart"; "topClientsChart"; "debtChart"]%string /\
        Markup.occurs ("Out of GHS " ++ Js.ToString total_debt
                       ++ ", you've collected GHS " ++ Js.ToString total_paid)
                      markup = true) /\
    (exists markup,
        activity_section metrics_first = Some markup /\
        Markup.declares "activityList" markup = true) /\
    activity_list metrics_first = Some (map item items) /\
    charts metrics_first
    = charts d
      ++ Drawing.three_charts data
           (Dashboard.percentage_of total_debt total_paid) /\
    console metrics_first = console d /\
    frame_queue metrics_first = [].
Proof.
  intros h metrics counts data items d now nows Hc Ha Hq0 Hm _ _ Hreg Hd _ Hr
    Hne Hlen Hrec Hpow Hclock Hfin Hreach details total_debt total_paid
    metrics_first details_first item.
  assert (Hall : Forall (fun act => Obs.is_null act = false) items).
  { apply (Forall_impl _ (P := fun act => Obs.activity_record act = true));
      [|exact Hrec].
    intros act H. unfold Obs.activity_record in H.
    apply andb_prop in H. now destruct (Obs.is_null act). }
  destruct (LoadedFacts.page_loaded h metrics counts data items d now nows
              Hc Ha Hq0 Hm Hreg Hd Hr Hne Hlen Hall Hpow Hclock Hfin Hreach)
    as (Horder & Htexts & Hch & Hact & Hlist & Hcharts & Hlog & Hq).
  split; [exact Horder|]. split; [exact Htexts|].
  split; [|split; [|split; [|split; [exact Hcharts|split; assumption]]]].
  - exists (Dashboard.chart_markup total_debt total_paid).
    split; [exact Hch|]. split.
    + repeat constructor; vm_compute; reflexivity.
    + unfold Dashboard.chart_markup.
      eapply MarkupFacts.occurs_lines.
      * do 14 right. left. reflexivity.
      * match goal with |- Markup.occurs ?n ?l = true =>
          replace l
            with (Text.html "            <p class=~mt-3~>" ++ n ++ "</p>")%string
        end.
        -- apply MarkupFacts.occurs_between.
        -- rewrite !MarkupFacts.append_assoc. reflexivity.
  - exists Dashboard.activity_markup. split; [exact Hact|].
    vm_compute. reflexivity.
  - exact Hlist.
Qed.

Lemma X25_witness :
  let loaded :=
    Dashboard.frames (browser false) [Num.of_Z 1100; Num.of_Z 1750]
      (snd (Dashboard.loadDetails (browser false)
              (Fulfilled
                 {| ok := true;
                    json := Parsed (Sample.details_with
                                      (VArr [Sample.payment; Sample.order])) |})
              (Dashboard.applyMetrics (browser false) Sample.counts
                 Sample.page))) in
  Obs.texts loaded = ["42"; "1,234.50"]%string /\ frame_queue loaded = [].
Proof.
  assert (Hreg : forall el, In el (kpis Sample.page) ->
                   Hosts.regular (Obs.value_for Sample.counts el))
    by (intros el [<-|[<-|[]]]; repeat split; discriminate).
  assert (Hreach : forall i, i < List.length (kpis Sample.page) ->
             Exists (fun t =>
                       Num.ltb (Obs.fraction
                                  (performance_now (browser false)
                                     (clock_reads Sample.page + i)) t)
                               Num.one = false)
                    [Num.of_Z 1100; Num.of_Z 1750])
    by (intros i _; apply Exists_cons_tl, Exists_cons_hd; reflexivity).
  destruct (X25_page_loaded (browser false)
              (Fulfilled {| ok := true; json := Parsed Sample.metrics_body |})
              Sample.counts
              (Sample.details_with (VArr [Sample.payment; Sample.order]))
              [Sample.payment; Sample.order] Sample.page
              (Num.of_Z 1100) [Num.of_Z 1750]
              ltac:(discriminate) ltac:(discriminate) eq_refl eq_refl
              eq_refl eq_refl Hreg
              eq_refl eq_refl eq_refl ltac:(discriminate) eq_refl
              ltac:(repeat constructor) eq_refl (fun _ => eq_refl)
              ltac:(repeat constructor) Hreach)
    as (_ & Htexts & _ & _ & _ & _ & _ & Hq).
  split; [|exact Hq]. cbv zeta. rewrite Htexts. vm_compute. reflexivity.
Defined.



(** X27: the share that is drawn is a whole percentage.  When the debt
    is a positive Number and the amount paid is a finite Number from
    zero up to the debt, the percentage handed to the chart is a whole
    Number from 0 to 100, and the text in the middle of the doughnut is
    its decimal digits followed by the percent sign: rounding the
    quotient, its product by one hundred and the result never leaves the
    range. *)
Theorem X27_percentage_in_range :
  forall debt paid : number,
    Num.is_double debt = true -> Num.is_double paid = true ->
    Num.is_finite paid = true -> Num.sign_bit paid = false ->
    Num.ltb Num.zero debt = true -> Num.ltb debt paid = false ->
    exists z : Z,
      (0 <= z <= 100)%Z /\
      Dashboard.percentage_of (VNum debt) (VNum paid) = Num.of_Z z /\
      (Js.ToString (VNum (Dashboard.percentage_of (VNum debt) (VNum paid)))
       ++ "%")%string = (Text.dec z ++ "%")%string.
Proof.
  intros debt paid Hd Hp Hfin Hsign Hpos Hle.
  destruct (PercentRange.percent_number debt paid Hd Hp Hfin Hsign Hpos Hle)
    as (z & Hz & Hr).
  exists z. split; [exact Hz|].
  assert (Hpct : Dashboard.percentage_of (VNum debt) (VNum paid) = Num.of_Z z).
  { unfold Dashboard.percentage_of, Js.gt_number. cbn [Js.Number].
    rewrite Hpos. exact Hr. }
  split; [exact Hpct|].
  rewrite Hpct. now rewrite PercentRange.whole_text.
Qed.

Lemma X27_witness :
  exists z : Z,
    (0 <= z <= 100)%Z /\
    Dashboard.percentage_of (VNum (Num.of_Z 3)) (VNum (Num.of_Z 1))
    = Num.of_Z z /\
    (Js.ToString
       (VNum (Dashboard.percentage_of (VNum (Num.of_Z 3)) (VNum (Num.of_Z 1))))
     ++ "%")%string = (Text.dec z ++ "%")%string.
Proof.
  apply (X27_percentage_in_range (Num.of_Z 3) (Num.of_Z 1)); reflexivity.
Defined.
